(** * CFDI tax calculator: the numeric reconciliation engine

    A shallow embedding of [src/utils/taxCalculator.js], [src/utils/mathUtils.js]
    and [src/config/constants.js].  JavaScript numbers are IEEE 754 binary64
    values, so they are modelled by Rocq's primitive [float]s, whose operations
    are the very same binary64 operations; exceptions are modelled by a small
    error monad, and the two loops of Goal Seek by a fuelled loop runner whose
    termination is proved, not assumed.  Where a statement bounds the error
    of a computation, the doubles are read as the real numbers they stand
    for. *)

From Stdlib Require Import Reals Lra.
From Stdlib Require Import ZArith Floats Lia Bool List String.
From Stdlib Require Uint63.
Import ListNotations.

Set Warnings "-inexact-float".

Local Open Scope string_scope.
Local Open Scope float_scope.

(** ** ECMAScript number primitives *)

Module JS.

(** [Number.EPSILON], the gap between 1 and the next double. *)
Definition Number_EPSILON : float := 0x1p-52.

(** [isNaN] on a value that already is a Number. *)
Definition isNaN (value : float) : bool := is_nan value.

(** [parseFloat] applied to a Number: the argument is first converted with
    ToString, which prints the shortest decimal that reads back as the same
    double, so the value is returned unchanged, except that [-0] prints as
    ["0"] and comes back as [+0]. *)
Definition parseFloat (value : float) : float :=
  if is_zero value then zero else value.

(** ToBoolean on a Number: [+0], [-0] and [NaN] are falsy. *)
Definition truthy (value : float) : bool :=
  negb (is_zero value || is_nan value).

(** [value || fallback] where [value] is a Number or [undefined] ([None]). *)
Definition or_else (value : option float) (fallback : float) : float :=
  match value with
  | Some x => if truthy x then x else fallback
  | None => fallback
  end.

Definition Math_abs (x : float) : float := abs x.

(** [Math.max(a, b)]: NaN if either is NaN; [+0] is larger than [-0]. *)
Definition Math_max (a b : float) : float :=
  if is_nan a || is_nan b then nan
  else if a <? b then b
  else if b <? a then a
  else if get_sign a then b else a.

(** A small integer as a Number. *)
Definition of_Z (n : Z) : float :=
  if (n <? 0)%Z then - of_uint63 (Uint63.of_Z (- n))
  else of_uint63 (Uint63.of_Z n).

(** [Math.round(x)]: NaN, the infinities and the integers are returned as
    they are; otherwise the integer closest to [x], ties going towards
    [+infinity], that is [floor(x + 1/2)] computed exactly; the result is
    [-0] when [x] is [-0] or lies in [[-0.5, 0)].  A finite non-zero double
    is [(-1)^s * m * 2^e]; for [0 <= e] it is an integer, and for [e < 0]
    the floor is an integer division, whose result has at most 53 bits. *)
Definition Math_round (x : float) : float :=
  match Prim2SF x with
  | S754_finite s m e =>
      if (0 <=? e)%Z then x
      else
        let n := ((2 * cond_Zopp s (Zpos m) + 2 ^ (- e)) / 2 ^ (1 - e))%Z in
        if s then - of_uint63 (Uint63.of_Z (- n))
        else of_uint63 (Uint63.of_Z n)
  | _ => x
  end.

End JS.

(** ** Exceptions *)

(** The [Error] objects the engine throws, by the message they carry. *)
Inductive Error : Type :=
| MustBeValidNumber (fieldName : string)
    (* `${fieldName}: Must be a valid number` *)
| MustBeGreaterThanZero (fieldName : string)
    (* `${fieldName}: Must be greater than 0` *)
| PercentageOutOfRange
    (* 'Percentage must be between 0 and 1' *)
| Round2NotANumber
    (* 'round2: Value must be a valid number' *)
| I18n (key : string)
    (* i18n.t(key) *)
| TypeError (what : string)
    (* a property access on null *)
| Rethrown (prefix : string) (cause : Error).
    (* `${prefix}: ${error.message}` *)

(** The message of an error, given the translation function [i18n.t] of the
    language in use. *)
Fixpoint message (t : string -> string) (e : Error) : string :=
  match e with
  | MustBeValidNumber f => f ++ ": Must be a valid number"
  | MustBeGreaterThanZero f => f ++ ": Must be greater than 0"
  | PercentageOutOfRange => "Percentage must be between 0 and 1"
  | Round2NotANumber => "round2: Value must be a valid number"
  | I18n key => t key
  | TypeError what => what
  | Rethrown prefix cause => prefix ++ ": " ++ message t cause
  end.

(** The error kinds of the specification. *)
Inductive ErrorKind : Type :=
| InvalidInput | InvalidNumber | DegenerateRates | GoalSeekUnreachable | OtherError.

Fixpoint kind (e : Error) : ErrorKind :=
  match e with
  | MustBeValidNumber _ | MustBeGreaterThanZero _ | PercentageOutOfRange => InvalidInput
  | Round2NotANumber => InvalidNumber
  | I18n key =>
      if String.eqb key "denominatorTooSmall" then DegenerateRates
      else if String.eqb key "goalSeekTimeout" then GoalSeekUnreachable
      else OtherError
  | TypeError _ => OtherError
  | Rethrown _ cause => kind cause
  end.

(** A computation that returns a value or throws. *)
Inductive result (A : Type) : Type :=
| Return (a : A)
| Throw (e : Error).

Arguments Return {A} a.
Arguments Throw {A} e.

Definition bind {A B : Type} (c : result A) (k : A -> result B) : result B :=
  match c with
  | Return a => k a
  | Throw e => Throw e
  end.

Notation "x <- c ;; k" := (bind c (fun x => k))
  (at level 61, c at next level, right associativity).

(** [try { body } catch (error) { throw new Error(`${prefix}: ${error.message}`) }] *)
Definition try_rethrow {A : Type} (prefix : string) (body : result A) : result A :=
  match body with
  | Return a => Return a
  | Throw e => Throw (Rethrown prefix e)
  end.

(** ** config/constants.js *)

Record PrecisionConfig : Type :=
  { DECIMAL_PLACES : Z;
    EPSILON : float }.

Definition PRECISION_CONFIG : PrecisionConfig :=
  {| DECIMAL_PLACES := 2;
     EPSILON := JS.Number_EPSILON |}.

Record GoalSeekConfig : Type :=
  { MAX_ITERATIONS : Z;
    TOLERANCE : float;
    SEARCH_RANGE_MULTIPLIER : float;
    MAX_ATTEMPTS : Z }.

Definition GOAL_SEEK_CONFIG : GoalSeekConfig :=
  {| MAX_ITERATIONS := 80;
     TOLERANCE := 0.0005;
     SEARCH_RANGE_MULTIPLIER := 2000;
     MAX_ATTEMPTS := 40 |}.

(** ** utils/mathUtils.js *)

(** The value [round2] returns when it does not throw. *)
Definition round2_value (value : float) : float :=
  JS.Math_round ((value + EPSILON PRECISION_CONFIG) * 100) / 100.

(** [round2]; the [typeof value !== 'number'] half of the guard never fires on
    the Numbers the engine passes. *)
Definition round2 (value : float) : result float :=
  if JS.isNaN value then Throw Round2NotANumber
  else Return (round2_value value).

Definition validatePositiveNumber (value : float) (fieldName : string) : result bool :=
  let numValue := JS.parseFloat value in
  if JS.isNaN numValue then Throw (MustBeValidNumber fieldName)
  else if numValue <=? 0 then Throw (MustBeGreaterThanZero fieldName)
  else Return true.

Definition calculatePercentage (value percentage : float) : result float :=
  _ <- validatePositiveNumber value "Base value" ;;
  if (percentage <? 0) || (1 <? percentage) then Throw PercentageOutOfRange
  else Return (value * percentage).

(** ** utils/taxCalculator.js *)

Record RateSet : Type :=
  { vatRate : float;
    incomeTaxRate : float;
    vatRetentionFraction : float }.

(** A rates object as a caller passes it: a field is a Number or is left
    [undefined] ([None]). *)
Record RatesArg : Type :=
  { arg_vatRate : option float;
    arg_incomeTaxRate : option float;
    arg_vatRetentionFraction : option float }.

Record CalculationOptions : Type :=
  { roundPerLine : bool }.

Inductive CalculationMethod : Type := fromSubtotal | goalSeek.

Record BreakdownResult : Type :=
  { subtotal : float;
    vatRaw : float;
    incomeTaxWithheldRaw : float;
    vatRetentionRaw : float;
    vat : float;
    incomeTaxWithheld : float;
    vatRetention : float;
    netAmount : float;
    calculationMethod : CalculationMethod;
    options : CalculationOptions }.

(** [result.calculationMethod = method] *)
Definition set_calculationMethod (method : CalculationMethod) (r : BreakdownResult)
  : BreakdownResult :=
  {| subtotal := subtotal r;
     vatRaw := vatRaw r;
     incomeTaxWithheldRaw := incomeTaxWithheldRaw r;
     vatRetentionRaw := vatRetentionRaw r;
     vat := vat r;
     incomeTaxWithheld := incomeTaxWithheld r;
     vatRetention := vatRetention r;
     netAmount := netAmount r;
     calculationMethod := method;
     options := options r |}.

Module TaxCalculator.

(** [new TaxCalculator(rates)] *)
Definition constructor (rates : RatesArg) : RateSet :=
  {| vatRate := JS.or_else (arg_vatRate rates) 0.16;
     incomeTaxRate := JS.or_else (arg_incomeTaxRate rates) 0.10;
     vatRetentionFraction := JS.or_else (arg_vatRetentionFraction rates) 0.6666666667 |}.

(** [this.updateRates(newRates)], returning the new [this.rates]. *)
Definition updateRates (this : RateSet) (newRates : RatesArg) : RateSet :=
  {| vatRate :=
       match arg_vatRate newRates with Some v => v | None => vatRate this end;
     incomeTaxRate :=
       match arg_incomeTaxRate newRates with Some v => v | None => incomeTaxRate this end;
     vatRetentionFraction :=
       match arg_vatRetentionFraction newRates with
       | Some v => v
       | None => vatRetentionFraction this
       end |}.

Definition getRates (this : RateSet) : RateSet :=
  {| vatRate := vatRate this;
     incomeTaxRate := incomeTaxRate this;
     vatRetentionFraction := vatRetentionFraction this |}.

(** [options.roundPerLine ? round2(raw) : raw] *)
Definition roundLine (options : CalculationOptions) (raw : float) : result float :=
  if roundPerLine options then round2 raw else Return raw.

Definition calculateFromSubtotal (this : RateSet) (subtotal : float)
    (options : CalculationOptions) : result BreakdownResult :=
  try_rethrow "Error in calculation from subtotal" (
    _ <- validatePositiveNumber subtotal "Subtotal" ;;
    vatRaw <- calculatePercentage subtotal (vatRate this) ;;
    incomeTaxWithheldRaw <- calculatePercentage subtotal (incomeTaxRate this) ;;
    vatRetentionRaw <- calculatePercentage vatRaw (vatRetentionFraction this) ;;
    vat <- roundLine options vatRaw ;;
    incomeTaxWithheld <- roundLine options incomeTaxWithheldRaw ;;
    vatRetention <- roundLine options vatRetentionRaw ;;
    let netAmount := subtotal + vat - incomeTaxWithheld - vatRetention in
    rounded <- round2 netAmount ;;
    Return {| subtotal := subtotal;
              vatRaw := vatRaw;
              incomeTaxWithheldRaw := incomeTaxWithheldRaw;
              vatRetentionRaw := vatRetentionRaw;
              vat := vat;
              incomeTaxWithheld := incomeTaxWithheld;
              vatRetention := vatRetention;
              netAmount := rounded;
              calculationMethod := fromSubtotal;
              options := options |}).

(** The denominator of the algebraic formula. *)
Definition denominator (this : RateSet) : float :=
  1 + vatRate this - incomeTaxRate this - (vatRate this * vatRetentionFraction this).

Definition calculateSubtotalFromNetAlgebraic (this : RateSet) (netAmount : float)
  : result float :=
  try_rethrow "Error in algebraic calculation" (
    _ <- validatePositiveNumber netAmount "Net amount" ;;
    let denominator := denominator this in
    if JS.Math_abs denominator <? 0.000001 then Throw (I18n "denominatorTooSmall")
    else Return (netAmount / denominator)).

(** *** Loops

    A [while] or [for] loop is run by [run_loop]: [cond] is the loop test and
    [body] one round of the loop body, which ends normally ([Continue]),
    leaves the loop ([Break]) or throws.  The runner stops with [None] when
    it is out of fuel; that a loop of the engine never does is a theorem. *)

Inductive Control (S : Type) : Type :=
| Continue (s : S)
| Break (s : S).

Arguments Continue {S} s.
Arguments Break {S} s.

(** How a loop ended: the error thrown by the body, if any; the state the
    loop stopped in (when the body threw: the state it was entered with);
    and the number of rounds that ran to their end. *)
Record LoopRun (S : Type) : Type :=
  { thrown : option Error;
    last : S;
    completed : nat }.

Arguments thrown {S} _.
Arguments last {S} _.
Arguments completed {S} _.

Fixpoint run_loop {S : Type} (fuel : nat) (cond : S -> bool)
    (body : S -> result (Control S)) (s : S) (rounds : nat) : option (LoopRun S) :=
  match fuel with
  | O => None
  | Datatypes.S fuel' =>
      if cond s then
        match body s with
        | Throw e => Some {| thrown := Some e; last := s; completed := rounds |}
        | Return (Break s') =>
            Some {| thrown := None; last := s'; completed := Datatypes.S rounds |}
        | Return (Continue s') => run_loop fuel' cond body s' (Datatypes.S rounds)
        end
      else Some {| thrown := None; last := s; completed := rounds |}
  end.

(** The rounds a loop started: the completed ones and the one that threw. *)
Definition started {S : Type} (r : LoopRun S) : nat :=
  match thrown r with
  | Some _ => Datatypes.S (completed r)
  | None => completed r
  end.

(** *** Goal Seek *)

Section GoalSeek.

Variable this : RateSet.
Variable targetNetAmount : float.
Variable options : CalculationOptions.

Definition calculateNetForSubtotal (subtotal : float) : result float :=
  r <- calculateFromSubtotal this subtotal options ;;
  Return (netAmount r).

(** The variables of the bracket-widening loop. *)
Record Bracket : Type :=
  { attempts : Z;
    low : float;
    high : float;
    nLow : float;
    nHigh : float }.

(** Lines 109-126: validation, first approximation, search limits. *)
Definition initialBracket : result Bracket :=
  _ <- validatePositiveNumber targetNetAmount "Target net amount" ;;
  initialGuess <- calculateSubtotalFromNetAlgebraic this targetNetAmount ;;
  let low := JS.Math_max 0 (initialGuess - SEARCH_RANGE_MULTIPLIER GOAL_SEEK_CONFIG) in
  let high := initialGuess + SEARCH_RANGE_MULTIPLIER GOAL_SEEK_CONFIG in
  nLow <- calculateNetForSubtotal low ;;
  nHigh <- calculateNetForSubtotal high ;;
  Return {| attempts := 0; low := low; high := high; nLow := nLow; nHigh := nHigh |}.

(** The test of the [while] loop: both ends on the same side of the target. *)
Definition sameSide (b : Bracket) : bool :=
  ((targetNetAmount <? nLow b) && (targetNetAmount <? nHigh b))
  || ((nLow b <? targetNetAmount) && (nHigh b <? targetNetAmount)).

(** One round of the [while] loop, lines 132-140. *)
Definition widen (b : Bracket) : result (Control Bracket) :=
  let attempts := (attempts b + 1)%Z in
  if (MAX_ATTEMPTS GOAL_SEEK_CONFIG <? attempts)%Z then Throw (I18n "goalSeekTimeout")
  else
    let low :=
      JS.Math_max 0 (low b - (SEARCH_RANGE_MULTIPLIER GOAL_SEEK_CONFIG * JS.of_Z attempts)) in
    let high := high b + (SEARCH_RANGE_MULTIPLIER GOAL_SEEK_CONFIG * JS.of_Z attempts) in
    nLow <- calculateNetForSubtotal low ;;
    nHigh <- calculateNetForSubtotal high ;;
    Return (Continue {| attempts := attempts; low := low; high := high;
                        nLow := nLow; nHigh := nHigh |}).

Definition widenLoop (fuel : nat) (b : Bracket) : option (LoopRun Bracket) :=
  run_loop fuel sameSide widen b 0.

(** The variables of the binary search. *)
Record Search : Type :=
  { i : Z;
    lo : float;
    hi : float;
    bestResult : option BreakdownResult }.

(** [|net - target|] of a candidate. *)
Definition deviation (r : BreakdownResult) : float :=
  JS.Math_abs (netAmount r - targetNetAmount).

(** The test of the [for] loop. *)
Definition searching (s : Search) : bool :=
  (i s <? MAX_ITERATIONS GOAL_SEEK_CONFIG)%Z.

(** One round of the [for] loop, lines 149-168, with its [i++]. *)
Definition bisect (s : Search) : result (Control Search) :=
  let mid := (lo s + hi s) / 2 in
  result <- calculateFromSubtotal this mid options ;;
  let currentNet := netAmount result in
  let bestResult :=
    match bestResult s with
    | None => Some result
    | Some best =>
        if JS.Math_abs (currentNet - targetNetAmount) <? deviation best
        then Some result else Some best
    end in
  if JS.Math_abs (currentNet - targetNetAmount) <? TOLERANCE GOAL_SEEK_CONFIG then
    Return (Break {| i := i s; lo := lo s; hi := hi s; bestResult := bestResult |})
  else if targetNetAmount <? currentNet then
    Return (Continue {| i := (i s + 1)%Z; lo := lo s; hi := mid;
                        bestResult := bestResult |})
  else
    Return (Continue {| i := (i s + 1)%Z; lo := mid; hi := hi s;
                        bestResult := bestResult |}).

Definition searchLoop (fuel : nat) (low high : float) : option (LoopRun Search) :=
  run_loop fuel searching bisect
    {| i := 0; lo := low; hi := high; bestResult := None |} 0.

(** Lines 171-176: the final adjustment. *)
Definition finalAdjustment (bestResult : option BreakdownResult)
  : result BreakdownResult :=
  match bestResult with
  | None => Throw (TypeError "Cannot read properties of null (reading 'subtotal')")
  | Some best =>
      rounded <- round2 (subtotal best) ;;
      recomputed <- calculateFromSubtotal this rounded options ;;
      Return (set_calculationMethod goalSeek recomputed)
  end.

(** What a call did: its result, and the rounds of its two loops. *)
Record GoalSeekRun : Type :=
  { outcome : result BreakdownResult;
    widenings : nat;
    iterations : nat }.

Definition rethrowGoalSeek (r : result BreakdownResult) : result BreakdownResult :=
  try_rethrow "Error in Goal Seek" r.

Definition goalSeekRun (fuel : nat) : option GoalSeekRun :=
  match initialBracket with
  | Throw e =>
      Some {| outcome := rethrowGoalSeek (Throw e); widenings := 0; iterations := 0 |}
  | Return b0 =>
      match widenLoop fuel b0 with
      | None => None
      | Some w =>
          match thrown w with
          | Some e =>
              Some {| outcome := rethrowGoalSeek (Throw e);
                      widenings := completed w; iterations := 0 |}
          | None =>
              match searchLoop fuel (low (last w)) (high (last w)) with
              | None => None
              | Some s =>
                  match thrown s with
                  | Some e =>
                      Some {| outcome := rethrowGoalSeek (Throw e);
                              widenings := completed w; iterations := started s |}
                  | None =>
                      Some {| outcome :=
                                rethrowGoalSeek (finalAdjustment (bestResult (last s)));
                              widenings := completed w; iterations := started s |}
                  end
              end
          end
      end
  end.

Definition goalSeekSubtotal (fuel : nat) : option (result BreakdownResult) :=
  option_map outcome (goalSeekRun fuel).

End GoalSeek.

End TaxCalculator.

(** ** Auxiliary notions used in the statements *)

(** The rates a default-constructed calculator holds. *)
Definition defaultRates : RateSet :=
  TaxCalculator.constructor
    {| arg_vatRate := None; arg_incomeTaxRate := None; arg_vatRetentionFraction := None |}.

(** A rate within [[0, 1]]. *)
Definition inUnitInterval (p : float) : bool := (0 <=? p) && (p <=? 1).

Definition validRates (rates : RateSet) : bool :=
  inUnitInterval (vatRate rates)
  && inUnitInterval (incomeTaxRate rates)
  && inUnitInterval (vatRetentionFraction rates).

(** The effective value of a tax line whose raw value is a number. *)
Definition effectiveLine (options : CalculationOptions) (raw : float) : float :=
  if roundPerLine options then round2_value raw else raw.

(** [subtotal + vat - incomeTaxWithheld - vatRetention], before the final
    rounding. *)
Definition netBeforeRounding (rates : RateSet) (subtotal : float)
    (options : CalculationOptions) : float :=
  subtotal
  + effectiveLine options (subtotal * vatRate rates)
  - effectiveLine options (subtotal * incomeTaxRate rates)
  - effectiveLine options (subtotal * vatRate rates * vatRetentionFraction rates).

(** The breakdown of a subtotal, when no check fails. *)
Definition breakdownOf (rates : RateSet) (subtotal : float)
    (options : CalculationOptions) : BreakdownResult :=
  {| subtotal := subtotal;
     vatRaw := subtotal * vatRate rates;
     incomeTaxWithheldRaw := subtotal * incomeTaxRate rates;
     vatRetentionRaw := subtotal * vatRate rates * vatRetentionFraction rates;
     vat := effectiveLine options (subtotal * vatRate rates);
     incomeTaxWithheld := effectiveLine options (subtotal * incomeTaxRate rates);
     vatRetention :=
       effectiveLine options (subtotal * vatRate rates * vatRetentionFraction rates);
     netAmount := round2_value (netBeforeRounding rates subtotal options);
     calculationMethod := fromSubtotal;
     options := options |}.

(** A candidate of the binary search: the breakdown of some midpoint. *)
Definition evaluated (rates : RateSet) (options : CalculationOptions)
    (b : BreakdownResult) : Prop :=
  exists mid, TaxCalculator.calculateFromSubtotal rates mid options = Return b.

(** The best result kept by the search, if any, is such a candidate. *)
Definition bestEvaluated (rates : RateSet) (options : CalculationOptions)
    (s : TaxCalculator.Search) : Prop :=
  forall b, TaxCalculator.bestResult s = Some b -> evaluated rates options b.

(** The breakdowns the binary search evaluates, in order, from the state [s]
    on: one for each round that starts and does not throw. *)
Fixpoint candidates (rates : RateSet) (targetNet : float) (options : CalculationOptions)
    (fuel : nat) (s : TaxCalculator.Search) : list BreakdownResult :=
  match fuel with
  | O => []
  | S fuel' =>
      if TaxCalculator.searching s then
        match TaxCalculator.calculateFromSubtotal rates
                ((TaxCalculator.lo s + TaxCalculator.hi s) / 2) options with
        | Throw _ => []
        | Return r =>
            r :: match TaxCalculator.bisect rates targetNet options s with
                 | Return (TaxCalculator.Continue s') =>
                     candidates rates targetNet options fuel' s'
                 | _ => []
                 end
        end
      else []
  end.

(** [best] is the best of the candidates [seen]: one of them, and none of
    them is strictly closer to the target. *)
Definition bestAmong (targetNet : float) (best : option BreakdownResult)
    (seen : list BreakdownResult) : Prop :=
  match best with
  | None => seen = []
  | Some b =>
      In b seen
      /\ forall c, In c seen ->
           (TaxCalculator.deviation targetNet c <? TaxCalculator.deviation targetNet b)
           = false
  end.

(** The order of two positive finite numbers: by exponent, then mantissa. *)
Definition lex_lt (e1 : Z) (m1 : positive) (e2 : Z) (m2 : positive) : Prop :=
  (e1 < e2)%Z \/ (e1 = e2 /\ (m1 < m2)%positive).

(** [x] is a zero, an infinity or a finite number of sign [s]. *)
Definition sign_is (s : bool) (x : spec_float) : Prop :=
  match x with
  | S754_zero s' | S754_infinity s' | S754_finite s' _ _ => s' = s
  | S754_nan => False
  end.

(** ** Further notions used in the statements *)

(** A percentage that passes the range check of [calculatePercentage]:
    neither below 0 nor above 1. *)
Definition rangeAccepted (p : float) : bool := negb ((p <? 0) || (1 <? p)).

(** The argument object that sets every rate: [{ ...rates }]. *)
Definition argsOf (rates : RateSet) : RatesArg :=
  {| arg_vatRate := Some (vatRate rates);
     arg_incomeTaxRate := Some (incomeTaxRate rates);
     arg_vatRetentionFraction := Some (vatRetentionFraction rates) |}.

(** The argument object that sets none: [{}]. *)
Definition noArgs : RatesArg :=
  {| arg_vatRate := None; arg_incomeTaxRate := None; arg_vatRetentionFraction := None |}.

(** [{ ...a, ...b }] for argument objects whose fields are Numbers or
    absent. *)
Definition mergeArgs (a b : RatesArg) : RatesArg :=
  {| arg_vatRate :=
       match arg_vatRate b with Some v => Some v | None => arg_vatRate a end;
     arg_incomeTaxRate :=
       match arg_incomeTaxRate b with Some v => Some v | None => arg_incomeTaxRate a end;
     arg_vatRetentionFraction :=
       match arg_vatRetentionFraction b with
       | Some v => Some v
       | None => arg_vatRetentionFraction a
       end |}.

(** The nets of a bracket are those of its ends. *)
Definition bracketEvaluated (rates : RateSet) (options : CalculationOptions)
    (b : TaxCalculator.Bracket) : Prop :=
  TaxCalculator.calculateNetForSubtotal rates options (TaxCalculator.low b)
  = Return (TaxCalculator.nLow b)
  /\ TaxCalculator.calculateNetForSubtotal rates options (TaxCalculator.high b)
     = Return (TaxCalculator.nHigh b).

(** ** utils/i18n.js: the language of the service *)

Module I18nService.

(** From [config/translations.js]. *)
Definition DEFAULT_LANGUAGE : string := "en".
Definition SUPPORTED_LANGUAGES : list string := ["en"; "es"].

(** [languages.includes(language)] *)
Definition includes (languages : list string) (language : string) : bool :=
  existsb (String.eqb language) languages.

(** What the service reads from the browser: the item
    ['cfdi-calculator-language'] of [localStorage] ([None] for [null]), and
    [navigator.language] and [navigator.userLanguage] ([None] for
    [undefined]). *)
Record Browser : Type :=
  { storedLanguage : option string;
    navigatorLanguage : option string;
    navigatorUserLanguage : option string }.

(** ToBoolean on a string or [null]/[undefined]: the empty string is
    falsy. *)
Definition truthyText (text : option string) : bool :=
  match text with
  | Some (String _ _) => true
  | _ => false
  end.

(** [text.split('-')[0]] *)
Fixpoint firstSegment (text : string) : string :=
  match text with
  | EmptyString => EmptyString
  | String c rest =>
      if Ascii.eqb c (Ascii.ascii_of_nat 45) then EmptyString else String c (firstSegment rest)
  end.

Section Language.

(** [String.prototype.toLowerCase], left to the browser. *)
Variable toLowerCase : string -> string.

Definition _detectLanguage (browser : Browser) : string :=
  let fromBrowser :=
    let browserLanguage :=
      if truthyText (navigatorLanguage browser) then navigatorLanguage browser
      else navigatorUserLanguage browser in
    match browserLanguage with
    | Some (String c rest) =>
        let languageCode := toLowerCase (firstSegment (String c rest)) in
        if includes SUPPORTED_LANGUAGES languageCode then languageCode
        else DEFAULT_LANGUAGE
    | _ => DEFAULT_LANGUAGE
    end in
  match storedLanguage browser with
  | Some savedLanguage =>
      if truthyText (Some savedLanguage) && includes SUPPORTED_LANGUAGES savedLanguage
      then savedLanguage else fromBrowser
  | None => fromBrowser
  end.

(** [this._saveLanguagePreference()]: the browser afterwards. *)
Definition _saveLanguagePreference (currentLanguage : string) (browser : Browser)
  : Browser :=
  {| storedLanguage := Some currentLanguage;
     navigatorLanguage := navigatorLanguage browser;
     navigatorUserLanguage := navigatorUserLanguage browser |}.

(** [new I18nService()]: the current language of the service, and the
    browser afterwards. *)
Definition constructor (browser : Browser) : string * Browser :=
  let currentLanguage := _detectLanguage browser in
  (currentLanguage, _saveLanguagePreference currentLanguage browser).

(** [this.setLanguage(language)], as far as the current language and the
    stored preference go; the interface update writes to the document only,
    and the listener the application registers only logs. *)
Definition setLanguage (service : string * Browser) (language : string)
  : string * Browser :=
  if negb (includes SUPPORTED_LANGUAGES language) then service
  else (language, _saveLanguagePreference language (snd service)).

Definition getCurrentLanguage (service : string * Browser) : string := fst service.

End Language.

End I18nService.

(** ** components/CalculatorController.js: the calculation handlers *)

Module CalculatorController.

(** The options object of [_getCurrentOptions]. *)
Record Options : Type :=
  { options_roundPerLine : bool;
    options_highPrecision : bool }.

(** The field of the options object that the calculator reads. *)
Definition engineOptions (options : Options) : CalculationOptions :=
  {| roundPerLine := options_roundPerLine options |}.

(** What the handlers read from the page: the [value] of an input and the
    [checked] of a checkbox, [None] when the element is missing. *)
Record Elements : Type :=
  { netAmount : option string;
    subtotal : option string;
    vatRate : option string;
    incomeTaxRate : option string;
    vatRetentionFraction : option string;
    useHighPrecision : option bool;
    roundPerLine : option bool }.

(** The controller: its calculator (by its rates) and its current result. *)
Record Controller : Type :=
  { calculator : RateSet;
    currentResult : option BreakdownResult }.

(** What a handler shows in an [alert]. *)
Inductive Alert : Type :=
| AlertText (key : string)
    (* alert(i18n.t(key)) *)
| AlertError (e : Error).
    (* alert(`Error: ${error.message}`) *)

(** [checked || true] *)
Definition orTrue (checked : option bool) : bool :=
  match checked with
  | Some true => true
  | Some false => true
  | None => true
  end.

Section Handlers.

(** [parseFloat] on a non-empty string, left to the browser. *)
Variable parseFloatText : string -> float.

(** [parseFloat(element?.value || fallback)] *)
Definition readNumber (value : option string) (fallback : float) : float :=
  match value with
  | Some (String c rest) => parseFloatText (String c rest)
  | _ => JS.parseFloat fallback
  end.

Definition _getCurrentRates (elements : Elements) : RatesArg :=
  {| arg_vatRate := Some (readNumber (vatRate elements) 0.16);
     arg_incomeTaxRate := Some (readNumber (incomeTaxRate elements) 0.10);
     arg_vatRetentionFraction :=
       Some (readNumber (vatRetentionFraction elements) 0.6666666667) |}.

Definition _getCurrentOptions (elements : Elements) : Options :=
  {| options_roundPerLine := orTrue (roundPerLine elements);
     options_highPrecision := orTrue (useHighPrecision elements) |}.

(** [this._updateCalculatorRates()] *)
Definition _updateCalculatorRates (this : Controller) (elements : Elements) : Controller :=
  {| calculator := TaxCalculator.updateRates (calculator this) (_getCurrentRates elements);
     currentResult := currentResult this |}.

(** The end of a handler's [try] block: the result is displayed, or the
    error is alerted and the result on display stays. *)
Definition displayOrAlert (this : Controller) (outcome : result BreakdownResult)
  : Controller * option Alert :=
  match outcome with
  | Return r => ({| calculator := calculator this; currentResult := Some r |}, None)
  | Throw e => (this, Some (AlertError e))
  end.

Definition _handleCalculateFromSubtotal (this : Controller) (elements : Elements)
  : Controller * option Alert :=
  let subtotalValue := readNumber (subtotal elements) 0 in
  if JS.isNaN subtotalValue || (subtotalValue <=? 0)
  then (this, Some (AlertText "invalidSubtotal"))
  else
    let this := _updateCalculatorRates this elements in
    let options := _getCurrentOptions elements in
    displayOrAlert this
      (TaxCalculator.calculateFromSubtotal (calculator this) subtotalValue
         (engineOptions options)).

Definition _handleAlgebraicFromNet (this : Controller) (elements : Elements)
  : Controller * option Alert :=
  let netValue := readNumber (netAmount elements) 0 in
  if JS.isNaN netValue || (netValue <=? 0)
  then (this, Some (AlertText "invalidNetAmount"))
  else
    let this := _updateCalculatorRates this elements in
    let options := _getCurrentOptions elements in
    displayOrAlert this
      (subtotal <- TaxCalculator.calculateSubtotalFromNetAlgebraic (calculator this) netValue ;;
       TaxCalculator.calculateFromSubtotal (calculator this) subtotal
         (engineOptions options)).

Definition _handleGoalSeekFromNet (fuel : nat) (this : Controller) (elements : Elements)
  : option (Controller * option Alert) :=
  let netValue := readNumber (netAmount elements) 0 in
  if JS.isNaN netValue || (netValue <=? 0)
  then Some (this, Some (AlertText "invalidNetAmount"))
  else
    let this := _updateCalculatorRates this elements in
    let options := _getCurrentOptions elements in
    option_map (displayOrAlert this)
      (TaxCalculator.goalSeekSubtotal (calculator this) netValue (engineOptions options)
         fuel).

End Handlers.

End CalculatorController.

(** The current language is supported and is the stored preference. *)
Definition languageKept (service : string * I18nService.Browser) : Prop :=
  I18nService.includes I18nService.SUPPORTED_LANGUAGES
    (I18nService.getCurrentLanguage service) = true
  /\ I18nService.storedLanguage (snd service)
     = Some (I18nService.getCurrentLanguage service).

(** ** The reals behind the doubles

    The error of a binary64 computation is stated on the real numbers: a
    finite double [(-1)^s * m * 2^e] stands for that real, a zero for 0, and
    so do, by convention, the infinities and NaN, of which the statements
    below never speak. *)

Definition pow2 (e : Z) : R := powerRZ 2 e.

Definition SF2R (x : spec_float) : R :=
  match x with
  | S754_finite s m e => (IZR (cond_Zopp s (Zpos m)) * pow2 e)%R
  | _ => 0%R
  end.

(** The real value of a Number. *)
Definition F2R (x : float) : R := SF2R (Prim2SF x).

(** [c] is [x] rounded: within [2^-51] of [c] itself, or within [2^-1073]
    where the doubles are subnormal. *)
Definition near (c x : R) : Prop :=
  (Rabs (c - x) <= pow2 (-51) * Rabs c + pow2 (-1073))%R.

(** A zero or a finite number. *)
Definition SFfinite (x : spec_float) : bool :=
  match x with
  | S754_zero _ | S754_finite _ _ _ => true
  | _ => false
  end.

(** * Facts about binary64 arithmetic

    Derived from the specification of the primitive operations
    ([FloatAxioms]) in terms of [SpecFloat]. *)

Section SpecFloatFacts.
Local Open Scope Z_scope.

Lemma digits2_pos_upper m : Zpos m < 2 ^ Zpos (digits2_pos m).
Proof.
  induction m as [m IH|m IH|]; cbn [digits2_pos];
    rewrite ?Pos2Z.inj_succ, ?Z.pow_succ_r by lia; lia.
Qed.

Lemma digits2_pos_lower m : 2 ^ (Zpos (digits2_pos m) - 1) <= Zpos m.
Proof.
  induction m as [m IH|m IH|]; cbn [digits2_pos];
    rewrite ?Pos2Z.inj_succ; try (simpl; lia);
    replace (Z.succ (Zpos (digits2_pos m)) - 1)
      with (Z.succ (Zpos (digits2_pos m) - 1)) by lia;
    rewrite Z.pow_succ_r by lia; lia.
Qed.

Lemma iter_xO_pow m d : Zpos (Pos.iter xO m d) = Zpos m * 2 ^ Zpos d.
Proof.
  induction d as [|d IH] using Pos.peano_ind.
  - simpl. lia.
  - rewrite Pos.iter_succ, Pos2Z.inj_xO, IH, Pos2Z.inj_succ, Z.pow_succ_r by lia. lia.
Qed.

Lemma shr_1_nonneg mrs : 0 <= shr_m mrs -> 0 <= shr_m (shr_1 mrs).
Proof.
  destruct mrs as [m r s]; destruct m as [|p|p]; cbn; try lia;
    destruct p; cbn; lia.
Qed.

Lemma iter_pos_invariant {A : Type} (P : A -> Prop) (f : A -> A) :
  (forall x, P x -> P (f x)) -> forall n x, P x -> P (iter_pos f n x).
Proof.
  intros Hf n; induction n as [n IH|n IH|]; cbn; auto.
Qed.

Lemma shr_fexp_nonneg m e l :
  0 <= m -> 0 <= shr_m (fst (shr_fexp prec emax m e l)).
Proof.
  intros Hm. unfold shr_fexp, shr.
  assert (H0 : 0 <= shr_m (shr_record_of_loc m l)).
  { destruct l as [|[ | | ]]; cbn; exact Hm. }
  destruct (fexp prec emax (Zdigits2 m + e) - e) as [|p|p]; cbn [fst]; auto.
  apply (iter_pos_invariant (fun r => 0 <= shr_m r)); auto using shr_1_nonneg.
Qed.

Lemma round_nearest_even_nonneg m l : 0 <= m -> 0 <= round_nearest_even m l.
Proof.
  intros Hm. destruct l as [|[ | | ]]; cbn; try lia.
  destruct (Z.even m); lia.
Qed.

(** Rounding keeps the sign and never makes a NaN. *)
Lemma binary_round_aux_sign sx mx ex lx :
  0 <= mx -> sign_is sx (binary_round_aux prec emax sx mx ex lx).
Proof.
  intros Hm. unfold binary_round_aux.
  pose proof (shr_fexp_nonneg mx ex lx Hm) as H1.
  destruct (shr_fexp prec emax mx ex lx) as [mrs' e']. cbn [fst] in H1.
  pose proof (shr_fexp_nonneg _ e' loc_Exact
                (round_nearest_even_nonneg _ (loc_of_shr_record mrs') H1)) as H2.
  destruct (shr_fexp prec emax _ e' loc_Exact) as [mrs'' e'']. cbn [fst] in H2.
  destruct (shr_m mrs'') as [|p|p]; cbn; try lia; auto.
  destruct (e'' <=? _); cbn; auto.
Qed.

Lemma binary_round_sign sx mx ex : sign_is sx (binary_round prec emax sx mx ex).
Proof.
  unfold binary_round.
  destruct (shl_align mx ex _) as [mz ez].
  apply binary_round_aux_sign. lia.
Qed.

(** A non-positive integer multiple of a power of two rounds to a zero or to
    a negative number. *)
Lemma binary_normalize_nonpos z e :
  z <= 0 ->
  match binary_normalize prec emax z e false with
  | S754_zero _ => True
  | S754_infinity s | S754_finite s _ _ => s = true
  | S754_nan => False
  end.
Proof.
  intros Hz. destruct z as [|p|p]; cbn [binary_normalize]; auto; try lia.
  pose proof (binary_round_sign true p e) as H.
  destruct (binary_round prec emax true p e); cbn in *; auto.
Qed.

Lemma canonical_digits m e :
  canonical_mantissa prec emax m e = true ->
  Zpos (digits2_pos m) <= prec /\ emin <= e /\
  (emin < e -> Zpos (digits2_pos m) = prec).
Proof.
  unfold canonical_mantissa, fexp. intros H. apply Z.eqb_eq in H. lia.
Qed.

(** On valid operands, [SFcompare] orders positive finite values as their
    mantissas are ordered once aligned on the smaller exponent. *)
Lemma aligned_le mx ex my ey :
  valid_binary (S754_finite false mx ex) = true ->
  valid_binary (S754_finite false my ey) = true ->
  SFleb (S754_finite false mx ex) (S754_finite false my ey) = true ->
  Zpos (fst (shl_align mx ex (Z.min ex ey))) <= Zpos (fst (shl_align my ey (Z.min ex ey))).
Proof.
  cbn [valid_binary]. unfold bounded. intros Vx Vy.
  apply andb_prop in Vx, Vy. destruct Vx as [Cx _], Vy as [Cy _].
  apply canonical_digits in Cx, Cy. destruct Cx as (Dx & Ex & _), Cy as (_ & _ & Dy).
  unfold SFleb, SFcompare.
  destruct (Z.compare_spec ex ey) as [E|L|G].
  - subst ey. rewrite Z.min_id. unfold shl_align. rewrite Z.sub_diag. cbn [fst].
    intros H.
    assert (H0 : Pos.compare_cont Eq mx my <> Gt)
      by (destruct (Pos.compare_cont Eq mx my); congruence).
    apply Pos2Z.pos_le_pos. exact H0.
  - intros _. rewrite Z.min_l by lia. unfold shl_align. rewrite Z.sub_diag. cbn [fst].
    destruct (ex - ey) as [|d|d] eqn:Ed; try lia. cbn [fst].
    rewrite iter_xO_pow.
    assert (Hy : Zpos (digits2_pos my) = prec) by (apply Dy; lia).
    pose proof (digits2_pos_upper mx) as Ux.
    pose proof (digits2_pos_lower my) as Ly. rewrite Hy in Ly.
    assert (2 ^ Zpos (digits2_pos mx) <= 2 ^ prec) by (apply Z.pow_le_mono_r; lia).
    assert (2 ^ 1 <= 2 ^ Zpos d) by (apply Z.pow_le_mono_r; lia).
    change (2 ^ 1) with 2 in *.
    change (2 ^ prec) with (2 * 2 ^ (prec - 1)) in *.
    nia.
  - discriminate.
Qed.

(** Subtracting a positive finite [y] from some [x <= y] gives a number
    that is not positive. *)
Lemma SFsub_le_not_positive x my ey :
  valid_binary x = true ->
  valid_binary (S754_finite false my ey) = true ->
  SFleb x (S754_finite false my ey) = true ->
  SF64sub x (S754_finite false my ey) <> S754_nan
  /\ SFltb (S754_zero false) (SF64sub x (S754_finite false my ey)) = false.
Proof.
  intros Vx Vy Hle. destruct x as [s|s| |s mx ex].
  - cbn. split; [discriminate|reflexivity].
  - destruct s; [|discriminate Hle]. cbn. split; [discriminate|reflexivity].
  - discriminate Hle.
  - unfold SF64sub, SFsub.
    set (ez := Z.min ex ey).
    assert (Hz : cond_Zopp s (Zpos (fst (shl_align mx ex ez)))
                 - cond_Zopp false (Zpos (fst (shl_align my ey ez))) <= 0).
    { destruct s; cbn [cond_Zopp]; [lia|].
      pose proof (aligned_le mx ex my ey Vx Vy Hle). fold ez in H. lia. }
    pose proof (binary_normalize_nonpos _ ez Hz) as Hn.
    destruct (binary_normalize prec emax _ ez false) as [s'|s'| |s' m' e'];
      try contradiction; subst; (split; [discriminate|reflexivity]).
Qed.

Lemma SFcompare_antisym x y :
  SFcompare y x = option_map CompOpp (SFcompare x y).
Proof.
  destruct x as [s1|s1| |s1 m1 e1], y as [s2|s2| |s2 m2 e2];
    try (cbn; reflexivity);
    try (destruct s1; reflexivity); try (destruct s2; reflexivity);
    try (destruct s1, s2; reflexivity).
  cbn [SFcompare option_map].
  rewrite (Z.compare_antisym e1 e2).
  change (Pos.compare_cont Eq m2 m1) with (Pos.compare_cont (CompOpp Eq) m2 m1).
  rewrite <- (Pos.compare_cont_antisym m1 m2 Eq).
  destruct s1, s2, (e1 ?= e2); cbn; try reflexivity;
    destruct (Pos.compare_cont Eq m1 m2); reflexivity.
Qed.

Lemma lex_compare_lt e1 m1 e2 m2 :
  match e1 ?= e2 with Lt => Lt | Gt => Gt | Eq => Pos.compare_cont Eq m1 m2 end = Lt
  <-> lex_lt e1 m1 e2 m2.
Proof.
  unfold lex_lt. change (Pos.compare_cont Eq m1 m2) with (Pos.compare m1 m2).
  rewrite <- Pos.compare_lt_iff.
  destruct (Z.compare_spec e1 e2) as [E|E|E]; split; intros H.
  - right. split; assumption.
  - destruct H as [H|[_ H]]; [lia|exact H].
  - left. exact E.
  - reflexivity.
  - discriminate H.
  - destruct H as [H|[H _]]; lia.
Qed.

Lemma lex_compare_gt e1 m1 e2 m2 :
  match e1 ?= e2 with Lt => Gt | Gt => Lt | Eq => CompOpp (Pos.compare_cont Eq m1 m2) end = Lt
  <-> lex_lt e2 m2 e1 m1.
Proof.
  unfold lex_lt. change (Pos.compare_cont Eq m1 m2) with (Pos.compare m1 m2).
  rewrite <- Pos.compare_lt_iff, (Pos.compare_antisym m1 m2).
  destruct (Z.compare_spec e1 e2) as [E|E|E]; split; intros H.
  - right. split; [congruence|exact H].
  - destruct H as [H|[_ H]]; [lia|exact H].
  - discriminate H.
  - destruct H as [H|[H _]]; lia.
  - left. exact E.
  - reflexivity.
Qed.

Lemma lex_lt_trans e1 m1 e2 m2 e3 m3 :
  lex_lt e1 m1 e2 m2 -> lex_lt e2 m2 e3 m3 -> lex_lt e1 m1 e3 m3.
Proof. unfold lex_lt. intros [H|[H H']] [K|[K K']]; try lia. Qed.

Lemma SFltb_trans x y z : SFltb x y = true -> SFltb y z = true -> SFltb x z = true.
Proof.
  unfold SFltb.
  destruct x as [sx|sx| |sx mx ex], y as [sy|sy| |sy my ey], z as [sz|sz| |sz mz ez];
    cbn [SFcompare]; try discriminate; try reflexivity;
    try (destruct sx; try discriminate; try reflexivity; fail);
    try (destruct sy; try discriminate; try reflexivity; fail);
    try (destruct sz; try discriminate; try reflexivity; fail);
    try (destruct sx, sy; try discriminate; try reflexivity; fail);
    try (destruct sx, sz; try discriminate; try reflexivity; fail);
    try (destruct sy, sz; try discriminate; try reflexivity; fail);
    try (destruct sx, sy, sz; try discriminate; try reflexivity; fail).
  destruct sx, sy, sz; try discriminate; try reflexivity; intros H K.
  - assert (H' : lex_lt ey my ex mx)
      by (apply lex_compare_gt; destruct (match ex ?= ey with Eq => _ | Lt => _ | Gt => _ end);
          congruence).
    assert (K' : lex_lt ez mz ey my)
      by (apply lex_compare_gt; destruct (match ey ?= ez with Eq => _ | Lt => _ | Gt => _ end);
          congruence).
    pose proof (proj2 (lex_compare_gt ex mx ez mz) (lex_lt_trans _ _ _ _ _ _ K' H')) as L.
    rewrite L. reflexivity.
  - assert (H' : lex_lt ex mx ey my)
      by (apply lex_compare_lt; destruct (match ex ?= ey with Eq => _ | Lt => _ | Gt => _ end);
          congruence).
    assert (K' : lex_lt ey my ez mz)
      by (apply lex_compare_lt; destruct (match ey ?= ez with Eq => _ | Lt => _ | Gt => _ end);
          congruence).
    pose proof (proj2 (lex_compare_lt ex mx ez mz) (lex_lt_trans _ _ _ _ _ _ H' K')) as L.
    rewrite L. reflexivity.
Qed.

Lemma SFltb_irrefl x : SFltb x x = false.
Proof.
  unfold SFltb. destruct x as [s|s| |s m e]; cbn [SFcompare]; try reflexivity.
  - destruct s; reflexivity.
  - rewrite Z.compare_refl, Pos.compare_cont_refl. destruct s; reflexivity.
Qed.
End SpecFloatFacts.

Section FloatFacts.

Lemma is_nan_spec x :
  is_nan x = match Prim2SF x with S754_nan => true | _ => false end.
Proof.
  unfold is_nan. rewrite FloatAxioms.eqb_spec. unfold SFeqb.
  destruct (Prim2SF x) as [s|s| |s m e]; cbn; try reflexivity.
  - destruct s; reflexivity.
  - rewrite Z.compare_refl, Pos.compare_cont_refl. destruct s; reflexivity.
Qed.

Lemma Prim2SF_nan x : is_nan x = true -> Prim2SF x = S754_nan.
Proof.
  rewrite is_nan_spec. destruct (Prim2SF x); congruence.
Qed.

(** A number above zero is a number, is not below or at zero, and is not a
    zero. *)
Lemma positive_facts x :
  (0 <? x) = true -> is_nan x = false /\ (x <=? 0) = false /\ is_zero x = false.
Proof.
  unfold is_zero.
  rewrite is_nan_spec, FloatAxioms.ltb_spec, FloatAxioms.leb_spec, FloatAxioms.eqb_spec.
  change (Prim2SF 0) with (S754_zero false). change (Prim2SF zero) with (S754_zero false).
  unfold SFltb, SFleb, SFeqb.
  destruct (Prim2SF x) as [s|s| |s m e]; cbn; try discriminate;
    destruct s; cbn; try discriminate; auto.
Qed.

Lemma leb_not_ltb a b : (a <=? b) = true -> (b <? a) = false.
Proof.
  rewrite FloatAxioms.leb_spec, FloatAxioms.ltb_spec. unfold SFleb, SFltb.
  rewrite (SFcompare_antisym (Prim2SF a) (Prim2SF b)).
  destruct (SFcompare (Prim2SF a) (Prim2SF b)) as [[ | | ]|]; cbn; congruence.
Qed.

(** NaN is absorbing. *)
Lemma is_nan_add_l a b : is_nan a = true -> is_nan (a + b) = true.
Proof.
  intros H. rewrite is_nan_spec, FloatAxioms.add_spec, (Prim2SF_nan a H). reflexivity.
Qed.

Lemma is_nan_sub_l a b : is_nan a = true -> is_nan (a - b) = true.
Proof.
  intros H. rewrite is_nan_spec, FloatAxioms.sub_spec, (Prim2SF_nan a H). reflexivity.
Qed.

Lemma is_nan_add_r a b : is_nan b = true -> is_nan (a + b) = true.
Proof.
  intros H. rewrite is_nan_spec, FloatAxioms.add_spec, (Prim2SF_nan b H).
  destruct (Prim2SF a); reflexivity.
Qed.

Lemma is_nan_sub_r a b : is_nan b = true -> is_nan (a - b) = true.
Proof.
  intros H. rewrite is_nan_spec, FloatAxioms.sub_spec, (Prim2SF_nan b H).
  destruct (Prim2SF a); reflexivity.
Qed.

Lemma is_nan_mul_l a b : is_nan a = true -> is_nan (a * b) = true.
Proof.
  intros H. rewrite is_nan_spec, FloatAxioms.mul_spec, (Prim2SF_nan a H). reflexivity.
Qed.

Lemma is_nan_div_l a b : is_nan a = true -> is_nan (a / b) = true.
Proof.
  intros H. rewrite is_nan_spec, FloatAxioms.div_spec, (Prim2SF_nan a H). reflexivity.
Qed.

Lemma Math_round_nan x : is_nan x = true -> JS.Math_round x = x.
Proof.
  intros H. unfold JS.Math_round. rewrite (Prim2SF_nan x H). reflexivity.
Qed.

Lemma is_nan_round2_value x : is_nan x = true -> is_nan (round2_value x) = true.
Proof.
  intros H. unfold round2_value.
  apply is_nan_div_l.
  assert (H1 : is_nan ((x + EPSILON PRECISION_CONFIG) * 100) = true)
    by (apply is_nan_mul_l, is_nan_add_l, H).
  rewrite (Math_round_nan _ H1). exact H1.
Qed.

(** [g - y] for a positive finite [y] and [g <= y]: a number, and not above
    zero. *)
Lemma sub_le_not_positive g y my ey :
  Prim2SF y = S754_finite false my ey ->
  (g <=? y) = true ->
  is_nan (g - y) = false /\ (0 <? g - y) = false.
Proof.
  intros Hy Hle.
  rewrite is_nan_spec, FloatAxioms.ltb_spec, FloatAxioms.sub_spec.
  rewrite FloatAxioms.leb_spec in Hle.
  pose proof (Prim2SF_valid g) as Vg. pose proof (Prim2SF_valid y) as Vy.
  rewrite Hy in *. change (Prim2SF 0) with (S754_zero false).
  destruct (SFsub_le_not_positive _ my ey Vg Vy Hle) as [Hn Hp].
  split; [|exact Hp].
  destruct (SF64sub (Prim2SF g) (S754_finite false my ey)); congruence.
Qed.

(** A product with a zero is a zero or NaN. *)
Lemma mul_zero_r x v :
  is_zero v = true -> is_nan (x * v) = true \/ is_zero (x * v) = true.
Proof.
  unfold is_zero.
  rewrite is_nan_spec, !FloatAxioms.eqb_spec, FloatAxioms.mul_spec.
  change (Prim2SF zero) with (S754_zero false).
  unfold SFeqb, SF64mul.
  destruct (Prim2SF v) as [sv|sv| |sv mv ev]; cbn; try discriminate;
    try (destruct sv; discriminate).
  intros _. destruct (Prim2SF x) as [sx|sx| |sx mx ex]; cbn; auto.
Qed.

(** A positive product with a non-negative factor has a positive other
    factor. *)
Lemma mul_positive_l x v :
  (0 <=? v) = true -> (0 <? x * v) = true -> (0 <? x) = true.
Proof.
  rewrite FloatAxioms.leb_spec, !FloatAxioms.ltb_spec, FloatAxioms.mul_spec.
  change (Prim2SF 0) with (S754_zero false).
  unfold SFleb, SFltb, SF64mul.
  destruct (Prim2SF x) as [sx|sx| |sx mx ex], (Prim2SF v) as [sv|sv| |sv mv ev];
    cbn [SFmul SFcompare]; try discriminate;
    try (destruct sx, sv; cbn; congruence).
  intros Hv.
  assert (sv = false) by (destruct sv; [discriminate|reflexivity]). subst sv.
  destruct sx; [|reflexivity].
  pose proof (binary_round_aux_sign (xorb true false) (Zpos (mx * mv)) (ex + ev) loc_Exact
                ltac:(lia)) as H.
  destruct (binary_round_aux prec emax _ _ _ _) as [s|s| |s m e]; cbn in H;
    try contradiction; subst; cbn; discriminate.
Qed.

Lemma ltb_trans a b c : (a <? b) = true -> (b <? c) = true -> (a <? c) = true.
Proof. rewrite !FloatAxioms.ltb_spec. apply SFltb_trans. Qed.

Lemma ltb_irrefl a : (a <? a) = false.
Proof. rewrite FloatAxioms.ltb_spec. apply SFltb_irrefl. Qed.

End FloatFacts.

(** * The primitives of [mathUtils.js] *)

Lemma is_nan_not_zero x : is_nan x = true -> is_zero x = false.
Proof.
  intros H. unfold is_zero. rewrite FloatAxioms.eqb_spec, (Prim2SF_nan x H). reflexivity.
Qed.

Lemma validatePositiveNumber_positive x f :
  (0 <? x) = true -> validatePositiveNumber x f = Return true.
Proof.
  intros H. destruct (positive_facts x H) as (Hn & Hl & Hz).
  unfold validatePositiveNumber, JS.parseFloat, JS.isNaN.
  rewrite Hz, Hn, Hl. reflexivity.
Qed.

Lemma validatePositiveNumber_rejects x f :
  is_nan x = true \/ is_zero x = true ->
  validatePositiveNumber x f = Throw (MustBeValidNumber f)
  \/ validatePositiveNumber x f = Throw (MustBeGreaterThanZero f).
Proof.
  unfold validatePositiveNumber, JS.parseFloat, JS.isNaN.
  intros [H|H].
  - rewrite (is_nan_not_zero x H), H. left. reflexivity.
  - rewrite H. right. reflexivity.
Qed.

Lemma validatePositiveNumber_inv x f b :
  validatePositiveNumber x f = Return b -> b = true.
Proof.
  unfold validatePositiveNumber.
  destruct (JS.isNaN _); [discriminate|].
  destruct (_ <=? 0); [discriminate|]. congruence.
Qed.

Lemma inUnitInterval_accepted p :
  inUnitInterval p = true -> (p <? 0) || (1 <? p) = false.
Proof.
  unfold inUnitInterval. intros H. apply andb_prop in H. destruct H as [H0 H1].
  rewrite (leb_not_ltb _ _ H0), (leb_not_ltb _ _ H1). reflexivity.
Qed.

Lemma calculatePercentage_returns x p :
  (0 <? x) = true -> inUnitInterval p = true ->
  calculatePercentage x p = Return (x * p).
Proof.
  intros Hx Hp. unfold calculatePercentage.
  rewrite (validatePositiveNumber_positive x _ Hx). cbn [bind].
  rewrite (inUnitInterval_accepted p Hp). reflexivity.
Qed.

Lemma calculatePercentage_inv x p y :
  calculatePercentage x p = Return y ->
  y = x * p /\ validatePositiveNumber x "Base value" = Return true.
Proof.
  unfold calculatePercentage.
  destruct (validatePositiveNumber x "Base value") as [b|e] eqn:V; cbn [bind];
    [|discriminate].
  rewrite (validatePositiveNumber_inv _ _ _ V).
  destruct (_ || _); [discriminate|]. intros H. split; congruence.
Qed.

Lemma round2_returns x : is_nan x = false -> round2 x = Return (round2_value x).
Proof.
  intros H. unfold round2, JS.isNaN. rewrite H. reflexivity.
Qed.

Lemma not_nan_add a b :
  is_nan (a + b) = false -> is_nan a = false /\ is_nan b = false.
Proof.
  intros H. split.
  - destruct (is_nan a) eqn:E; [|reflexivity]. rewrite (is_nan_add_l a b E) in H. discriminate.
  - destruct (is_nan b) eqn:E; [|reflexivity]. rewrite (is_nan_add_r a b E) in H. discriminate.
Qed.

Lemma not_nan_sub a b :
  is_nan (a - b) = false -> is_nan a = false /\ is_nan b = false.
Proof.
  intros H. split.
  - destruct (is_nan a) eqn:E; [|reflexivity]. rewrite (is_nan_sub_l a b E) in H. discriminate.
  - destruct (is_nan b) eqn:E; [|reflexivity]. rewrite (is_nan_sub_r a b E) in H. discriminate.
Qed.

Lemma roundLine_returns o x :
  is_nan (effectiveLine o x) = false ->
  TaxCalculator.roundLine o x = Return (effectiveLine o x).
Proof.
  unfold TaxCalculator.roundLine, effectiveLine.
  destruct (roundPerLine o); [|reflexivity].
  intros H. apply round2_returns.
  destruct (is_nan x) eqn:E; [|reflexivity].
  rewrite (is_nan_round2_value x E) in H. discriminate.
Qed.

(** * The breakdown calculator *)

(** When the subtotal and its VAT are above zero, the rates are within
    [[0, 1]] and the net amount is a number, every check passes. *)
Lemma calculateFromSubtotal_returns this s o :
  (0 <? s) = true ->
  validRates this = true ->
  (0 <? s * vatRate this) = true ->
  is_nan (netBeforeRounding this s o) = false ->
  TaxCalculator.calculateFromSubtotal this s o = Return (breakdownOf this s o).
Proof.
  intros Hs Hr Hv Hn.
  unfold validRates in Hr. apply andb_prop in Hr. destruct Hr as [Hr Hr3].
  apply andb_prop in Hr. destruct Hr as [Hr1 Hr2].
  unfold netBeforeRounding in Hn. pose proof Hn as Hnet.
  apply not_nan_sub in Hn. destruct Hn as [Hn Hn3].
  apply not_nan_sub in Hn. destruct Hn as [Hn Hn2].
  apply not_nan_add in Hn. destruct Hn as [_ Hn1].
  unfold TaxCalculator.calculateFromSubtotal.
  rewrite (validatePositiveNumber_positive s _ Hs). cbn [bind].
  rewrite (calculatePercentage_returns s _ Hs Hr1). cbn [bind].
  rewrite (calculatePercentage_returns s _ Hs Hr2). cbn [bind].
  rewrite (calculatePercentage_returns _ _ Hv Hr3). cbn [bind].
  rewrite (roundLine_returns o _ Hn1). cbn [bind].
  rewrite (roundLine_returns o _ Hn2). cbn [bind].
  rewrite (roundLine_returns o _ Hn3). cbn [bind].
  rewrite (round2_returns _ Hnet). reflexivity.
Qed.

(** Where the checks pass the breakdown is the documented one: for every
    subtotal above zero and every rate set with
    the three rates within [[0, 1]], provided the VAT line [subtotal * vatRate]
    is above zero (which excludes a zero VAT rate) and the net amount does not
    degenerate to NaN, [calculateFromSubtotal] returns a breakdown with
    [vatRaw = subtotal * vatRate],
    [incomeTaxWithheldRaw = subtotal * incomeTaxRate] and
    [vatRetentionRaw = vatRaw * vatRetentionFraction]; with [roundPerLine]
    each effective line is [round2] of its raw line and without it the raw
    line itself; and in both cases
    [netAmount = round2 (subtotal + vat - incomeTaxWithheld - vatRetention)]. *)
Theorem calculateFromSubtotal_breakdown (this : RateSet) (s : float)
    (o : CalculationOptions) :
  (0 <? s) = true ->
  validRates this = true ->
  (0 <? s * vatRate this) = true ->
  is_nan (netBeforeRounding this s o) = false ->
  exists b,
    TaxCalculator.calculateFromSubtotal this s o = Return b
    /\ subtotal b = s
    /\ vatRaw b = s * vatRate this
    /\ incomeTaxWithheldRaw b = s * incomeTaxRate this
    /\ vatRetentionRaw b = vatRaw b * vatRetentionFraction this
    /\ (roundPerLine o = true ->
        round2 (vatRaw b) = Return (vat b)
        /\ round2 (incomeTaxWithheldRaw b) = Return (incomeTaxWithheld b)
        /\ round2 (vatRetentionRaw b) = Return (vatRetention b))
    /\ (roundPerLine o = false ->
        vat b = vatRaw b
        /\ incomeTaxWithheld b = incomeTaxWithheldRaw b
        /\ vatRetention b = vatRetentionRaw b)
    /\ round2 (s + vat b - incomeTaxWithheld b - vatRetention b) = Return (netAmount b).
Proof.
  intros Hs Hr Hv Hn.
  exists (breakdownOf this s o).
  split; [exact (calculateFromSubtotal_returns this s o Hs Hr Hv Hn)|].
  cbn [breakdownOf subtotal vatRaw incomeTaxWithheldRaw vatRetentionRaw vat
       incomeTaxWithheld vatRetention netAmount].
  repeat (split; [reflexivity|]).
  pose proof Hn as Hnet. unfold netBeforeRounding in Hn.
  apply not_nan_sub in Hn. destruct Hn as [Hn Hn3].
  apply not_nan_sub in Hn. destruct Hn as [Hn Hn2].
  apply not_nan_add in Hn. destruct Hn as [_ Hn1].
  split; [|split].
  - intros Ho.
    pose proof (roundLine_returns o _ Hn1) as L1.
    pose proof (roundLine_returns o _ Hn2) as L2.
    pose proof (roundLine_returns o _ Hn3) as L3.
    unfold TaxCalculator.roundLine in L1, L2, L3. rewrite Ho in L1, L2, L3.
    auto.
  - intros Ho. unfold effectiveLine. rewrite Ho. auto.
  - exact (round2_returns _ Hnet).
Qed.

Lemma calculateFromSubtotal_breakdown_witness :
  (0 <? 10000) = true
  /\ validRates defaultRates = true
  /\ exists b,
       TaxCalculator.calculateFromSubtotal defaultRates 10000 {| roundPerLine := true |}
       = Return b
       /\ vatRaw b = 10000 * vatRate defaultRates.
Proof.
  split; [reflexivity|]. split; [reflexivity|].
  destruct (calculateFromSubtotal_breakdown defaultRates 10000 {| roundPerLine := true |}
              eq_refl eq_refl eq_refl eq_refl) as (b & Hb & _ & Hv & _).
  exists b. split; [exact Hb|exact Hv].
Defined.

(** The rates of a default calculator after [updateRates({ vatRate: 0 })]. *)
Lemma zeroVatRates_fields :
  TaxCalculator.updateRates defaultRates
    {| arg_vatRate := Some 0; arg_incomeTaxRate := None; arg_vatRetentionFraction := None |}
  = {| vatRate := 0; incomeTaxRate := 0.10; vatRetentionFraction := 0.6666666667 |}.
Proof. reflexivity. Qed.

(** Subtotal 100 is above zero and the rates
    [{ vatRate: 0, incomeTaxRate: 0.10, vatRetentionFraction: 0.6666666667 }]
    are within [[0, 1]], yet [calculateFromSubtotal] returns no breakdown: it
    throws, because the base of the VAT retention is 0. *)
Lemma calculateFromSubtotal_zero_vat_counterexample :
  (0 <? 100) = true
  /\ validRates {| vatRate := 0; incomeTaxRate := 0.10; vatRetentionFraction := 0.6666666667 |}
     = true
  /\ TaxCalculator.calculateFromSubtotal
       {| vatRate := 0; incomeTaxRate := 0.10; vatRetentionFraction := 0.6666666667 |}
       100 {| roundPerLine := true |}
     = Throw (Rethrown "Error in calculation from subtotal"
                (MustBeGreaterThanZero "Base value"))
  /\ ~ exists b,
       TaxCalculator.calculateFromSubtotal
         {| vatRate := 0; incomeTaxRate := 0.10; vatRetentionFraction := 0.6666666667 |}
         100 {| roundPerLine := true |} = Return b.
Proof.
  repeat (split; [reflexivity|]).
  intros [b H]. vm_compute in H. discriminate H.
Qed.

(** C1 (failing input).  The rates
    [{ vatRate: 0, incomeTaxRate: 0.10, vatRetentionFraction: 0.6666666667 }]
    are within [[0, 1]] and the subtotal 100 is above zero, so the breakdown
    is to be [vatRaw = 0], [incomeTaxWithheldRaw = 10], [vatRetentionRaw = 0]
    and [netAmount = 90].  The code throws instead, with and without
    [roundPerLine]: the zero VAT line is rejected as the base of the VAT
    retention.  Zero is a percentage [calculatePercentage] accepts, and a
    zero income tax rate and a zero retention fraction do give their
    breakdown. *)
Theorem calculateFromSubtotal_zero_vat_failing_input :
  let rates :=
    {| vatRate := 0; incomeTaxRate := 0.10; vatRetentionFraction := 0.6666666667 |} in
  let siblings := {| vatRate := 0.16; incomeTaxRate := 0; vatRetentionFraction := 0 |} in
  (0 <? 100) = true
  /\ validRates rates = true
  /\ (forall o,
        TaxCalculator.calculateFromSubtotal rates 100 o
        = Throw (Rethrown "Error in calculation from subtotal"
                   (MustBeGreaterThanZero "Base value")))
  /\ (forall o,
        vatRaw (breakdownOf rates 100 o) = 0
        /\ incomeTaxWithheldRaw (breakdownOf rates 100 o) = 10
        /\ vatRetentionRaw (breakdownOf rates 100 o) = 0
        /\ netAmount (breakdownOf rates 100 o) = 90)
  /\ calculatePercentage 100 0 = Return 0
  /\ validRates siblings = true
  /\ (forall o,
        TaxCalculator.calculateFromSubtotal siblings 100 o
        = Return (breakdownOf siblings 100 o)
        /\ incomeTaxWithheldRaw (breakdownOf siblings 100 o) = 0
        /\ vatRetentionRaw (breakdownOf siblings 100 o) = 0
        /\ netAmount (breakdownOf siblings 100 o) = 116).
Proof.
  intros rates siblings.
  split; [reflexivity|]. split; [reflexivity|].
  split; [intros [[|]]; vm_compute; reflexivity|].
  split; [intros [[|]]; repeat split; vm_compute; reflexivity|].
  split; [reflexivity|]. split; [reflexivity|].
  intros [[|]]; repeat split; vm_compute; reflexivity.
Qed.

(** The worked example of the specification. *)
Example calculateFromSubtotal_10000 :
  TaxCalculator.calculateFromSubtotal defaultRates 10000 {| roundPerLine := true |}
  = Return {| subtotal := 10000;
              vatRaw := 1600;
              incomeTaxWithheldRaw := 1000;
              vatRetentionRaw := 1066.66666672;
              vat := 1600;
              incomeTaxWithheld := 1000;
              vatRetention := 1066.67;
              netAmount := 9533.33;
              calculationMethod := fromSubtotal;
              options := {| roundPerLine := true |} |}.
Proof. reflexivity. Qed.

(** * Rounding *)

(** [round2(3.145)] is [3.15], not [3.14], and what [round2] returns is the
    rounding of its argument plus [Number.EPSILON]. *)
Theorem round2_3_145 :
  round2 3.145 = Return 3.15
  /\ round2 3.145 <> Return 3.14
  /\ (forall x, is_nan x = false ->
        round2 x = Return (JS.Math_round ((x + JS.Number_EPSILON) * 100) / 100)).
Proof.
  split; [reflexivity|]. split.
  - intros H. vm_compute in H. discriminate H.
  - intros x Hx. exact (round2_returns x Hx).
Qed.

(** The double written [3.145] lies just above the decimal 3.145, and its
    hundredfold is exactly 314.5. *)
Example double_3_145 :
  Prim2SF 3.145 = S754_finite false 7081910414040105 (-51)
  /\ (3145 * 2 ^ 51 < 7081910414040105 * 1000)%Z
  /\ 3.145 * 100 = 314.5.
Proof. repeat split; reflexivity. Qed.

(** The nudge decides the result for 1.005, whose hundredfold falls below
    100.5. *)
Example round2_1_005 :
  round2 1.005 = Return 1.01 /\ JS.Math_round (1.005 * 100) / 100 = 1.
Proof. split; reflexivity. Qed.

(** C4 (failing input).  The doubles written 5.015, 10.075 and 9.995 lie
    just below these half-way values of the second decimal, the drift the
    nudge is there for; but [Number.EPSILON], the gap between the doubles at
    1, is lost when it is added to a double of 4 or more, so the three are
    rounded down, to 5.01, 10.07 and 9.99, not upward.  The nudge does its
    work below 2, as for 1.005, and 3.145 goes to 3.15 without it. *)
Theorem round2_halfway_rounds_down :
  (Prim2SF 5.015 = S754_finite false 5646388032815759 (-50)
   /\ (5646388032815759 * 1000 < 5015 * 2 ^ 50)%Z
   /\ 5.015 + EPSILON PRECISION_CONFIG = 5.015
   /\ round2 5.015 = Return 5.01
   /\ (5.01 <? 5.015) = true)
  /\ (Prim2SF 10.075 = S754_finite false 5671720780719718 (-49)
      /\ (5671720780719718 * 1000 < 10075 * 2 ^ 49)%Z
      /\ 10.075 + EPSILON PRECISION_CONFIG = 10.075
      /\ round2 10.075 = Return 10.07
      /\ (10.07 <? 10.075) = true)
  /\ (Prim2SF 9.995 = S754_finite false 5626684784446013 (-49)
      /\ (5626684784446013 * 1000 < 9995 * 2 ^ 49)%Z
      /\ 9.995 + EPSILON PRECISION_CONFIG = 9.995
      /\ round2 9.995 = Return 9.99
      /\ (9.99 <? 9.995) = true)
  /\ (round2 1.005 = Return 1.01 /\ JS.Math_round (1.005 * 100) / 100 = 1)
  /\ (round2 3.145 = Return 3.15 /\ JS.Math_round (3.145 * 100) / 100 = 3.15).
Proof. repeat split; vm_compute; reflexivity. Qed.

(** C8 (as amended).  [round2] fails exactly when its input is NaN, and then
    with the invalid-number error; for every other Number, finite or
    infinite, it returns a value; in particular it returns the infinities
    unchanged. *)
Theorem round2_fails_iff_nan :
  (forall x, (exists e, round2 x = Throw e) <-> is_nan x = true)
  /\ (forall x e, round2 x = Throw e -> e = Round2NotANumber /\ kind e = InvalidNumber)
  /\ (forall x, is_finite x = true -> exists y, round2 x = Return y)
  /\ round2 infinity = Return infinity
  /\ round2 neg_infinity = Return neg_infinity.
Proof.
  split; [|split; [|split; [|split; reflexivity]]].
  - intros x. unfold round2, JS.isNaN. destruct (is_nan x); split.
    + reflexivity.
    + intros _. eexists. reflexivity.
    + intros [e H]. discriminate H.
    + discriminate.
  - intros x e. unfold round2. destruct (JS.isNaN x); [|discriminate].
    intros H. injection H as <-. split; reflexivity.
  - intros x Hx. exists (round2_value x). apply round2_returns.
    unfold is_finite in Hx. destruct (is_nan x); [discriminate Hx|reflexivity].
Qed.

(** C8 (counterexample).  Positive infinity is not a finite number, yet
    [round2] does not fail on it: it returns infinity. *)
Lemma round2_infinity_counterexample :
  is_finite infinity = false
  /\ round2 infinity = Return infinity
  /\ ~ exists e, round2 infinity = Throw e.
Proof.
  split; [reflexivity|]. split; [reflexivity|].
  intros [e H]. vm_compute in H. discriminate H.
Qed.

(** * The algebraic inverter *)

(** C5.  For a target net above zero, [calculateSubtotalFromNetAlgebraic]
    fails with the degenerate-rates error exactly when
    [|1 + vatRate - incomeTaxRate - vatRate * vatRetentionFraction| < 1e-6],
    and otherwise returns the target divided by that denominator. *)
Theorem calculateSubtotalFromNetAlgebraic_spec (this : RateSet) (targetNet : float) :
  (0 <? targetNet) = true ->
  let denominator :=
    1 + vatRate this - incomeTaxRate this - vatRate this * vatRetentionFraction this in
  ((JS.Math_abs denominator <? 0.000001) = true ->
     TaxCalculator.calculateSubtotalFromNetAlgebraic this targetNet
     = Throw (Rethrown "Error in algebraic calculation" (I18n "denominatorTooSmall")))
  /\ ((JS.Math_abs denominator <? 0.000001) = false ->
     TaxCalculator.calculateSubtotalFromNetAlgebraic this targetNet
     = Return (targetNet / denominator))
  /\ ((exists e, TaxCalculator.calculateSubtotalFromNetAlgebraic this targetNet = Throw e
                 /\ kind e = DegenerateRates)
      <-> (JS.Math_abs denominator <? 0.000001) = true).
Proof.
  intros Ht denominator.
  unfold TaxCalculator.calculateSubtotalFromNetAlgebraic.
  rewrite (validatePositiveNumber_positive _ _ Ht). cbn [bind].
  fold denominator. change (TaxCalculator.denominator this) with denominator.
  destruct (JS.Math_abs denominator <? 0.000001); cbn [try_rethrow].
  - split; [reflexivity|]. split; [discriminate|].
    split; [reflexivity|]. intros _. eexists. split; reflexivity.
  - split; [discriminate|]. split; [reflexivity|].
    split; [|discriminate]. intros (e & H & _). discriminate H.
Qed.

Lemma calculateSubtotalFromNetAlgebraic_spec_witness :
  (0 <? 9280) = true
  /\ TaxCalculator.calculateSubtotalFromNetAlgebraic defaultRates 9280
     = Return (9280 / (1 + 0.16 - 0.10 - 0.16 * 0.6666666667)).
Proof.
  split; [reflexivity|].
  destruct (calculateSubtotalFromNetAlgebraic_spec defaultRates 9280 eq_refl) as (_ & H & _).
  apply H. reflexivity.
Defined.

(** The boundary case of the specification: rates that cancel the
    denominator. *)
Example calculateSubtotalFromNetAlgebraic_degenerate :
  TaxCalculator.calculateSubtotalFromNetAlgebraic
    {| vatRate := 1; incomeTaxRate := 1; vatRetentionFraction := 1 |} 100
  = Throw (Rethrown "Error in algebraic calculation" (I18n "denominatorTooSmall")).
Proof. reflexivity. Qed.

(** * Construction and update of the rates *)

Lemma or_else_falsy (x fallback : float) :
  is_zero x = true -> JS.or_else (Some x) fallback = fallback.
Proof.
  intros H. unfold JS.or_else, JS.truthy. rewrite H. reflexivity.
Qed.

Lemma or_else_not_zero (v : option float) (fallback : float) :
  is_zero fallback = false -> is_zero (JS.or_else v fallback) = false.
Proof.
  intros H. unfold JS.or_else, JS.truthy. destruct v as [x|]; [|exact H].
  destruct (is_zero x) eqn:E; cbn; [exact H|].
  destruct (is_nan x); cbn; [exact H|exact E].
Qed.

(** C9.  A rate field given as zero to the constructor is replaced by its
    default (0.16, 0.10 or 0.6666666667), as any falsy value is; no rate of a
    freshly constructed calculator is zero. *)
Theorem constructor_zero_rate_defaults :
  (forall i r,
     vatRate (TaxCalculator.constructor
                {| arg_vatRate := Some 0; arg_incomeTaxRate := i;
                   arg_vatRetentionFraction := r |}) = 0.16)
  /\ (forall v r,
     incomeTaxRate (TaxCalculator.constructor
                      {| arg_vatRate := v; arg_incomeTaxRate := Some 0;
                         arg_vatRetentionFraction := r |}) = 0.10)
  /\ (forall v i,
     vatRetentionFraction (TaxCalculator.constructor
                             {| arg_vatRate := v; arg_incomeTaxRate := i;
                                arg_vatRetentionFraction := Some 0 |}) = 0.6666666667)
  /\ (forall rates,
     is_zero (vatRate (TaxCalculator.constructor rates)) = false
     /\ is_zero (incomeTaxRate (TaxCalculator.constructor rates)) = false
     /\ is_zero (vatRetentionFraction (TaxCalculator.constructor rates)) = false).
Proof.
  repeat split; try reflexivity;
    cbn [TaxCalculator.constructor vatRate incomeTaxRate vatRetentionFraction];
    apply or_else_not_zero; reflexivity.
Qed.

(** * A zero VAT rate *)

Lemma Prim2SF_one : Prim2SF 1 = S754_finite false 4503599627370496 (-52).
Proof. vm_compute. reflexivity. Qed.

Lemma zero_inUnitInterval v : is_zero v = true -> inUnitInterval v = true.
Proof.
  unfold is_zero, inUnitInterval.
  rewrite FloatAxioms.eqb_spec, !FloatAxioms.leb_spec, Prim2SF_one.
  change (Prim2SF zero) with (S754_zero false). change (Prim2SF 0) with (S754_zero false).
  unfold SFeqb, SFleb.
  destruct (Prim2SF v) as [sv|sv| |sv mv ev]; cbn [SFcompare]; try discriminate;
    try (destruct sv; discriminate).
  reflexivity.
Qed.

(** C10.  When the VAT rate of the calculator is zero, [calculateFromSubtotal]
    throws for every subtotal and every options value; for a subtotal above
    zero and an income tax rate within [[0, 1]] the error is the rejection of
    the base of the VAT retention, [vatRaw], which is 0.  Such a calculator is
    obtained by [updateRates({ vatRate: 0 })], which stores the zero and keeps
    the other two rates. *)
Theorem calculateFromSubtotal_zero_vat_throws (this : RateSet) (s : float)
    (o : CalculationOptions) :
  is_zero (vatRate this) = true ->
  (exists e, TaxCalculator.calculateFromSubtotal this s o = Throw e)
  /\ ((0 <? s) = true ->
      inUnitInterval (incomeTaxRate this) = true ->
      TaxCalculator.calculateFromSubtotal this s o
      = Throw (Rethrown "Error in calculation from subtotal"
                 (MustBeGreaterThanZero "Base value"))
      \/ TaxCalculator.calculateFromSubtotal this s o
         = Throw (Rethrown "Error in calculation from subtotal"
                    (MustBeValidNumber "Base value")))
  /\ (forall base : RateSet,
      let zeroed :=
        TaxCalculator.updateRates base
          {| arg_vatRate := Some 0; arg_incomeTaxRate := None;
             arg_vatRetentionFraction := None |} in
      vatRate zeroed = 0
      /\ incomeTaxRate zeroed = incomeTaxRate base
      /\ vatRetentionFraction zeroed = vatRetentionFraction base).
Proof.
  intros Hz.
  assert (Hbase : forall r,
             calculatePercentage (s * vatRate this) r = Throw (MustBeValidNumber "Base value")
             \/ calculatePercentage (s * vatRate this) r
                = Throw (MustBeGreaterThanZero "Base value")).
  { intros r. unfold calculatePercentage.
    destruct (validatePositiveNumber_rejects (s * vatRate this) "Base value"
                (mul_zero_r s (vatRate this) Hz)) as [H|H];
      rewrite H; cbn [bind]; auto. }
  split; [|split; [|repeat split]].
  - unfold TaxCalculator.calculateFromSubtotal.
    destruct (validatePositiveNumber s "Subtotal") as [b|e]; cbn [bind try_rethrow];
      [|eexists; reflexivity].
    destruct (calculatePercentage s (vatRate this)) as [v|e] eqn:Ev;
      cbn [bind try_rethrow]; [|eexists; reflexivity].
    destruct (calculatePercentage s (incomeTaxRate this)) as [w|e];
      cbn [bind try_rethrow]; [|eexists; reflexivity].
    apply calculatePercentage_inv in Ev. destruct Ev as [-> _].
    destruct (Hbase (vatRetentionFraction this)) as [H|H]; rewrite H;
      cbn [bind try_rethrow]; eexists; reflexivity.
  - intros Hs Hi. unfold TaxCalculator.calculateFromSubtotal.
    rewrite (validatePositiveNumber_positive s _ Hs). cbn [bind].
    rewrite (calculatePercentage_returns s (vatRate this) Hs (zero_inUnitInterval _ Hz)).
    cbn [bind].
    rewrite (calculatePercentage_returns s (incomeTaxRate this) Hs Hi). cbn [bind].
    destruct (Hbase (vatRetentionFraction this)) as [H|H]; rewrite H;
      cbn [bind try_rethrow]; auto.
Qed.

Lemma calculateFromSubtotal_zero_vat_throws_witness :
  is_zero (vatRate (TaxCalculator.updateRates defaultRates
                      {| arg_vatRate := Some 0; arg_incomeTaxRate := None;
                         arg_vatRetentionFraction := None |})) = true
  /\ exists e,
       TaxCalculator.calculateFromSubtotal
         (TaxCalculator.updateRates defaultRates
            {| arg_vatRate := Some 0; arg_incomeTaxRate := None;
               arg_vatRetentionFraction := None |})
         100 {| roundPerLine := false |} = Throw e.
Proof.
  split; [reflexivity|].
  exact (proj1 (calculateFromSubtotal_zero_vat_throws
                  (TaxCalculator.updateRates defaultRates
                     {| arg_vatRate := Some 0; arg_incomeTaxRate := None;
                        arg_vatRetentionFraction := None |})
                  100 {| roundPerLine := false |} eq_refl)).
Defined.

(** * Goal Seek: the first bracket *)

Lemma Prim2SF_search_range :
  Prim2SF (SEARCH_RANGE_MULTIPLIER GOAL_SEEK_CONFIG)
  = S754_finite false 8796093022208000 (-42).
Proof. vm_compute. reflexivity. Qed.

(** [Math.max(0, d)] is [0] when [d] is a number that is not above zero. *)
Lemma Math_max_clamps d :
  is_nan d = false -> (0 <? d) = false -> JS.Math_max 0 d = 0.
Proof.
  intros Hn Hp. unfold JS.Math_max. rewrite Hn, Hp.
  change (is_nan 0) with false. cbn [orb].
  destruct (d <? 0); reflexivity.
Qed.

Lemma calculateFromSubtotal_zero this o :
  TaxCalculator.calculateFromSubtotal this 0 o
  = Throw (Rethrown "Error in calculation from subtotal" (MustBeGreaterThanZero "Subtotal")).
Proof. reflexivity. Qed.

(** C3.  For a target net above zero whose algebraic first approximation is
    at most the search range 2000, the low end of the first bracket,
    [Math.max(0, initialGuess - 2000)], is exactly 0; the breakdown of a
    subtotal of 0 is rejected by the positive-subtotal validation; so Goal
    Seek throws that validation error, which is not the unreachable-target
    error, and returns no breakdown. *)
Theorem goalSeekSubtotal_small_target_throws (this : RateSet) (targetNet : float)
    (o : CalculationOptions) (fuel : nat) (initialGuess : float) :
  (0 <? targetNet) = true ->
  TaxCalculator.calculateSubtotalFromNetAlgebraic this targetNet = Return initialGuess ->
  (initialGuess <=? SEARCH_RANGE_MULTIPLIER GOAL_SEEK_CONFIG) = true ->
  JS.Math_max 0 (initialGuess - SEARCH_RANGE_MULTIPLIER GOAL_SEEK_CONFIG) = 0
  /\ TaxCalculator.calculateFromSubtotal this 0 o
     = Throw (Rethrown "Error in calculation from subtotal"
                (MustBeGreaterThanZero "Subtotal"))
  /\ TaxCalculator.goalSeekSubtotal this targetNet o fuel
     = Some (Throw (Rethrown "Error in Goal Seek"
                      (Rethrown "Error in calculation from subtotal"
                         (MustBeGreaterThanZero "Subtotal"))))
  /\ kind (Rethrown "Error in Goal Seek"
             (Rethrown "Error in calculation from subtotal"
                (MustBeGreaterThanZero "Subtotal"))) = InvalidInput
  /\ InvalidInput <> GoalSeekUnreachable.
Proof.
  intros Ht Hg Hle.
  destruct (sub_le_not_positive initialGuess _ _ _ Prim2SF_search_range Hle) as [Hn Hp].
  pose proof (Math_max_clamps _ Hn Hp) as Hlow.
  split; [exact Hlow|]. split; [apply calculateFromSubtotal_zero|].
  split; [|split; [reflexivity|discriminate]].
  unfold TaxCalculator.goalSeekSubtotal, TaxCalculator.goalSeekRun,
    TaxCalculator.initialBracket.
  rewrite (validatePositiveNumber_positive _ _ Ht). cbn [bind].
  rewrite Hg. cbn [bind]. rewrite Hlow.
  unfold TaxCalculator.calculateNetForSubtotal at 1.
  rewrite calculateFromSubtotal_zero. reflexivity.
Qed.

Lemma goalSeekSubtotal_small_target_throws_witness :
  (0 <? 1000) = true
  /\ (1000 / TaxCalculator.denominator defaultRates
      <=? SEARCH_RANGE_MULTIPLIER GOAL_SEEK_CONFIG) = true
  /\ TaxCalculator.goalSeekSubtotal defaultRates 1000 {| roundPerLine := true |} 100
     = Some (Throw (Rethrown "Error in Goal Seek"
                      (Rethrown "Error in calculation from subtotal"
                         (MustBeGreaterThanZero "Subtotal")))).
Proof.
  split; [reflexivity|]. split; [reflexivity|].
  exact (proj1 (proj2 (proj2
    (goalSeekSubtotal_small_target_throws defaultRates 1000 {| roundPerLine := true |} 100
       (1000 / TaxCalculator.denominator defaultRates) eq_refl eq_refl eq_refl)))).
Defined.

(** * Goal Seek: the two loops *)

Section GoalSeekLoops.

Variable this : RateSet.
Variable targetNet : float.
Variable o : CalculationOptions.

Local Open Scope Z_scope.

Lemma calculateFromSubtotal_throws x e :
  TaxCalculator.calculateFromSubtotal this x o = Throw e ->
  exists cause, e = Rethrown "Error in calculation from subtotal" cause.
Proof.
  unfold TaxCalculator.calculateFromSubtotal.
  match goal with |- try_rethrow _ ?body = _ -> _ => destruct body as [b|cause] end;
    cbn [try_rethrow]; [discriminate|].
  intros H. injection H as <-. eexists. reflexivity.
Qed.

Lemma calculateNetForSubtotal_throws x e :
  TaxCalculator.calculateNetForSubtotal this o x = Throw e ->
  exists cause, e = Rethrown "Error in calculation from subtotal" cause.
Proof.
  unfold TaxCalculator.calculateNetForSubtotal.
  destruct (TaxCalculator.calculateFromSubtotal this x o) as [b|e'] eqn:E;
    cbn [bind]; [discriminate|].
  intros H. injection H as <-. exact (calculateFromSubtotal_throws x e' E).
Qed.

(** A round of the widening loop that ends normally has counted one more
    attempt, within the maximum, and goes on. *)
Lemma widen_inv b c :
  TaxCalculator.widen this o b = Return c ->
  exists b', c = TaxCalculator.Continue b'
             /\ TaxCalculator.attempts b' = TaxCalculator.attempts b + 1
             /\ TaxCalculator.attempts b + 1 <= MAX_ATTEMPTS GOAL_SEEK_CONFIG.
Proof.
  unfold TaxCalculator.widen.
  destruct (MAX_ATTEMPTS GOAL_SEEK_CONFIG <? TaxCalculator.attempts b + 1) eqn:E;
    [discriminate|].
  apply Z.ltb_ge in E.
  destruct (TaxCalculator.calculateNetForSubtotal this o _) as [nl|e1]; cbn [bind];
    [|discriminate].
  destruct (TaxCalculator.calculateNetForSubtotal this o _) as [nh|e2]; cbn [bind];
    [|discriminate].
  intros H. injection H as <-. eexists. split; [reflexivity|]. split; [reflexivity|exact E].
Qed.

(** A round of the widening loop throws the timeout exactly when the
    attempts are used up. *)
Lemma widen_throws b e :
  TaxCalculator.widen this o b = Throw e ->
  (e = I18n "goalSeekTimeout" <-> MAX_ATTEMPTS GOAL_SEEK_CONFIG < TaxCalculator.attempts b + 1).
Proof.
  unfold TaxCalculator.widen.
  destruct (MAX_ATTEMPTS GOAL_SEEK_CONFIG <? TaxCalculator.attempts b + 1) eqn:E.
  - apply Z.ltb_lt in E. intros H. injection H as <-. split; auto.
  - apply Z.ltb_ge in E.
    repeat match goal with
      | |- context [bind (TaxCalculator.calculateNetForSubtotal this o ?x) _] =>
          let E := fresh "E" in
          destruct (TaxCalculator.calculateNetForSubtotal this o x) as [?|?] eqn:E;
          cbn [bind]
      end;
      intros H; try discriminate H; injection H as <-;
      match goal with
      | E : _ = Throw _ |- _ =>
          destruct (calculateNetForSubtotal_throws _ _ E) as [cause ->]
      end;
      (split; [discriminate|lia]).
Qed.

(** The widening loop, entered after [n] rounds with enough fuel for the
    rounds that remain, stops: after at most [MAX_ATTEMPTS] rounds in all;
    normally only on a bracket whose ends are not on the same side of the
    target; with the timeout exactly when [MAX_ATTEMPTS] rounds have run and
    the ends still are on the same side. *)
Lemma widen_loop_stops fuel : forall b n,
  TaxCalculator.attempts b = Z.of_nat n ->
  Z.of_nat n <= MAX_ATTEMPTS GOAL_SEEK_CONFIG ->
  MAX_ATTEMPTS GOAL_SEEK_CONFIG + 1 - Z.of_nat n <= Z.of_nat fuel ->
  exists w,
    TaxCalculator.run_loop fuel (TaxCalculator.sameSide targetNet)
      (TaxCalculator.widen this o) b n = Some w
    /\ (n <= TaxCalculator.completed w)%nat
    /\ Z.of_nat (TaxCalculator.completed w) <= MAX_ATTEMPTS GOAL_SEEK_CONFIG
    /\ (TaxCalculator.thrown w = None ->
        TaxCalculator.sameSide targetNet (TaxCalculator.last w) = false)
    /\ (TaxCalculator.thrown w = Some (I18n "goalSeekTimeout") <->
        Z.of_nat (TaxCalculator.completed w) = MAX_ATTEMPTS GOAL_SEEK_CONFIG
        /\ TaxCalculator.sameSide targetNet (TaxCalculator.last w) = true).
Proof.
  induction fuel as [|fuel IH]; intros b n Hb Hn Hf; [lia|].
  cbn [TaxCalculator.run_loop].
  destruct (TaxCalculator.sameSide targetNet b) eqn:Hside.
  - destruct (TaxCalculator.widen this o b) as [[b'|b']|e] eqn:Hw.
    + destruct (widen_inv _ _ Hw) as (b'' & Hc & Ha & Hmax).
      injection Hc as ->.
      destruct (IH b'' (S n)) as (w & Hrun & Hle & Hbound & Hnormal & Htimeout);
        try lia.
      exists w. split; [exact Hrun|]. split; [lia|]. auto.
    + destruct (widen_inv _ _ Hw) as (b'' & Hc & _). discriminate Hc.
    + eexists. split; [reflexivity|].
      cbn [TaxCalculator.completed TaxCalculator.thrown TaxCalculator.last].
      split; [lia|]. split; [exact Hn|]. split; [discriminate|].
      pose proof (widen_throws _ _ Hw) as Hiff. split.
      * intros H. injection H as ->. split; [|exact Hside].
        destruct Hiff as [Hiff _]. specialize (Hiff eq_refl). lia.
      * intros [Hfull _]. f_equal. apply Hiff. lia.
  - eexists. split; [reflexivity|].
    cbn [TaxCalculator.completed TaxCalculator.thrown TaxCalculator.last].
    split; [lia|]. split; [exact Hn|]. split; [auto|].
    split; [discriminate|]. intros [_ H]. congruence.
Qed.

(** A round of the binary search that ends normally leaves the loop or
    counts one more iteration. *)
Lemma bisect_inv s c :
  TaxCalculator.bisect this targetNet o s = Return c ->
  (exists s', c = TaxCalculator.Break s')
  \/ (exists s', c = TaxCalculator.Continue s'
                 /\ TaxCalculator.i s' = TaxCalculator.i s + 1).
Proof.
  unfold TaxCalculator.bisect.
  destruct (TaxCalculator.calculateFromSubtotal this _ o) as [r|e]; cbn [bind];
    [|discriminate].
  destruct (_ <? TOLERANCE GOAL_SEEK_CONFIG)%float.
  - intros H. injection H as <-. left. eexists. reflexivity.
  - destruct (targetNet <? netAmount r)%float; intros H; injection H as <-; right;
      eexists; (split; [reflexivity|reflexivity]).
Qed.

(** The binary search, entered after [n] rounds with enough fuel for the
    rounds that remain, stops after at most [MAX_ITERATIONS] rounds in
    all. *)
Lemma search_loop_stops fuel : forall s n,
  TaxCalculator.i s = Z.of_nat n ->
  Z.of_nat n <= MAX_ITERATIONS GOAL_SEEK_CONFIG ->
  MAX_ITERATIONS GOAL_SEEK_CONFIG + 1 - Z.of_nat n <= Z.of_nat fuel ->
  exists r,
    TaxCalculator.run_loop fuel TaxCalculator.searching
      (TaxCalculator.bisect this targetNet o) s n = Some r
    /\ Z.of_nat (TaxCalculator.started r) <= MAX_ITERATIONS GOAL_SEEK_CONFIG.
Proof.
  induction fuel as [|fuel IH]; intros s n Hs Hn Hf; [lia|].
  cbn [TaxCalculator.run_loop].
  destruct (TaxCalculator.searching s) eqn:Hgo.
  - unfold TaxCalculator.searching in Hgo. apply Z.ltb_lt in Hgo.
    destruct (TaxCalculator.bisect this targetNet o s) as [[s'|s']|e] eqn:Hb.
    + destruct (bisect_inv _ _ Hb) as [(s'' & Hc)|(s'' & Hc & Hi)]; [discriminate Hc|].
      injection Hc as ->.
      destruct (IH s'' (S n)) as (r & Hrun & Hbound); try lia.
      exists r. auto.
    + eexists. split; [reflexivity|].
      cbn [TaxCalculator.started TaxCalculator.thrown TaxCalculator.completed]. lia.
    + eexists. split; [reflexivity|].
      cbn [TaxCalculator.started TaxCalculator.thrown TaxCalculator.completed]. lia.
  - eexists. split; [reflexivity|].
    cbn [TaxCalculator.started TaxCalculator.thrown TaxCalculator.completed]. lia.
Qed.

End GoalSeekLoops.

(** When a loop stops on an error, its body threw it in the last state. *)
Lemma run_loop_thrown {S : Type} (cond : S -> bool)
    (body : S -> result (TaxCalculator.Control S)) fuel :
  forall s n r e,
    TaxCalculator.run_loop fuel cond body s n = Some r ->
    TaxCalculator.thrown r = Some e ->
    body (TaxCalculator.last r) = Throw e.
Proof.
  induction fuel as [|fuel IH]; intros s n r e; cbn [TaxCalculator.run_loop];
    [discriminate|].
  destruct (cond s).
  - destruct (body s) as [[s'|s']|e'] eqn:Hb.
    + apply IH.
    + intros H. injection H as <-. discriminate.
    + intros H. injection H as <-. cbn. intros H. injection H as <-. exact Hb.
  - intros H. injection H as <-. discriminate.
Qed.

Section GoalSeekRuns.

Variable this : RateSet.
Variable targetNet : float.
Variable o : CalculationOptions.

Lemma initialBracket_attempts b0 :
  TaxCalculator.initialBracket this targetNet o = Return b0 ->
  TaxCalculator.attempts b0 = 0%Z.
Proof.
  unfold TaxCalculator.initialBracket.
  destruct (validatePositiveNumber targetNet _); cbn [bind]; [|discriminate].
  destruct (TaxCalculator.calculateSubtotalFromNetAlgebraic this targetNet);
    cbn [bind]; [|discriminate].
  repeat match goal with
    | |- context [bind (TaxCalculator.calculateNetForSubtotal this o ?x) _] =>
        destruct (TaxCalculator.calculateNetForSubtotal this o x); cbn [bind]
    end; intros H; try discriminate H.
  injection H as <-. reflexivity.
Qed.

Lemma bisect_throws s e :
  TaxCalculator.bisect this targetNet o s = Throw e ->
  exists cause, e = Rethrown "Error in calculation from subtotal" cause.
Proof.
  unfold TaxCalculator.bisect.
  destruct (TaxCalculator.calculateFromSubtotal this _ o) as [r|e'] eqn:E; cbn [bind].
  - destruct (_ <? TOLERANCE GOAL_SEEK_CONFIG); [discriminate|].
    destruct (targetNet <? netAmount r); discriminate.
  - intros H. injection H as <-. exact (calculateFromSubtotal_throws this o _ _ E).
Qed.

(** What the final adjustment returns. *)
Lemma finalAdjustment_inv best r :
  TaxCalculator.finalAdjustment this o best = Return r ->
  exists candidate rounded recomputed,
    best = Some candidate
    /\ round2 (subtotal candidate) = Return rounded
    /\ TaxCalculator.calculateFromSubtotal this rounded o = Return recomputed
    /\ r = set_calculationMethod goalSeek recomputed.
Proof.
  unfold TaxCalculator.finalAdjustment. destruct best as [candidate|]; [|discriminate].
  destruct (round2 (subtotal candidate)) as [rounded|] eqn:E1; cbn [bind];
    [|discriminate].
  destruct (TaxCalculator.calculateFromSubtotal this rounded o) as [recomputed|] eqn:E2;
    cbn [bind]; [|discriminate].
  intros H. injection H as <-. exists candidate, rounded, recomputed. auto.
Qed.

Lemma finalAdjustment_throws best e :
  TaxCalculator.finalAdjustment this o best = Throw e ->
  e <> I18n "goalSeekTimeout".
Proof.
  unfold TaxCalculator.finalAdjustment. destruct best as [candidate|].
  - unfold round2. destruct (JS.isNaN _); cbn [bind].
    + intros H. injection H as <-. discriminate.
    + destruct (TaxCalculator.calculateFromSubtotal this _ o) as [r|e'] eqn:E;
        cbn [bind]; [discriminate|].
      intros H. injection H as <-.
      destruct (calculateFromSubtotal_throws this o _ _ E) as [cause ->]. discriminate.
  - intros H. injection H as <-. discriminate.
Qed.

End GoalSeekRuns.

(** C2.  Goal Seek terminates, whatever the target, the rates and the
    options: with fuel for 81 rounds the run never stops for lack of fuel.
    The bracket-widening loop completes at most [MAX_ATTEMPTS = 40] rounds; it
    is left normally only with a bracket whose ends are not on the same side
    of the target; and the call fails with the Goal Seek timeout (the
    unreachable-target error) exactly when 40 rounds have been completed and
    the ends still are on the same side.  The binary search starts at most
    [MAX_ITERATIONS = 80] rounds. *)
Theorem goalSeekSubtotal_terminates (this : RateSet) (targetNet : float)
    (o : CalculationOptions) (fuel : nat) :
  (80 < fuel)%nat ->
  (MAX_ATTEMPTS GOAL_SEEK_CONFIG = 40%Z
   /\ MAX_ITERATIONS GOAL_SEEK_CONFIG = 80%Z
   /\ kind (Rethrown "Error in Goal Seek" (I18n "goalSeekTimeout")) = GoalSeekUnreachable)
  /\ (exists run,
        TaxCalculator.goalSeekRun this targetNet o fuel = Some run
        /\ (TaxCalculator.widenings run <= 40)%nat
        /\ (TaxCalculator.iterations run <= 80)%nat)
  /\ (forall b0,
        TaxCalculator.initialBracket this targetNet o = Return b0 ->
        exists w,
          TaxCalculator.widenLoop this targetNet o fuel b0 = Some w
          /\ (TaxCalculator.completed w <= 40)%nat
          /\ (TaxCalculator.thrown w = None ->
              TaxCalculator.sameSide targetNet (TaxCalculator.last w) = false)
          /\ ((TaxCalculator.completed w = 40%nat
               /\ TaxCalculator.sameSide targetNet (TaxCalculator.last w) = true)
              <-> TaxCalculator.goalSeekSubtotal this targetNet o fuel
                  = Some (Throw (Rethrown "Error in Goal Seek" (I18n "goalSeekTimeout")))))
  /\ (forall low high,
        exists s,
          TaxCalculator.searchLoop this targetNet o fuel low high = Some s
          /\ (TaxCalculator.started s <= 80)%nat).
Proof.
  intros Hfuel.
  assert (Hsearch : forall low high,
             exists s,
               TaxCalculator.searchLoop this targetNet o fuel low high = Some s
               /\ (TaxCalculator.started s <= 80)%nat).
  { intros low high. unfold TaxCalculator.searchLoop.
    destruct (search_loop_stops this targetNet o fuel
                {| TaxCalculator.i := 0; TaxCalculator.lo := low;
                   TaxCalculator.hi := high; TaxCalculator.bestResult := None |} 0%nat)
      as (s & Hs & Hb); cbn; try lia.
    exists s. split; [exact Hs|]. cbn in Hb. lia. }
  assert (Hwiden : forall b0,
             TaxCalculator.initialBracket this targetNet o = Return b0 ->
             exists w,
               TaxCalculator.widenLoop this targetNet o fuel b0 = Some w
               /\ (TaxCalculator.completed w <= 40)%nat
               /\ (TaxCalculator.thrown w = None ->
                   TaxCalculator.sameSide targetNet (TaxCalculator.last w) = false)
               /\ (TaxCalculator.thrown w = Some (I18n "goalSeekTimeout") <->
                   TaxCalculator.completed w = 40%nat
                   /\ TaxCalculator.sameSide targetNet (TaxCalculator.last w) = true)).
  { intros b0 Hb0. unfold TaxCalculator.widenLoop.
    destruct (widen_loop_stops this targetNet o fuel b0 0%nat)
      as (w & Hw & _ & Hbound & Hnormal & Htimeout).
    - exact (initialBracket_attempts this targetNet o b0 Hb0).
    - cbn. lia.
    - cbn. lia.
    - exists w. split; [exact Hw|]. cbn in Hbound, Htimeout.
      split; [lia|]. split; [exact Hnormal|].
      rewrite Htimeout. split; intros [H1 H2]; (split; [lia|exact H2]). }
  split; [repeat split|]. split; [|split; [|exact Hsearch]].
  - unfold TaxCalculator.goalSeekRun.
    destruct (TaxCalculator.initialBracket this targetNet o) as [b0|e] eqn:Hb0.
    + destruct (Hwiden b0 eq_refl) as (w & Hw & Hbound & _). rewrite Hw.
      destruct (TaxCalculator.thrown w) as [e|].
      * eexists. split; [reflexivity|]. cbn. lia.
      * destruct (Hsearch (TaxCalculator.low (TaxCalculator.last w))
                    (TaxCalculator.high (TaxCalculator.last w))) as (s & Hs & Hsb).
        rewrite Hs. destruct (TaxCalculator.thrown s) as [e|];
          eexists; (split; [reflexivity|]); cbn [TaxCalculator.widenings
            TaxCalculator.iterations]; lia.
    + eexists. split; [reflexivity|]. cbn. lia.
  - intros b0 Hb0. destruct (Hwiden b0 Hb0) as (w & Hw & Hbound & Hnormal & Htimeout).
    exists w. split; [exact Hw|]. split; [exact Hbound|]. split; [exact Hnormal|].
    rewrite <- Htimeout.
    unfold TaxCalculator.goalSeekSubtotal, TaxCalculator.goalSeekRun.
    rewrite Hb0, Hw.
    destruct (TaxCalculator.thrown w) as [e|] eqn:Hthrown.
    + cbn. split; intros H; [injection H as ->; reflexivity|].
      injection H as ->. reflexivity.
    + split; [discriminate|].
      destruct (Hsearch (TaxCalculator.low (TaxCalculator.last w))
                  (TaxCalculator.high (TaxCalculator.last w))) as (s & Hs & _).
      rewrite Hs.
      destruct (TaxCalculator.thrown s) as [e|] eqn:Hse; cbn.
      * intros H. injection H as ->.
        unfold TaxCalculator.searchLoop in Hs.
        pose proof (run_loop_thrown _ _ _ _ _ _ _ Hs Hse) as Hbody.
        destruct (bisect_throws this targetNet o _ _ Hbody) as [cause Hc].
        discriminate Hc.
      * destruct (TaxCalculator.finalAdjustment this o _) as [r|e] eqn:Hfin; cbn;
          [discriminate|].
        intros H. injection H as ->.
        exfalso. exact (finalAdjustment_throws this o _ _ Hfin eq_refl).
Qed.

Lemma goalSeekSubtotal_terminates_witness :
  (80 < 81)%nat
  /\ exists run,
       TaxCalculator.goalSeekRun defaultRates 9280 {| roundPerLine := true |} 81 = Some run
       /\ (TaxCalculator.widenings run <= 40)%nat
       /\ (TaxCalculator.iterations run <= 80)%nat.
Proof.
  split; [lia|].
  exact (proj1 (proj2
    (goalSeekSubtotal_terminates defaultRates 9280 {| roundPerLine := true |} 81
       ltac:(lia)))).
Defined.

(** A target so large that the search range is absorbed by rounding: the
    bracket never widens, and Goal Seek gives up after the 40 attempts. *)
Example goalSeekSubtotal_timeout_1e300 :
  TaxCalculator.goalSeekRun defaultRates 1e300 {| roundPerLine := true |} 81
  = Some {| TaxCalculator.outcome :=
              Throw (Rethrown "Error in Goal Seek" (I18n "goalSeekTimeout"));
            TaxCalculator.widenings := 40;
            TaxCalculator.iterations := 0 |}.
Proof. vm_compute. reflexivity. Qed.

(** * Goal Seek: the result *)

Lemma roundLine_inv o raw line :
  TaxCalculator.roundLine o raw = Return line -> line = effectiveLine o raw.
Proof.
  unfold TaxCalculator.roundLine, effectiveLine, round2.
  destruct (roundPerLine o); [|congruence].
  destruct (JS.isNaN raw); [discriminate|congruence].
Qed.

(** Whatever [calculateFromSubtotal] returns is the breakdown of its
    subtotal. *)
Lemma calculateFromSubtotal_inv this x o b :
  TaxCalculator.calculateFromSubtotal this x o = Return b -> b = breakdownOf this x o.
Proof.
  unfold TaxCalculator.calculateFromSubtotal.
  destruct (validatePositiveNumber x "Subtotal"); cbn [bind try_rethrow]; [|discriminate].
  destruct (calculatePercentage x (vatRate this)) as [v|] eqn:Ev;
    cbn [bind try_rethrow]; [|discriminate].
  destruct (calculatePercentage x (incomeTaxRate this)) as [w|] eqn:Ew;
    cbn [bind try_rethrow]; [|discriminate].
  apply calculatePercentage_inv in Ev, Ew. destruct Ev as [-> _], Ew as [-> _].
  destruct (calculatePercentage _ (vatRetentionFraction this)) as [u|] eqn:Eu;
    cbn [bind try_rethrow]; [|discriminate].
  apply calculatePercentage_inv in Eu. destruct Eu as [-> _].
  destruct (TaxCalculator.roundLine o (x * vatRate this)) as [l1|] eqn:E1;
    cbn [bind try_rethrow]; [|discriminate].
  destruct (TaxCalculator.roundLine o (x * incomeTaxRate this)) as [l2|] eqn:E2;
    cbn [bind try_rethrow]; [|discriminate].
  destruct (TaxCalculator.roundLine o (x * vatRate this * vatRetentionFraction this))
    as [l3|] eqn:E3; cbn [bind try_rethrow]; [|discriminate].
  apply roundLine_inv in E1, E2, E3. subst l1 l2 l3.
  unfold round2. destruct (JS.isNaN _); cbn [bind try_rethrow]; [discriminate|].
  intros H. injection H as <-. reflexivity.
Qed.

Section GoalSeekResult.

Variable this : RateSet.
Variable targetNet : float.
Variable o : CalculationOptions.

Lemma bisect_bestEvaluated s c :
  bestEvaluated this o s ->
  TaxCalculator.bisect this targetNet o s = Return c ->
  match c with
  | TaxCalculator.Continue s' | TaxCalculator.Break s' => bestEvaluated this o s'
  end.
Proof.
  intros Hs. unfold TaxCalculator.bisect.
  destruct (TaxCalculator.calculateFromSubtotal this _ o) as [r|e] eqn:E; cbn [bind];
    [|discriminate].
  assert (Hbest : forall b,
             match TaxCalculator.bestResult s with
             | Some best =>
                 if JS.Math_abs (netAmount r - targetNet)
                    <? TaxCalculator.deviation targetNet best
                 then Some r else Some best
             | None => Some r
             end = Some b -> evaluated this o b).
  { intros b. destruct (TaxCalculator.bestResult s) as [best|] eqn:Eb.
    - destruct (_ <? _); intros H; injection H as <-.
      + eexists. exact E.
      + apply Hs. exact Eb.
    - intros H. injection H as <-. eexists. exact E. }
  destruct (_ <? TOLERANCE GOAL_SEEK_CONFIG).
  - intros H. injection H as <-. exact Hbest.
  - destruct (targetNet <? netAmount r); intros H; injection H as <-; exact Hbest.
Qed.

Lemma search_loop_bestEvaluated fuel : forall s n r,
  bestEvaluated this o s ->
  TaxCalculator.run_loop fuel TaxCalculator.searching
    (TaxCalculator.bisect this targetNet o) s n = Some r ->
  bestEvaluated this o (TaxCalculator.last r).
Proof.
  induction fuel as [|fuel IH]; intros s n r Hs; cbn [TaxCalculator.run_loop];
    [discriminate|].
  destruct (TaxCalculator.searching s).
  - destruct (TaxCalculator.bisect this targetNet o s) as [[s'|s']|e] eqn:Hb.
    + apply IH. exact (bisect_bestEvaluated s _ Hs Hb).
    + intros H. injection H as <-. exact (bisect_bestEvaluated s _ Hs Hb).
    + intros H. injection H as <-. exact Hs.
  - intros H. injection H as <-. exact Hs.
Qed.

(** The best result after one more candidate [r]. *)
Lemma bestAmong_step best seen r :
  bestAmong targetNet best seen ->
  bestAmong targetNet
    (match best with
     | None => Some r
     | Some b =>
         if JS.Math_abs (netAmount r - targetNet) <? TaxCalculator.deviation targetNet b
         then Some r else Some b
     end) (seen ++ [r]).
Proof.
  destruct best as [b|]; cbn [bestAmong].
  - intros [Hin Hmin].
    fold (TaxCalculator.deviation targetNet r).
    destruct (TaxCalculator.deviation targetNet r <? TaxCalculator.deviation targetNet b)
      eqn:Hlt; cbn [bestAmong]; (split; [apply in_or_app; cbn; auto|]);
      intros c Hc; apply in_app_or in Hc; destruct Hc as [Hc|[<-|[]]].
    + destruct (TaxCalculator.deviation targetNet c <? TaxCalculator.deviation targetNet r)
        eqn:Hcr; [|reflexivity].
      rewrite <- (Hmin c Hc). symmetry. exact (ltb_trans _ _ _ Hcr Hlt).
    + apply ltb_irrefl.
    + exact (Hmin c Hc).
    + exact Hlt.
  - intros ->. cbn. split; [auto|]. intros c [<-|[]]. apply ltb_irrefl.
Qed.

(** What a round of the binary search does, by the breakdown of its
    midpoint. *)
Lemma bisect_outcome s :
  match TaxCalculator.calculateFromSubtotal this
          ((TaxCalculator.lo s + TaxCalculator.hi s) / 2) o with
  | Throw e => TaxCalculator.bisect this targetNet o s = Throw e
  | Return r =>
      exists s',
        (TaxCalculator.bisect this targetNet o s = Return (TaxCalculator.Break s')
         \/ TaxCalculator.bisect this targetNet o s = Return (TaxCalculator.Continue s'))
        /\ TaxCalculator.bestResult s'
           = match TaxCalculator.bestResult s with
             | None => Some r
             | Some b =>
                 if JS.Math_abs (netAmount r - targetNet)
                    <? TaxCalculator.deviation targetNet b
                 then Some r else Some b
             end
  end.
Proof.
  unfold TaxCalculator.bisect.
  destruct (TaxCalculator.calculateFromSubtotal this _ o) as [r|e]; cbn [bind];
    [|reflexivity].
  destruct (_ <? TOLERANCE GOAL_SEEK_CONFIG); [|destruct (targetNet <? netAmount r)];
    eexists; (split; [auto|reflexivity]).
Qed.

(** The best result the binary search ends with is the best of the
    candidates it evaluated. *)
Lemma search_loop_bestAmong fuel : forall s n r seen,
  bestAmong targetNet (TaxCalculator.bestResult s) seen ->
  TaxCalculator.run_loop fuel TaxCalculator.searching
    (TaxCalculator.bisect this targetNet o) s n = Some r ->
  bestAmong targetNet (TaxCalculator.bestResult (TaxCalculator.last r))
    (seen ++ candidates this targetNet o fuel s).
Proof.
  induction fuel as [|fuel IH]; intros s n r seen Hs;
    cbn [TaxCalculator.run_loop candidates]; [discriminate|].
  destruct (TaxCalculator.searching s).
  - pose proof (bisect_outcome s) as Hout.
    destruct (TaxCalculator.calculateFromSubtotal this _ o) as [c|e].
    + destruct Hout as (s' & Hb & Hbest).
      pose proof (bestAmong_step _ _ c Hs) as Hstep. rewrite <- Hbest in Hstep.
      destruct Hb as [Hb|Hb]; rewrite Hb.
      * intros H. injection H as <-. exact Hstep.
      * intros H. apply (IH _ _ _ _ Hstep) in H. rewrite <- app_assoc in H. exact H.
    + rewrite Hout. intros H. injection H as <-. rewrite app_nil_r. exact Hs.
  - intros H. injection H as <-. rewrite app_nil_r. exact Hs.
Qed.

End GoalSeekResult.

(** C6.  Whenever Goal Seek returns a breakdown, the search has left a best
    candidate: the breakdown of one of the midpoints it evaluated, such that
    none of them has a net amount strictly closer to the target; and the
    result is [calculateFromSubtotal] applied to [round2] of that candidate's
    subtotal, with [calculationMethod] set to [goalSeek]; so the subtotal
    returned is that two-decimal value, an integer Number divided by 100. *)
Theorem goalSeekSubtotal_returns_recomputed (this : RateSet) (targetNet : float)
    (o : CalculationOptions) (fuel : nat) (r : BreakdownResult) :
  TaxCalculator.goalSeekSubtotal this targetNet o fuel = Some (Return r) ->
  exists b0 w s best rounded recomputed,
    TaxCalculator.initialBracket this targetNet o = Return b0
    /\ TaxCalculator.widenLoop this targetNet o fuel b0 = Some w
    /\ TaxCalculator.searchLoop this targetNet o fuel
         (TaxCalculator.low (TaxCalculator.last w))
         (TaxCalculator.high (TaxCalculator.last w)) = Some s
    /\ TaxCalculator.bestResult (TaxCalculator.last s) = Some best
    /\ (exists mid, TaxCalculator.calculateFromSubtotal this mid o = Return best)
    /\ (let seen :=
          candidates this targetNet o fuel
            {| TaxCalculator.i := 0;
               TaxCalculator.lo := TaxCalculator.low (TaxCalculator.last w);
               TaxCalculator.hi := TaxCalculator.high (TaxCalculator.last w);
               TaxCalculator.bestResult := None |} in
        In best seen
        /\ forall c, In c seen ->
             (JS.Math_abs (netAmount c - targetNet)
              <? JS.Math_abs (netAmount best - targetNet)) = false)
    /\ round2 (subtotal best) = Return rounded
    /\ TaxCalculator.calculateFromSubtotal this rounded o = Return recomputed
    /\ r = set_calculationMethod goalSeek recomputed
    /\ calculationMethod r = goalSeek
    /\ subtotal r = rounded
    /\ rounded = JS.Math_round ((subtotal best + JS.Number_EPSILON) * 100) / 100.
Proof.
  unfold TaxCalculator.goalSeekSubtotal, TaxCalculator.goalSeekRun.
  destruct (TaxCalculator.initialBracket this targetNet o) as [b0|e] eqn:Hb0;
    [|discriminate].
  destruct (TaxCalculator.widenLoop this targetNet o fuel b0) as [w|] eqn:Hw;
    [|discriminate].
  destruct (TaxCalculator.thrown w) as [e|]; [discriminate|].
  destruct (TaxCalculator.searchLoop this targetNet o fuel _ _) as [s|] eqn:Hs;
    [|discriminate].
  destruct (TaxCalculator.thrown s) as [e|]; [discriminate|].
  cbn [option_map TaxCalculator.outcome TaxCalculator.rethrowGoalSeek].
  destruct (TaxCalculator.finalAdjustment this o _) as [r'|e] eqn:Hfin;
    cbn [try_rethrow]; [|discriminate].
  intros H. injection H as ->.
  destruct (finalAdjustment_inv this o _ _ Hfin)
    as (best & rounded & recomputed & Hbest & Hround & Hcalc & Hr).
  exists b0, w, s, best, rounded, recomputed.
  split; [reflexivity|]. split; [exact Hw|]. split; [exact Hs|].
  split; [exact Hbest|]. split.
  { unfold TaxCalculator.searchLoop in Hs.
    refine (search_loop_bestEvaluated this targetNet o fuel _ _ _ _ Hs best Hbest).
    intros b Hb. discriminate Hb. }
  split.
  { unfold TaxCalculator.searchLoop in Hs.
    pose proof (fun H0 => search_loop_bestAmong this targetNet o fuel _ _ _ [] H0 Hs)
      as Hmin.
    specialize (Hmin eq_refl). rewrite Hbest in Hmin. cbn [bestAmong app] in Hmin.
    exact Hmin. }
  split; [exact Hround|]. split; [exact Hcalc|]. split; [exact Hr|].
  split; [subst r; reflexivity|]. split.
  - subst r. rewrite (calculateFromSubtotal_inv _ _ _ _ Hcalc). reflexivity.
  - unfold round2 in Hround. destruct (JS.isNaN _); [discriminate|].
    injection Hround as <-. reflexivity.
Qed.

Lemma goalSeekSubtotal_returns_recomputed_witness :
  exists r,
    TaxCalculator.goalSeekSubtotal defaultRates 9280 {| roundPerLine := true |} 81
    = Some (Return r)
    /\ calculationMethod r = goalSeek.
Proof.
  eexists. split.
  - vm_compute. reflexivity.
  - match goal with
    | |- calculationMethod ?r = _ =>
        destruct (goalSeekSubtotal_returns_recomputed defaultRates 9280
                    {| roundPerLine := true |} 81 r)
          as (b0 & w & s & best & rounded & recomputed
              & _ & _ & _ & _ & _ & _ & _ & _ & _ & H & _)
    end.
    + vm_compute. reflexivity.
    + exact H.
Defined.

(** * The round trip through the algebraic inverter *)

(** The algebraic subtotal and its breakdown: for a target net [N] above
    zero and rates within [[0, 1]] whose denominator is not degenerate, the
    subtotal [s = N / denominator] is returned; and when its VAT line is above
    zero and its net amount is not NaN, so is its breakdown without per-line
    rounding, whose net amount is the net amount rebuilt from [s] and
    rounded to two decimals. *)
Lemma algebraic_subtotal_breakdown (this : RateSet) (N : float) :
  (0 <? N) = true ->
  (JS.Math_abs (TaxCalculator.denominator this) <? 0.000001) = false ->
  validRates this = true ->
  (0 <? N / TaxCalculator.denominator this * vatRate this) = true ->
  is_nan (netBeforeRounding this (N / TaxCalculator.denominator this)
            {| roundPerLine := false |}) = false ->
  exists s b,
    TaxCalculator.calculateSubtotalFromNetAlgebraic this N = Return s
    /\ s = N / (1 + vatRate this - incomeTaxRate this
                - vatRate this * vatRetentionFraction this)
    /\ TaxCalculator.calculateFromSubtotal this s {| roundPerLine := false |} = Return b
    /\ subtotal b = s
    /\ round2 (s + s * vatRate this - s * incomeTaxRate this
               - s * vatRate this * vatRetentionFraction this) = Return (netAmount b).
Proof.
  intros HN Hden Hrates Hvat Hnet.
  exists (N / TaxCalculator.denominator this),
    (breakdownOf this (N / TaxCalculator.denominator this) {| roundPerLine := false |}).
  assert (Hs : (0 <? N / TaxCalculator.denominator this) = true).
  { apply (mul_positive_l _ (vatRate this)); [|exact Hvat].
    unfold validRates, inUnitInterval in Hrates.
    repeat (apply andb_prop in Hrates; destruct Hrates as [Hrates ?]).
    exact Hrates. }
  split.
  { unfold TaxCalculator.calculateSubtotalFromNetAlgebraic.
    rewrite (validatePositiveNumber_positive _ _ HN). cbn [bind].
    rewrite Hden. reflexivity. }
  split; [reflexivity|].
  split; [exact (calculateFromSubtotal_returns this _ _ Hs Hrates Hvat Hnet)|].
  split; [reflexivity|].
  exact (round2_returns _ Hnet).
Qed.

(** The round trip stops where [calculateFromSubtotal] throws.  With the rates
    [{ vatRate: 0, incomeTaxRate: 0.10, vatRetentionFraction: 0.6666666667 }]
    the denominator is 0.9, not degenerate, and the algebraic subtotal of a
    net of 100 is returned; but its breakdown is not: [calculateFromSubtotal]
    throws, so there is no net amount to compare with 100. *)
Example algebraic_round_trip_zero_vat :
  (0 <? 100) = true
  /\ (JS.Math_abs
        (TaxCalculator.denominator
           {| vatRate := 0; incomeTaxRate := 0.10; vatRetentionFraction := 0.6666666667 |})
      <? 0.000001) = false
  /\ TaxCalculator.calculateSubtotalFromNetAlgebraic
       {| vatRate := 0; incomeTaxRate := 0.10; vatRetentionFraction := 0.6666666667 |} 100
     = Return (100 / 0.9)
  /\ TaxCalculator.calculateFromSubtotal
       {| vatRate := 0; incomeTaxRate := 0.10; vatRetentionFraction := 0.6666666667 |}
       (100 / 0.9) {| roundPerLine := false |}
     = Throw (Rethrown "Error in calculation from subtotal"
                (MustBeGreaterThanZero "Base value")).
Proof. repeat split; vm_compute; reflexivity. Qed.

(** With the default rates the round trip gives back a two-decimal net, and
    a net with more decimals only up to the final rounding. *)
Example algebraic_round_trip_default :
  (s <- TaxCalculator.calculateSubtotalFromNetAlgebraic defaultRates 9280 ;;
   b <- TaxCalculator.calculateFromSubtotal defaultRates s {| roundPerLine := false |} ;;
   Return (netAmount b)) = Return 9280
  /\ (s <- TaxCalculator.calculateSubtotalFromNetAlgebraic defaultRates 100.004 ;;
      b <- TaxCalculator.calculateFromSubtotal defaultRates s {| roundPerLine := false |} ;;
      Return (netAmount b)) = Return 100.
Proof. split; vm_compute; reflexivity. Qed.

(** * More facts about binary64 arithmetic *)

Section SpecFloatOrder.

(** Two numbers always compare. *)
Lemma SFcompare_total x y :
  x <> S754_nan -> y <> S754_nan -> exists c, SFcompare x y = Some c.
Proof.
  destruct x as [sx|sx| |sx mx ex], y as [sy|sy| |sy my ey]; try congruence;
    intros _ _; cbn [SFcompare]; eexists; reflexivity.
Qed.

(** Numbers that compare equal compare alike with any third one. *)
Lemma SFcompare_eq_l x y z :
  SFcompare x y = Some Eq -> SFcompare x z = SFcompare y z.
Proof.
  destruct x as [sx|sx| |sx mx ex], y as [sy|sy| |sy my ey]; cbn [SFcompare];
    try discriminate; try (destruct sx; discriminate); try (destruct sy; discriminate).
  - intros _. destruct z; reflexivity.
  - destruct sx, sy; try discriminate; reflexivity.
  - assert (Hsame : sx = sy /\ ex = ey /\ mx = my ->
                    SFcompare (S754_finite sx mx ex) z = SFcompare (S754_finite sy my ey) z)
      by (intros (-> & -> & ->); reflexivity).
    intros H. apply Hsame.
    destruct sx, sy; try discriminate; (split; [reflexivity|]);
      destruct (Z.compare_spec ex ey) as [E|E|E]; try discriminate;
      (split; [exact E|]).
    + apply Pos.compare_eq. change (Pos.compare mx my) with (Pos.compare_cont Eq mx my).
      destruct (Pos.compare_cont Eq mx my); try discriminate; reflexivity.
    + apply Pos.compare_eq. change (Pos.compare mx my) with (Pos.compare_cont Eq mx my).
      destruct (Pos.compare_cont Eq mx my); try discriminate; reflexivity.
Qed.

Lemma SFleb_ltb_trans x y z :
  SFleb x y = true -> SFltb y z = true -> SFltb x z = true.
Proof.
  unfold SFleb. destruct (SFcompare x y) as [[ | | ]|] eqn:E; try discriminate; intros _.
  - unfold SFltb. rewrite (SFcompare_eq_l x y z E). auto.
  - apply SFltb_trans. unfold SFltb. rewrite E. reflexivity.
Qed.

(** Every rounding of a non-negative mantissa, and every rounded integer, is
    a number. *)
Lemma binary_round_aux_not_nan sx mx ex lx :
  (0 <= mx)%Z -> binary_round_aux prec emax sx mx ex lx <> S754_nan.
Proof.
  intros H. pose proof (binary_round_aux_sign sx mx ex lx H) as S.
  destruct (binary_round_aux prec emax sx mx ex lx); cbn in S; congruence.
Qed.

Lemma binary_normalize_not_nan z e s : binary_normalize prec emax z e s <> S754_nan.
Proof.
  destruct z as [|p|p]; cbn [binary_normalize]; [discriminate| |].
  - pose proof (binary_round_sign false p e) as S.
    destruct (binary_round prec emax false p e); cbn in S; congruence.
  - pose proof (binary_round_sign true p e) as S.
    destruct (binary_round prec emax true p e); cbn in S; congruence.
Qed.

End SpecFloatOrder.

Section FloatOrder.

Lemma Prim2SF_not_nan x : is_nan x = false -> Prim2SF x <> S754_nan.
Proof. rewrite is_nan_spec. destruct (Prim2SF x); congruence. Qed.

Lemma not_nan_Prim2SF x : Prim2SF x <> S754_nan -> is_nan x = false.
Proof. rewrite is_nan_spec. destruct (Prim2SF x); congruence. Qed.

Lemma ltb_not_nan a b : (a <? b) = true -> is_nan a = false /\ is_nan b = false.
Proof.
  rewrite FloatAxioms.ltb_spec, !is_nan_spec. unfold SFltb.
  destruct (Prim2SF a), (Prim2SF b); cbn; auto; discriminate.
Qed.

Lemma leb_not_nan a b : (a <=? b) = true -> is_nan a = false /\ is_nan b = false.
Proof.
  rewrite FloatAxioms.leb_spec, !is_nan_spec. unfold SFleb.
  destruct (Prim2SF a), (Prim2SF b); cbn; auto; discriminate.
Qed.

(** The order of numbers is total. *)
Lemma not_leb_ltb a b :
  is_nan a = false -> is_nan b = false -> (a <=? b) = false -> (b <? a) = true.
Proof.
  intros Ha Hb. rewrite FloatAxioms.leb_spec, FloatAxioms.ltb_spec. unfold SFleb, SFltb.
  rewrite (SFcompare_antisym (Prim2SF a) (Prim2SF b)).
  destruct (SFcompare_total _ _ (Prim2SF_not_nan a Ha) (Prim2SF_not_nan b Hb)) as [c ->].
  destruct c; cbn; congruence.
Qed.

Lemma not_ltb_leb a b :
  is_nan a = false -> is_nan b = false -> (a <? b) = false -> (b <=? a) = true.
Proof.
  intros Ha Hb. rewrite FloatAxioms.leb_spec, FloatAxioms.ltb_spec. unfold SFleb, SFltb.
  rewrite (SFcompare_antisym (Prim2SF a) (Prim2SF b)).
  destruct (SFcompare_total _ _ (Prim2SF_not_nan a Ha) (Prim2SF_not_nan b Hb)) as [c ->].
  destruct c; cbn; congruence.
Qed.

Lemma leb_ltb_trans a b c : (a <=? b) = true -> (b <? c) = true -> (a <? c) = true.
Proof. rewrite FloatAxioms.leb_spec, !FloatAxioms.ltb_spec. apply SFleb_ltb_trans. Qed.

(** A finite number is a zero or has a mantissa. *)
Lemma is_finite_spec x :
  is_finite x = true ->
  match Prim2SF x with S754_zero _ | S754_finite _ _ _ => True | _ => False end.
Proof.
  unfold is_finite, is_infinity.
  rewrite is_nan_spec, FloatAxioms.eqb_spec, FloatAxioms.abs_spec.
  change (Prim2SF infinity) with (S754_infinity false).
  destruct (Prim2SF x) as [s|s| |s m e]; cbn; auto; discriminate.
Qed.

(** Operations that keep numbers numbers. *)
Lemma add_finite_not_nan a b :
  is_nan a = false -> is_finite b = true -> is_nan (a + b) = false.
Proof.
  intros Ha Hb. apply not_nan_Prim2SF. rewrite FloatAxioms.add_spec.
  apply Prim2SF_not_nan in Ha. apply is_finite_spec in Hb.
  unfold SF64add, SFadd.
  destruct (Prim2SF a) as [sa|sa| |sa ma ea], (Prim2SF b) as [sb|sb| |sb mb eb];
    try contradiction; try congruence; try discriminate.
  - destruct sa, sb; discriminate.
  - apply binary_normalize_not_nan.
Qed.

Lemma sub_finite_not_nan a b :
  is_nan a = false -> is_finite b = true -> is_nan (a - b) = false.
Proof.
  intros Ha Hb. apply not_nan_Prim2SF. rewrite FloatAxioms.sub_spec.
  apply Prim2SF_not_nan in Ha. apply is_finite_spec in Hb.
  unfold SF64sub, SFsub.
  destruct (Prim2SF a) as [sa|sa| |sa ma ea], (Prim2SF b) as [sb|sb| |sb mb eb];
    try contradiction; try congruence; try discriminate.
  - destruct sa, sb; discriminate.
  - apply binary_normalize_not_nan.
Qed.

Lemma mul_nonzero_not_nan a b mb eb sb :
  is_nan a = false -> Prim2SF b = S754_finite sb mb eb -> is_nan (a * b) = false.
Proof.
  intros Ha Hb. apply not_nan_Prim2SF. rewrite FloatAxioms.mul_spec, Hb.
  apply Prim2SF_not_nan in Ha. unfold SF64mul, SFmul.
  destruct (Prim2SF a) as [sa|sa| |sa ma ea]; try congruence; try discriminate.
  apply binary_round_aux_not_nan. lia.
Qed.

Lemma div_nonzero_not_nan a b mb eb sb :
  is_nan a = false -> Prim2SF b = S754_finite sb mb eb -> is_nan (a / b) = false.
Proof.
  intros Ha Hb. apply not_nan_Prim2SF. rewrite FloatAxioms.div_spec, Hb.
  apply Prim2SF_not_nan in Ha. unfold SF64div, SFdiv.
  destruct (Prim2SF a) as [sa|sa| |sa ma ea]; try congruence; try discriminate.
  unfold SFdiv_core_binary.
  match goal with
  | |- context [Z.div_eucl ?n ?d] =>
      assert (Hq : (0 <= fst (Z.div_eucl n d))%Z);
      [ change (fst (Z.div_eucl n d)) with (Z.div n d); apply Z.div_pos; [|lia]
      | destruct (Z.div_eucl n d) as [q r]; cbn [fst] in Hq;
        apply binary_round_aux_not_nan; exact Hq ]
  end.
  match goal with
  | |- (0 <= match ?s with Z0 => _ | Zpos _ => _ | Zneg _ => _ end)%Z =>
      destruct s; try lia; apply Z.shiftl_nonneg; lia
  end.
Qed.

Lemma abs_not_nan a : is_nan a = false -> is_nan (abs a) = false.
Proof.
  intros Ha. apply not_nan_Prim2SF. rewrite FloatAxioms.abs_spec.
  apply Prim2SF_not_nan in Ha. destruct (Prim2SF a); cbn; congruence.
Qed.

Lemma opp_not_nan a : is_nan a = false -> is_nan (- a) = false.
Proof.
  intros Ha. apply not_nan_Prim2SF. rewrite FloatAxioms.opp_spec.
  apply Prim2SF_not_nan in Ha. destruct (Prim2SF a); cbn; congruence.
Qed.

Lemma of_uint63_not_nan n : is_nan (of_uint63 n) = false.
Proof.
  apply not_nan_Prim2SF. rewrite FloatAxioms.of_uint63_spec.
  apply binary_normalize_not_nan.
Qed.

Lemma Math_round_not_nan x : is_nan x = false -> is_nan (JS.Math_round x) = false.
Proof.
  intros Hx. unfold JS.Math_round.
  destruct (Prim2SF x) as [s|s| |s m e]; try exact Hx.
  destruct (0 <=? e)%Z; [exact Hx|].
  destruct s; [apply opp_not_nan|]; apply of_uint63_not_nan.
Qed.

End FloatOrder.

(** * Further properties of the primitives *)

Lemma Prim2SF_hundred : Prim2SF 100 = S754_finite false 7036874417766400 (-46).
Proof. vm_compute. reflexivity. Qed.

Lemma round2_value_not_nan x : is_nan x = false -> is_nan (round2_value x) = false.
Proof.
  intros Hx. unfold round2_value.
  apply (div_nonzero_not_nan _ _ _ _ _ (Math_round_not_nan _
           (mul_nonzero_not_nan _ _ _ _ _
              (add_finite_not_nan x (EPSILON PRECISION_CONFIG) Hx eq_refl)
              Prim2SF_hundred)) Prim2SF_hundred).
Qed.

(** How [validatePositiveNumber] answers, by the place of [value] relative
    to zero. *)
Lemma validatePositiveNumber_cases (value : float) (fieldName : string) :
  ((0 <? value) = true /\ validatePositiveNumber value fieldName = Return true)
  \/ (is_nan value = true /\ (value <=? 0) = false /\ (0 <? value) = false
      /\ validatePositiveNumber value fieldName = Throw (MustBeValidNumber fieldName))
  \/ ((value <=? 0) = true /\ is_nan value = false /\ (0 <? value) = false
      /\ validatePositiveNumber value fieldName = Throw (MustBeGreaterThanZero fieldName)).
Proof.
  assert (Hzero : is_zero value = true -> is_nan value = false /\ (value <=? 0) = true
                                          /\ (0 <? value) = false).
  { unfold is_zero.
    rewrite is_nan_spec, FloatAxioms.eqb_spec, FloatAxioms.leb_spec, FloatAxioms.ltb_spec.
    change (Prim2SF zero) with (S754_zero false). change (Prim2SF 0) with (S754_zero false).
    unfold SFeqb, SFleb, SFltb.
    destruct (Prim2SF value) as [s|s| |s m e]; cbn; try discriminate; auto;
      destruct s; discriminate. }
  unfold validatePositiveNumber, JS.parseFloat, JS.isNaN.
  destruct (is_zero value) eqn:Ez.
  - destruct (Hzero eq_refl) as (Hn & Hl & Hp). right. right. auto.
  - destruct (is_nan value) eqn:En.
    + right. left. split; [reflexivity|].
      split; [destruct (value <=? 0) eqn:E; [|reflexivity];
              apply leb_not_nan in E; destruct E; congruence|].
      split; [destruct (0 <? value) eqn:E; [|reflexivity];
              apply ltb_not_nan in E; destruct E; congruence|reflexivity].
    + destruct (value <=? 0) eqn:El.
      * right. right. split; [reflexivity|]. split; [reflexivity|].
        split; [exact (leb_not_ltb _ _ El)|reflexivity].
      * left. split; [exact (not_leb_ltb value 0 En eq_refl El)|reflexivity].
Qed.

Lemma validatePositiveNumber_returns_positive x f b :
  validatePositiveNumber x f = Return b -> (0 <? x) = true.
Proof.
  destruct (validatePositiveNumber_cases x f) as [[H _]|[(_ & _ & _ & H)|(_ & _ & _ & H)]];
    [auto| |]; rewrite H; discriminate.
Qed.

Lemma validatePositiveNumber_throws_kind x f e :
  validatePositiveNumber x f = Throw e -> kind e = InvalidInput.
Proof.
  destruct (validatePositiveNumber_cases x f) as [[_ H]|[(_ & _ & _ & H)|(_ & _ & _ & H)]];
    rewrite H; [discriminate| |]; intros E; injection E as <-; reflexivity.
Qed.

(** X1.  [validatePositiveNumber] returns, and then [true], exactly for the
    Numbers above zero; it throws "Must be a valid number" exactly for NaN
    and "Must be greater than 0" exactly for the Numbers at or below zero,
    the zeros and negative infinity included. *)
Theorem validatePositiveNumber_exact (value : float) (fieldName : string) :
  (validatePositiveNumber value fieldName = Return true <-> (0 <? value) = true)
  /\ (validatePositiveNumber value fieldName = Throw (MustBeValidNumber fieldName)
      <-> is_nan value = true)
  /\ (validatePositiveNumber value fieldName = Throw (MustBeGreaterThanZero fieldName)
      <-> (value <=? 0) = true)
  /\ validatePositiveNumber value fieldName <> Return false.
Proof.
  destruct (validatePositiveNumber_cases value fieldName)
    as [[Hp H]|[(Hn & Hl & Hp & H)|(Hl & Hn & Hp & H)]]; rewrite H;
    repeat split; intros; try discriminate; try congruence.
  - apply ltb_not_nan in Hp. destruct Hp. congruence.
  - rewrite (leb_not_ltb _ _ H0) in Hp. discriminate.
Qed.

Lemma is_nan_mul_r a b : is_nan b = true -> is_nan (a * b) = true.
Proof.
  intros H. rewrite is_nan_spec, FloatAxioms.mul_spec, (Prim2SF_nan b H).
  destruct (Prim2SF a); reflexivity.
Qed.

Lemma rangeAccepted_nan p : is_nan p = true -> rangeAccepted p = true.
Proof.
  intros H. unfold rangeAccepted.
  destruct (p <? 0) eqn:E1; [apply ltb_not_nan in E1; destruct E1; congruence|].
  destruct (1 <? p) eqn:E2; [apply ltb_not_nan in E2; destruct E2; congruence|].
  reflexivity.
Qed.

Lemma calculatePercentage_accepts x p :
  (0 <? x) = true -> rangeAccepted p = true -> calculatePercentage x p = Return (x * p).
Proof.
  intros Hx Hp. unfold calculatePercentage.
  rewrite (validatePositiveNumber_positive x _ Hx). cbn [bind].
  unfold rangeAccepted in Hp. destruct (_ || _); [discriminate Hp|reflexivity].
Qed.

Lemma calculatePercentage_returns_accepted x p y :
  calculatePercentage x p = Return y ->
  (0 <? x) = true /\ rangeAccepted p = true /\ y = x * p.
Proof.
  unfold calculatePercentage, rangeAccepted.
  destruct (validatePositiveNumber x "Base value") as [b|e] eqn:V; cbn [bind];
    [|discriminate].
  apply validatePositiveNumber_returns_positive in V.
  destruct (_ || _); [discriminate|]. intros H. injection H as <-. auto.
Qed.

Lemma calculatePercentage_throws_kind x p e :
  calculatePercentage x p = Throw e -> kind e = InvalidInput.
Proof.
  unfold calculatePercentage.
  destruct (validatePositiveNumber x "Base value") as [b|e'] eqn:V; cbn [bind].
  - destruct (_ || _); [|discriminate]. intros H. injection H as <-. reflexivity.
  - intros H. injection H as <-. exact (validatePositiveNumber_throws_kind _ _ _ V).
Qed.

(** X2.  [calculatePercentage] checks its base before its percentage: a base
    that is not above zero is rejected whatever the percentage.  For a base
    above zero it throws the range error exactly when the percentage is below
    0 or above 1, and otherwise returns the product; a NaN percentage is
    neither, so it passes and the product returned is NaN. *)
Theorem calculatePercentage_exact (value percentage : float) :
  ((0 <? value) = false ->
     calculatePercentage value percentage = Throw (MustBeValidNumber "Base value")
     \/ calculatePercentage value percentage = Throw (MustBeGreaterThanZero "Base value"))
  /\ ((0 <? value) = true ->
      (calculatePercentage value percentage = Throw PercentageOutOfRange
       <-> (percentage <? 0) = true \/ (1 <? percentage) = true)
      /\ (calculatePercentage value percentage = Return (value * percentage)
          <-> (percentage <? 0) = false /\ (1 <? percentage) = false)
      /\ (is_nan percentage = true ->
          calculatePercentage value percentage = Return (value * percentage)
          /\ is_nan (value * percentage) = true)).
Proof.
  split.
  - intros Hv. unfold calculatePercentage.
    destruct (validatePositiveNumber_cases value "Base value")
      as [[Hp _]|[(_ & _ & _ & H)|(_ & _ & _ & H)]]; [congruence| |];
      rewrite H; cbn [bind]; auto.
  - intros Hv. unfold calculatePercentage.
    rewrite (validatePositiveNumber_positive _ _ Hv). cbn [bind].
    split; [|split].
    + destruct (percentage <? 0), (1 <? percentage); cbn [orb]; split; intros H;
        try discriminate; auto; destruct H; discriminate.
    + destruct (percentage <? 0), (1 <? percentage); cbn [orb]; split; intros H;
        try discriminate; auto; destruct H; discriminate.
    + intros Hn. pose proof (rangeAccepted_nan _ Hn) as Hr. unfold rangeAccepted in Hr.
      destruct (_ || _); [discriminate Hr|].
      split; [reflexivity|exact (is_nan_mul_r _ _ Hn)].
Qed.

(** X3.  Whatever [round2] returns is a number: never NaN. *)
Theorem round2_never_nan (value rounded : float) :
  round2 value = Return rounded -> is_nan rounded = false.
Proof.
  unfold round2, JS.isNaN. destruct (is_nan value) eqn:E; [discriminate|].
  intros H. injection H as <-. exact (round2_value_not_nan _ E).
Qed.

Lemma round2_never_nan_witness :
  round2 1066.66666672 = Return 1066.67 /\ is_nan 1066.67 = false.
Proof.
  split; [reflexivity|].
  exact (round2_never_nan 1066.66666672 1066.67 eq_refl).
Defined.

(** * Further properties of the breakdown calculator *)

Lemma calculateFromSubtotal_accepts this s o :
  (0 <? s) = true ->
  rangeAccepted (vatRate this) = true ->
  rangeAccepted (incomeTaxRate this) = true ->
  rangeAccepted (vatRetentionFraction this) = true ->
  (0 <? s * vatRate this) = true ->
  is_nan (netBeforeRounding this s o) = false ->
  TaxCalculator.calculateFromSubtotal this s o = Return (breakdownOf this s o).
Proof.
  intros Hs Hr1 Hr2 Hr3 Hv Hn.
  unfold netBeforeRounding in Hn. pose proof Hn as Hnet.
  apply not_nan_sub in Hn. destruct Hn as [Hn Hn3].
  apply not_nan_sub in Hn. destruct Hn as [Hn Hn2].
  apply not_nan_add in Hn. destruct Hn as [_ Hn1].
  unfold TaxCalculator.calculateFromSubtotal.
  rewrite (validatePositiveNumber_positive s _ Hs). cbn [bind].
  rewrite (calculatePercentage_accepts s _ Hs Hr1). cbn [bind].
  rewrite (calculatePercentage_accepts s _ Hs Hr2). cbn [bind].
  rewrite (calculatePercentage_accepts _ _ Hv Hr3). cbn [bind].
  rewrite (roundLine_returns o _ Hn1). cbn [bind].
  rewrite (roundLine_returns o _ Hn2). cbn [bind].
  rewrite (roundLine_returns o _ Hn3). cbn [bind].
  rewrite (round2_returns _ Hnet). reflexivity.
Qed.

(** What a returned breakdown tells about the arguments. *)
Lemma calculateFromSubtotal_returns_conditions this s o b :
  TaxCalculator.calculateFromSubtotal this s o = Return b ->
  (0 <? s) = true
  /\ rangeAccepted (vatRate this) = true
  /\ rangeAccepted (incomeTaxRate this) = true
  /\ rangeAccepted (vatRetentionFraction this) = true
  /\ (0 <? s * vatRate this) = true
  /\ is_nan (netBeforeRounding this s o) = false.
Proof.
  unfold TaxCalculator.calculateFromSubtotal.
  destruct (validatePositiveNumber s "Subtotal") as [t|] eqn:V; cbn [bind try_rethrow];
    [|discriminate].
  apply validatePositiveNumber_returns_positive in V.
  destruct (calculatePercentage s (vatRate this)) as [v|] eqn:Ev;
    cbn [bind try_rethrow]; [|discriminate].
  destruct (calculatePercentage s (incomeTaxRate this)) as [w|] eqn:Ew;
    cbn [bind try_rethrow]; [|discriminate].
  apply calculatePercentage_returns_accepted in Ev, Ew.
  destruct Ev as (_ & Hr1 & ->), Ew as (_ & Hr2 & ->).
  destruct (calculatePercentage _ (vatRetentionFraction this)) as [u|] eqn:Eu;
    cbn [bind try_rethrow]; [|discriminate].
  apply calculatePercentage_returns_accepted in Eu. destruct Eu as (Hv & Hr3 & ->).
  destruct (TaxCalculator.roundLine o (s * vatRate this)) as [l1|] eqn:E1;
    cbn [bind try_rethrow]; [|discriminate].
  destruct (TaxCalculator.roundLine o (s * incomeTaxRate this)) as [l2|] eqn:E2;
    cbn [bind try_rethrow]; [|discriminate].
  destruct (TaxCalculator.roundLine o (s * vatRate this * vatRetentionFraction this))
    as [l3|] eqn:E3; cbn [bind try_rethrow]; [|discriminate].
  apply roundLine_inv in E1, E2, E3. subst l1 l2 l3.
  unfold round2, JS.isNaN.
  destruct (is_nan _) eqn:En; cbn [bind try_rethrow]; [discriminate|].
  intros _. repeat (split; [assumption|]). reflexivity.
Qed.

(** X4.  [calculateFromSubtotal] returns exactly when the subtotal is above
    zero, none of the three rates is below 0 or above 1, the VAT line
    [subtotal * vatRate] is above zero and the net amount before the final
    rounding is not NaN; what it returns then is the breakdown computed
    line by line from the subtotal. *)
Theorem calculateFromSubtotal_returns_iff (this : RateSet) (s : float)
    (o : CalculationOptions) (b : BreakdownResult) :
  TaxCalculator.calculateFromSubtotal this s o = Return b
  <-> ((0 <? s) = true
       /\ ((vatRate this <? 0) || (1 <? vatRate this)) = false
       /\ ((incomeTaxRate this <? 0) || (1 <? incomeTaxRate this)) = false
       /\ ((vatRetentionFraction this <? 0) || (1 <? vatRetentionFraction this)) = false
       /\ (0 <? s * vatRate this) = true
       /\ is_nan (s + effectiveLine o (s * vatRate this)
                  - effectiveLine o (s * incomeTaxRate this)
                  - effectiveLine o (s * vatRate this * vatRetentionFraction this)) = false
       /\ b = {| subtotal := s;
                 vatRaw := s * vatRate this;
                 incomeTaxWithheldRaw := s * incomeTaxRate this;
                 vatRetentionRaw := s * vatRate this * vatRetentionFraction this;
                 vat := effectiveLine o (s * vatRate this);
                 incomeTaxWithheld := effectiveLine o (s * incomeTaxRate this);
                 vatRetention :=
                   effectiveLine o (s * vatRate this * vatRetentionFraction this);
                 netAmount :=
                   round2_value
                     (s + effectiveLine o (s * vatRate this)
                      - effectiveLine o (s * incomeTaxRate this)
                      - effectiveLine o (s * vatRate this * vatRetentionFraction this));
                 calculationMethod := fromSubtotal;
                 options := o |}).
Proof.
  assert (Hneg : forall p, rangeAccepted p = true <-> ((p <? 0) || (1 <? p)) = false)
    by (intros p; unfold rangeAccepted; destruct (_ || _); cbn; split; congruence).
  split.
  - intros H.
    destruct (calculateFromSubtotal_returns_conditions _ _ _ _ H)
      as (Hs & H1 & H2 & H3 & Hv & Hn).
    apply Hneg in H1, H2, H3.
    repeat (split; [assumption|]). exact (calculateFromSubtotal_inv _ _ _ _ H).
  - intros (Hs & H1 & H2 & H3 & Hv & Hn & ->).
    apply Hneg in H1, H2, H3.
    exact (calculateFromSubtotal_accepts this s o Hs H1 H2 H3 Hv Hn).
Qed.

Lemma effectiveLine_not_nan o x : is_nan (effectiveLine o x) = false -> is_nan x = false.
Proof.
  unfold effectiveLine. destruct (roundPerLine o); [|auto].
  intros H. destruct (is_nan x) eqn:E; [|reflexivity].
  rewrite (is_nan_round2_value x E) in H. discriminate.
Qed.

(** X5.  A breakdown returned by [calculateFromSubtotal] holds no NaN: its
    subtotal and its raw VAT are above zero, and the other raw lines, the
    three effective lines and the net amount are numbers; it carries the
    subtotal and the options it was computed from and the method
    [fromSubtotal]; and computing again from its own subtotal returns it
    unchanged. *)
Theorem calculateFromSubtotal_result_sound (this : RateSet) (s : float)
    (o : CalculationOptions) (b : BreakdownResult) :
  TaxCalculator.calculateFromSubtotal this s o = Return b ->
  subtotal b = s
  /\ (0 <? subtotal b) = true
  /\ (0 <? vatRaw b) = true
  /\ is_nan (incomeTaxWithheldRaw b) = false
  /\ is_nan (vatRetentionRaw b) = false
  /\ is_nan (vat b) = false
  /\ is_nan (incomeTaxWithheld b) = false
  /\ is_nan (vatRetention b) = false
  /\ is_nan (netAmount b) = false
  /\ calculationMethod b = fromSubtotal
  /\ options b = o
  /\ TaxCalculator.calculateFromSubtotal this (subtotal b) (options b) = Return b.
Proof.
  intros H.
  destruct (calculateFromSubtotal_returns_conditions _ _ _ _ H)
    as (Hs & _ & _ & _ & Hv & Hn).
  pose proof (calculateFromSubtotal_inv _ _ _ _ H) as Hb.
  pose proof Hn as Hnet. unfold netBeforeRounding in Hn.
  apply not_nan_sub in Hn. destruct Hn as [Hn Hn3].
  apply not_nan_sub in Hn. destruct Hn as [Hn Hn2].
  apply not_nan_add in Hn. destruct Hn as [_ Hn1].
  subst b.
  cbn [breakdownOf subtotal vatRaw incomeTaxWithheldRaw vatRetentionRaw vat
       incomeTaxWithheld vatRetention netAmount calculationMethod options].
  split; [reflexivity|]. split; [exact Hs|]. split; [exact Hv|].
  split; [exact (effectiveLine_not_nan o _ Hn2)|].
  split; [exact (effectiveLine_not_nan o _ Hn3)|].
  split; [exact Hn1|]. split; [exact Hn2|]. split; [exact Hn3|].
  split; [exact (round2_value_not_nan _ Hnet)|].
  split; [reflexivity|]. split; [reflexivity|exact H].
Qed.

Lemma calculateFromSubtotal_result_sound_witness :
  is_nan (netAmount (breakdownOf defaultRates 10000 {| roundPerLine := true |})) = false.
Proof.
  exact (proj1 (proj2 (proj2 (proj2 (proj2 (proj2 (proj2 (proj2 (proj2
    (calculateFromSubtotal_result_sound defaultRates 10000 {| roundPerLine := true |}
       (breakdownOf defaultRates 10000 {| roundPerLine := true |}) eq_refl)))))))))).
Defined.

(** X6.  The rates are taken as they are given: [updateRates] stores any
    three Numbers without a check.  When one of the rates of the calculator
    is below 0 or above 1, [calculateFromSubtotal] throws an invalid-input
    error for every subtotal and every options value. *)
Theorem calculateFromSubtotal_rejects_out_of_range (this : RateSet) (s : float)
    (o : CalculationOptions) :
  ((vatRate this <? 0) || (1 <? vatRate this)) = true
  \/ ((incomeTaxRate this <? 0) || (1 <? incomeTaxRate this)) = true
  \/ ((vatRetentionFraction this <? 0) || (1 <? vatRetentionFraction this)) = true ->
  (exists cause,
     TaxCalculator.calculateFromSubtotal this s o
     = Throw (Rethrown "Error in calculation from subtotal" cause)
     /\ kind cause = InvalidInput)
  /\ (forall base v i r,
        TaxCalculator.updateRates base
          {| arg_vatRate := Some v; arg_incomeTaxRate := Some i;
             arg_vatRetentionFraction := Some r |}
        = {| vatRate := v; incomeTaxRate := i; vatRetentionFraction := r |}).
Proof.
  intros Hout. split; [|reflexivity].
  unfold TaxCalculator.calculateFromSubtotal.
  destruct (validatePositiveNumber s "Subtotal") as [t|e] eqn:V; cbn [bind try_rethrow];
    [|eexists; split; [reflexivity|exact (validatePositiveNumber_throws_kind _ _ _ V)]].
  destruct (calculatePercentage s (vatRate this)) as [v|e] eqn:Ev;
    cbn [bind try_rethrow];
    [|eexists; split; [reflexivity|exact (calculatePercentage_throws_kind _ _ _ Ev)]].
  destruct (calculatePercentage s (incomeTaxRate this)) as [w|e] eqn:Ew;
    cbn [bind try_rethrow];
    [|eexists; split; [reflexivity|exact (calculatePercentage_throws_kind _ _ _ Ew)]].
  destruct (calculatePercentage v (vatRetentionFraction this)) as [u|e] eqn:Eu;
    cbn [bind try_rethrow];
    [|eexists; split; [reflexivity|exact (calculatePercentage_throws_kind _ _ _ Eu)]].
  exfalso.
  apply calculatePercentage_returns_accepted in Ev, Ew, Eu.
  destruct Ev as (_ & H1 & _), Ew as (_ & H2 & _), Eu as (_ & H3 & _).
  unfold rangeAccepted in H1, H2, H3.
  destruct Hout as [H|[H|H]]; rewrite H in *; discriminate.
Qed.

Lemma calculateFromSubtotal_rejects_out_of_range_witness :
  exists cause,
    TaxCalculator.calculateFromSubtotal
      (TaxCalculator.updateRates defaultRates
         {| arg_vatRate := Some 16; arg_incomeTaxRate := None;
            arg_vatRetentionFraction := None |})
      10000 {| roundPerLine := true |}
    = Throw (Rethrown "Error in calculation from subtotal" cause)
    /\ kind cause = InvalidInput.
Proof.
  exact (proj1 (calculateFromSubtotal_rejects_out_of_range
                  (TaxCalculator.updateRates defaultRates
                     {| arg_vatRate := Some 16; arg_incomeTaxRate := None;
                        arg_vatRetentionFraction := None |})
                  10000 {| roundPerLine := true |} (or_introl eq_refl))).
Defined.

(** * Further properties of the rates *)

(** X7.  [updateRates] merges field by field: two updates in a row are one
    update with the merged argument, the later fields winning; an update
    with no field changes nothing, and neither does an update with the
    calculator's own [getRates()]; an update repeated changes nothing
    more. *)
Theorem updateRates_merges (this : RateSet) (a b : RatesArg) :
  TaxCalculator.updateRates (TaxCalculator.updateRates this a) b
  = TaxCalculator.updateRates this (mergeArgs a b)
  /\ TaxCalculator.updateRates this noArgs = this
  /\ TaxCalculator.updateRates this (argsOf (TaxCalculator.getRates this)) = this
  /\ TaxCalculator.updateRates (TaxCalculator.updateRates this a) a
     = TaxCalculator.updateRates this a
  /\ TaxCalculator.getRates (TaxCalculator.updateRates this (argsOf (TaxCalculator.constructor b)))
     = TaxCalculator.constructor b.
Proof.
  destruct this as [v i r], a as [[av|] [ai|] [ar|]], b as [[bv|] [bi|] [br|]];
    repeat split; reflexivity.
Qed.

Lemma or_else_truthy (v : option float) (fallback : float) :
  JS.truthy fallback = true -> JS.truthy (JS.or_else v fallback) = true.
Proof.
  intros H. unfold JS.or_else. destruct v as [x|]; [|exact H].
  destruct (JS.truthy x) eqn:E; [exact E|exact H].
Qed.

Lemma or_else_kept (x fallback : float) :
  JS.truthy x = true -> JS.or_else (Some x) fallback = x.
Proof. intros H. unfold JS.or_else. rewrite H. reflexivity. Qed.

(** X8.  The constructor keeps every rate given as a truthy Number as it is,
    with no range check, and replaces every other one, a zero, a NaN or a
    missing field, by its default (0.16, 0.10 and 0.6666666667); so no rate
    of a new calculator is a zero or NaN, and constructing a calculator from
    the rates of a constructed one gives the same rates again. *)
Theorem constructor_idempotent (rates : RatesArg) :
  ((forall x, arg_vatRate rates = Some x -> JS.truthy x = true ->
      vatRate (TaxCalculator.constructor rates) = x)
   /\ (forall x, arg_incomeTaxRate rates = Some x -> JS.truthy x = true ->
         incomeTaxRate (TaxCalculator.constructor rates) = x)
   /\ (forall x, arg_vatRetentionFraction rates = Some x -> JS.truthy x = true ->
         vatRetentionFraction (TaxCalculator.constructor rates) = x))
  /\ ((arg_vatRate rates = None
       \/ (exists x, arg_vatRate rates = Some x
                     /\ (is_zero x = true \/ is_nan x = true)) ->
       vatRate (TaxCalculator.constructor rates) = 0.16)
      /\ (arg_incomeTaxRate rates = None
          \/ (exists x, arg_incomeTaxRate rates = Some x
                        /\ (is_zero x = true \/ is_nan x = true)) ->
          incomeTaxRate (TaxCalculator.constructor rates) = 0.10)
      /\ (arg_vatRetentionFraction rates = None
          \/ (exists x, arg_vatRetentionFraction rates = Some x
                        /\ (is_zero x = true \/ is_nan x = true)) ->
          vatRetentionFraction (TaxCalculator.constructor rates) = 0.6666666667))
  /\ (forall x, JS.truthy x = true ->
        vatRate (TaxCalculator.constructor
                   {| arg_vatRate := Some x;
                      arg_incomeTaxRate := arg_incomeTaxRate rates;
                      arg_vatRetentionFraction := arg_vatRetentionFraction rates |}) = x)
  /\ (is_nan (vatRate (TaxCalculator.constructor rates)) = false
      /\ is_nan (incomeTaxRate (TaxCalculator.constructor rates)) = false
      /\ is_nan (vatRetentionFraction (TaxCalculator.constructor rates)) = false)
  /\ (is_zero (vatRate (TaxCalculator.constructor rates)) = false
      /\ is_zero (incomeTaxRate (TaxCalculator.constructor rates)) = false
      /\ is_zero (vatRetentionFraction (TaxCalculator.constructor rates)) = false)
  /\ TaxCalculator.constructor (argsOf (TaxCalculator.constructor rates))
     = TaxCalculator.constructor rates.
Proof.
  assert (T1 : JS.truthy (vatRate (TaxCalculator.constructor rates)) = true)
    by (apply or_else_truthy; reflexivity).
  assert (T2 : JS.truthy (incomeTaxRate (TaxCalculator.constructor rates)) = true)
    by (apply or_else_truthy; reflexivity).
  assert (T3 : JS.truthy (vatRetentionFraction (TaxCalculator.constructor rates)) = true)
    by (apply or_else_truthy; reflexivity).
  assert (Hn : forall x, JS.truthy x = true -> is_nan x = false).
  { intros x. unfold JS.truthy. destruct (is_zero x), (is_nan x); cbn; congruence. }
  assert (Hz : forall x, JS.truthy x = true -> is_zero x = false).
  { intros x. unfold JS.truthy. destruct (is_zero x), (is_nan x); cbn; congruence. }
  assert (Hkept : forall v x fallback,
            v = Some x -> JS.truthy x = true -> JS.or_else v fallback = x).
  { intros v x fallback -> Hx. exact (or_else_kept x fallback Hx). }
  assert (Hdefault : forall v fallback,
            v = None \/ (exists x, v = Some x /\ (is_zero x = true \/ is_nan x = true)) ->
            JS.or_else v fallback = fallback).
  { intros v fallback [->|(x & -> & Hx)]; [reflexivity|].
    unfold JS.or_else, JS.truthy.
    destruct Hx as [->| ->]; [reflexivity|rewrite orb_true_r; reflexivity]. }
  split; [repeat split; intros x Hx Ht; exact (Hkept _ _ _ Hx Ht)|].
  split; [repeat split; intros H; exact (Hdefault _ _ H)|].
  split; [intros x Hx; apply or_else_kept; exact Hx|].
  split; [auto|]. split; [auto|].
  unfold TaxCalculator.constructor at 1. cbn [argsOf arg_vatRate arg_incomeTaxRate
    arg_vatRetentionFraction].
  rewrite (or_else_kept _ _ T1), (or_else_kept _ _ T2), (or_else_kept _ _ T3).
  destruct (TaxCalculator.constructor rates); reflexivity.
Qed.

(** * Further properties of Goal Seek *)

(** An invariant of a loop holds in the state the loop stops in. *)
Lemma run_loop_invariant {S : Type} (P : S -> Prop) (cond : S -> bool)
    (body : S -> result (TaxCalculator.Control S)) :
  (forall s s', P s -> cond s = true ->
     body s = Return (TaxCalculator.Continue s')
     \/ body s = Return (TaxCalculator.Break s') -> P s') ->
  forall fuel s n r,
    P s -> TaxCalculator.run_loop fuel cond body s n = Some r -> P (TaxCalculator.last r).
Proof.
  intros Hstep fuel. induction fuel as [|fuel IH]; intros s n r Hs;
    cbn [TaxCalculator.run_loop]; [discriminate|].
  destruct (cond s) eqn:Hc.
  - destruct (body s) as [[s'|s']|e] eqn:Hb.
    + apply IH. exact (Hstep s s' Hs Hc (or_introl Hb)).
    + intros H. injection H as <-. exact (Hstep s s' Hs Hc (or_intror Hb)).
    + intros H. injection H as <-. exact Hs.
  - intros H. injection H as <-. exact Hs.
Qed.

(** A loop that stops with some fuel stops the same way with more. *)
Lemma run_loop_more_fuel {S : Type} (cond : S -> bool)
    (body : S -> result (TaxCalculator.Control S)) fuel :
  forall s n r extra,
    TaxCalculator.run_loop fuel cond body s n = Some r ->
    TaxCalculator.run_loop (fuel + extra) cond body s n = Some r.
Proof.
  induction fuel as [|fuel IH]; intros s n r extra; cbn [TaxCalculator.run_loop Nat.add];
    [discriminate|].
  destruct (cond s); [|auto].
  destruct (body s) as [[s'|s']|e]; auto.
Qed.

Lemma calculateFromSubtotal_throws_kind this x o e :
  TaxCalculator.calculateFromSubtotal this x o = Throw e ->
  kind e = InvalidInput \/ kind e = InvalidNumber.
Proof.
  unfold TaxCalculator.calculateFromSubtotal.
  destruct (validatePositiveNumber x "Subtotal") as [t|e'] eqn:V; cbn [bind try_rethrow];
    [|intros H; injection H as <-; left;
      exact (validatePositiveNumber_throws_kind _ _ _ V)].
  repeat match goal with
    | |- context [bind (calculatePercentage ?a ?b) _] =>
        let E := fresh "E" in
        destruct (calculatePercentage a b) as [?|?] eqn:E; cbn [bind try_rethrow];
        [|intros H; injection H as <-; left;
          exact (calculatePercentage_throws_kind _ _ _ E)]
    end.
  unfold TaxCalculator.roundLine, round2.
  destruct (roundPerLine o); cbn [bind try_rethrow];
    repeat match goal with
      | |- context [JS.isNaN ?a] =>
          destruct (JS.isNaN a); cbn [bind try_rethrow];
          [intros H; injection H as <-; right; reflexivity|]
      end;
    intros H; discriminate H.
Qed.

Lemma calculateNetForSubtotal_throws_kind this o x e :
  TaxCalculator.calculateNetForSubtotal this o x = Throw e ->
  kind e = InvalidInput \/ kind e = InvalidNumber.
Proof.
  unfold TaxCalculator.calculateNetForSubtotal.
  destruct (TaxCalculator.calculateFromSubtotal this x o) as [b|e'] eqn:E; cbn [bind];
    [discriminate|].
  intros H. injection H as <-. exact (calculateFromSubtotal_throws_kind _ _ _ _ E).
Qed.

Lemma calculateNetForSubtotal_inv this o x n :
  TaxCalculator.calculateNetForSubtotal this o x = Return n ->
  TaxCalculator.calculateFromSubtotal this x o = Return (breakdownOf this x o)
  /\ n = netAmount (breakdownOf this x o).
Proof.
  unfold TaxCalculator.calculateNetForSubtotal.
  destruct (TaxCalculator.calculateFromSubtotal this x o) as [b|e'] eqn:E; cbn [bind];
    [|discriminate].
  intros H. injection H as <-.
  rewrite (calculateFromSubtotal_inv _ _ _ _ E). auto.
Qed.

Section GoalSeekErrors.

Variable this : RateSet.
Variable targetNet : float.
Variable o : CalculationOptions.

Lemma initialBracket_throws_kind e :
  TaxCalculator.initialBracket this targetNet o = Throw e ->
  kind e = InvalidInput \/ kind e = InvalidNumber \/ kind e = DegenerateRates.
Proof.
  unfold TaxCalculator.initialBracket.
  destruct (validatePositiveNumber targetNet _) as [t|e'] eqn:V; cbn [bind];
    [|intros H; injection H as <-; left;
      exact (validatePositiveNumber_throws_kind _ _ _ V)].
  unfold TaxCalculator.calculateSubtotalFromNetAlgebraic.
  destruct (validatePositiveNumber targetNet "Net amount") as [t'|e'] eqn:V';
    cbn [bind try_rethrow];
    [|intros H; injection H as <-; left;
      exact (validatePositiveNumber_throws_kind _ _ _ V')].
  destruct (_ <? 0.000001); cbn [bind try_rethrow];
    [intros H; injection H as <-; right; right; reflexivity|].
  repeat match goal with
    | |- context [bind (TaxCalculator.calculateNetForSubtotal this o ?x) _] =>
        let E := fresh "E" in
        destruct (TaxCalculator.calculateNetForSubtotal this o x) as [?|?] eqn:E;
        cbn [bind];
        [|intros H; injection H as <-;
          destruct (calculateNetForSubtotal_throws_kind _ _ _ _ E); auto]
    end.
  discriminate.
Qed.

Lemma widen_throws_kind b e :
  TaxCalculator.widen this o b = Throw e ->
  kind e = InvalidInput \/ kind e = InvalidNumber \/ kind e = GoalSeekUnreachable.
Proof.
  unfold TaxCalculator.widen.
  destruct (_ <? _)%Z; [intros H; injection H as <-; right; right; reflexivity|].
  repeat match goal with
    | |- context [bind (TaxCalculator.calculateNetForSubtotal this o ?x) _] =>
        let E := fresh "E" in
        destruct (TaxCalculator.calculateNetForSubtotal this o x) as [?|?] eqn:E;
        cbn [bind];
        [|intros H; injection H as <-;
          destruct (calculateNetForSubtotal_throws_kind _ _ _ _ E); auto]
    end.
  discriminate.
Qed.

(** Once a round of the binary search has ended normally there is a best
    result. *)
Lemma search_loop_best_some fuel : forall s n r,
  TaxCalculator.bestResult s <> None \/ TaxCalculator.searching s = true ->
  TaxCalculator.run_loop fuel TaxCalculator.searching
    (TaxCalculator.bisect this targetNet o) s n = Some r ->
  TaxCalculator.thrown r = None ->
  TaxCalculator.bestResult (TaxCalculator.last r) <> None.
Proof.
  induction fuel as [|fuel IH]; intros s n r Hs; cbn [TaxCalculator.run_loop];
    [discriminate|].
  destruct (TaxCalculator.searching s) eqn:Hgo.
  - pose proof (bisect_outcome this targetNet o s) as Hout.
    destruct (TaxCalculator.calculateFromSubtotal this _ o) as [c|e].
    + destruct Hout as (s' & Hb & Hbest).
      assert (Hsome : TaxCalculator.bestResult s' <> None)
        by (rewrite Hbest; destruct (TaxCalculator.bestResult s); [destruct (_ <? _)|];
            discriminate).
      destruct Hb as [Hb|Hb]; rewrite Hb.
      * intros H _. injection H as <-. exact Hsome.
      * apply IH. left. exact Hsome.
    + rewrite Hout. intros H. injection H as <-. discriminate.
  - intros H _. injection H as <-. destruct Hs as [Hs|Hs]; [exact Hs|discriminate Hs].
Qed.

(** The final adjustment of an evaluated candidate fails only in the
    breakdown of the rounded subtotal. *)
Lemma finalAdjustment_throws_kind best e :
  evaluated this o best ->
  TaxCalculator.finalAdjustment this o (Some best) = Throw e ->
  kind e = InvalidInput \/ kind e = InvalidNumber.
Proof.
  intros [mid Hmid]. unfold TaxCalculator.finalAdjustment.
  destruct (calculateFromSubtotal_returns_conditions _ _ _ _ Hmid) as (Hpos & _).
  rewrite (calculateFromSubtotal_inv _ _ _ _ Hmid). cbn [breakdownOf subtotal].
  apply positive_facts in Hpos. destruct Hpos as (Hn & _).
  rewrite (round2_returns _ Hn). cbn [bind]. clear Hmid.
  destruct (TaxCalculator.calculateFromSubtotal this _ o) as [r|e'] eqn:E; cbn [bind];
    intros H; [discriminate H|].
  injection H as <-. exact (calculateFromSubtotal_throws_kind _ _ _ _ E).
Qed.

(** With fuel for 81 rounds a run does not stop for lack of fuel. *)
Lemma goalSeekRun_enough_fuel fuel :
  (80 < fuel)%nat -> exists run, TaxCalculator.goalSeekRun this targetNet o fuel = Some run.
Proof.
  intros Hfuel. unfold TaxCalculator.goalSeekRun.
  destruct (TaxCalculator.initialBracket this targetNet o) as [b0|e] eqn:Hb0;
    [|eexists; reflexivity].
  unfold TaxCalculator.widenLoop.
  destruct (widen_loop_stops this targetNet o fuel b0 0%nat) as (w & Hw & _).
  { exact (initialBracket_attempts this targetNet o b0 Hb0). }
  { cbn. lia. }
  { cbn. lia. }
  rewrite Hw. destruct (TaxCalculator.thrown w); [eexists; reflexivity|].
  unfold TaxCalculator.searchLoop.
  destruct (search_loop_stops this targetNet o fuel
              {| TaxCalculator.i := 0;
                 TaxCalculator.lo := TaxCalculator.low (TaxCalculator.last w);
                 TaxCalculator.hi := TaxCalculator.high (TaxCalculator.last w);
                 TaxCalculator.bestResult := None |} 0%nat) as (s & Hs & _).
  { reflexivity. }
  { cbn. lia. }
  { cbn. lia. }
  rewrite Hs. destruct (TaxCalculator.thrown s); eexists; reflexivity.
Qed.

Lemma goalSeekRun_more_fuel fuel extra run :
  TaxCalculator.goalSeekRun this targetNet o fuel = Some run ->
  TaxCalculator.goalSeekRun this targetNet o (fuel + extra) = Some run.
Proof.
  unfold TaxCalculator.goalSeekRun.
  destruct (TaxCalculator.initialBracket this targetNet o) as [b0|e]; [|auto].
  unfold TaxCalculator.widenLoop, TaxCalculator.searchLoop.
  destruct (TaxCalculator.run_loop fuel _ _ b0 0) as [w|] eqn:Hw; [|discriminate].
  rewrite (run_loop_more_fuel _ _ _ _ _ _ extra Hw).
  destruct (TaxCalculator.thrown w); [auto|].
  destruct (TaxCalculator.run_loop fuel TaxCalculator.searching _ _ 0) as [s|] eqn:Hs;
    [|discriminate].
  rewrite (run_loop_more_fuel _ _ _ _ _ _ extra Hs). auto.
Qed.

End GoalSeekErrors.

Lemma ltb_leb a b : (a <? b) = true -> (a <=? b) = true.
Proof.
  rewrite FloatAxioms.ltb_spec, FloatAxioms.leb_spec. unfold SFltb, SFleb.
  destruct (SFcompare (Prim2SF a) (Prim2SF b)) as [[ | | ]|]; congruence.
Qed.

Section GoalSeekOutcomes.

Variable this : RateSet.
Variable targetNet : float.
Variable o : CalculationOptions.

Lemma bisect_throws_kind s e :
  TaxCalculator.bisect this targetNet o s = Throw e ->
  kind e = InvalidInput \/ kind e = InvalidNumber.
Proof.
  intros H. pose proof (bisect_outcome this targetNet o s) as Hout.
  destruct (TaxCalculator.calculateFromSubtotal this _ o) as [c|e'] eqn:E.
  - destruct Hout as (s' & [Hb|Hb] & _); congruence.
  - rewrite Hout in H. injection H as <-.
    exact (calculateFromSubtotal_throws_kind _ _ _ _ E).
Qed.

Lemma initialBracket_inv b0 :
  TaxCalculator.initialBracket this targetNet o = Return b0 ->
  (0 <? targetNet) = true /\ bracketEvaluated this o b0.
Proof.
  unfold TaxCalculator.initialBracket, bracketEvaluated.
  destruct (validatePositiveNumber targetNet _) as [t|e'] eqn:V; cbn [bind];
    [|discriminate].
  apply validatePositiveNumber_returns_positive in V.
  destruct (TaxCalculator.calculateSubtotalFromNetAlgebraic this targetNet) as [g|];
    cbn [bind]; [|discriminate].
  repeat match goal with
    | |- context [bind (TaxCalculator.calculateNetForSubtotal this o ?x) _] =>
        let E := fresh "E" in
        destruct (TaxCalculator.calculateNetForSubtotal this o x) as [?|?] eqn:E;
        cbn [bind]
    end; intros H; try discriminate H.
  injection H as <-. cbn. auto.
Qed.

Lemma widen_bracketEvaluated b b' :
  TaxCalculator.widen this o b = Return (TaxCalculator.Continue b')
  \/ TaxCalculator.widen this o b = Return (TaxCalculator.Break b') ->
  bracketEvaluated this o b'.
Proof.
  unfold TaxCalculator.widen, bracketEvaluated.
  destruct (_ <? _)%Z; [intros [H|H]; discriminate H|].
  repeat match goal with
    | |- context [bind (TaxCalculator.calculateNetForSubtotal this o ?x) _] =>
        let E := fresh "E" in
        destruct (TaxCalculator.calculateNetForSubtotal this o x) as [?|?] eqn:E;
        cbn [bind]
    end; intros [H|H]; try discriminate H.
  injection H as <-. cbn. auto.
Qed.

Lemma widen_loop_exit fuel : forall b n w,
  TaxCalculator.run_loop fuel (TaxCalculator.sameSide targetNet)
    (TaxCalculator.widen this o) b n = Some w ->
  TaxCalculator.thrown w = None ->
  TaxCalculator.sameSide targetNet (TaxCalculator.last w) = false.
Proof.
  induction fuel as [|fuel IH]; intros b n w; cbn [TaxCalculator.run_loop];
    [discriminate|].
  destruct (TaxCalculator.sameSide targetNet b) eqn:Hside.
  - destruct (TaxCalculator.widen this o b) as [[b'|b']|e] eqn:Hw.
    + apply IH.
    + destruct (widen_inv _ _ _ _ Hw) as (b'' & Hc & _). discriminate Hc.
    + intros H. injection H as <-. discriminate.
  - intros H _. injection H as <-. exact Hside.
Qed.

End GoalSeekOutcomes.

(** X9.  Goal Seek fails before it searches when the target is not above
    zero, with the validation error of the target net amount, and when the
    target is above zero but the rates are degenerate, with the
    degenerate-rates error of the algebraic formula; in both cases neither
    loop runs a round. *)
Theorem goalSeekRun_fails_before_search (this : RateSet) (targetNet : float)
    (o : CalculationOptions) (fuel : nat) :
  ((0 <? targetNet) = false ->
   exists cause,
     (cause = MustBeValidNumber "Target net amount" /\ is_nan targetNet = true
      \/ cause = MustBeGreaterThanZero "Target net amount" /\ (targetNet <=? 0) = true)
     /\ TaxCalculator.goalSeekRun this targetNet o fuel
        = Some {| TaxCalculator.outcome := Throw (Rethrown "Error in Goal Seek" cause);
                  TaxCalculator.widenings := 0;
                  TaxCalculator.iterations := 0 |})
  /\ ((0 <? targetNet) = true ->
      (JS.Math_abs (TaxCalculator.denominator this) <? 0.000001) = true ->
      TaxCalculator.goalSeekRun this targetNet o fuel
      = Some {| TaxCalculator.outcome :=
                  Throw (Rethrown "Error in Goal Seek"
                           (Rethrown "Error in algebraic calculation"
                              (I18n "denominatorTooSmall")));
                TaxCalculator.widenings := 0;
                TaxCalculator.iterations := 0 |}
      /\ kind (Rethrown "Error in Goal Seek"
                 (Rethrown "Error in algebraic calculation" (I18n "denominatorTooSmall")))
         = DegenerateRates).
Proof.
  split.
  - intros Ht. unfold TaxCalculator.goalSeekRun, TaxCalculator.initialBracket.
    destruct (validatePositiveNumber_cases targetNet "Target net amount")
      as [[Hp _]|[(Hn & _ & _ & H)|(Hl & _ & _ & H)]]; [congruence| |];
      rewrite H; cbn [bind]; eexists; (split; [|reflexivity]); auto.
  - intros Ht Hd. split; [|reflexivity].
    unfold TaxCalculator.goalSeekRun, TaxCalculator.initialBracket,
      TaxCalculator.calculateSubtotalFromNetAlgebraic.
    rewrite !(validatePositiveNumber_positive _ _ Ht). cbn [bind].
    rewrite Hd. reflexivity.
Qed.

(** X10.  Every error of Goal Seek is rethrown with the Goal Seek prefix and
    is of one of four kinds: invalid input, invalid number, degenerate rates
    or unreachable target.  In particular the final adjustment never reads
    the subtotal of a null best result: once the search ends without an
    error there is one. *)
Theorem goalSeekSubtotal_error_kinds (this : RateSet) (targetNet : float)
    (o : CalculationOptions) (fuel : nat) (e : Error) :
  TaxCalculator.goalSeekSubtotal this targetNet o fuel = Some (Throw e) ->
  exists cause,
    e = Rethrown "Error in Goal Seek" cause
    /\ (kind e = InvalidInput \/ kind e = InvalidNumber
        \/ kind e = DegenerateRates \/ kind e = GoalSeekUnreachable)
    /\ (forall what, cause <> TypeError what).
Proof.
  assert (Hgoal : forall cause,
             kind cause = InvalidInput \/ kind cause = InvalidNumber
             \/ kind cause = DegenerateRates \/ kind cause = GoalSeekUnreachable ->
             Some (@Throw BreakdownResult (Rethrown "Error in Goal Seek" cause))
             = Some (Throw e) ->
             exists cause,
               e = Rethrown "Error in Goal Seek" cause
               /\ (kind e = InvalidInput \/ kind e = InvalidNumber
                   \/ kind e = DegenerateRates \/ kind e = GoalSeekUnreachable)
               /\ (forall what, cause <> TypeError what)).
  { intros cause Hk H. injection H as <-. exists cause. split; [reflexivity|].
    split; [exact Hk|]. intros what ->. cbn in Hk.
    destruct Hk as [Hk|[Hk|[Hk|Hk]]]; discriminate Hk. }
  unfold TaxCalculator.goalSeekSubtotal, TaxCalculator.goalSeekRun.
  destruct (TaxCalculator.initialBracket this targetNet o) as [b0|e0] eqn:Hb0.
  - destruct (TaxCalculator.widenLoop this targetNet o fuel b0) as [w|] eqn:Hw;
      [|discriminate].
    destruct (TaxCalculator.thrown w) as [e1|] eqn:Hw1.
    + apply Hgoal. unfold TaxCalculator.widenLoop in Hw.
      pose proof (run_loop_thrown _ _ _ _ _ _ _ Hw Hw1) as Hbody.
      destruct (widen_throws_kind this o _ _ Hbody) as [H|[H|H]]; auto.
    + destruct (TaxCalculator.searchLoop this targetNet o fuel _ _) as [s|] eqn:Hs;
        [|discriminate].
      unfold TaxCalculator.searchLoop in Hs.
      destruct (TaxCalculator.thrown s) as [e2|] eqn:Hs1.
      * apply Hgoal. pose proof (run_loop_thrown _ _ _ _ _ _ _ Hs Hs1) as Hbody.
        destruct (bisect_throws_kind this targetNet o _ _ Hbody); auto.
      * cbn [option_map TaxCalculator.outcome TaxCalculator.rethrowGoalSeek].
        pose proof (fun H0 => search_loop_best_some this targetNet o fuel _ _ _ H0 Hs Hs1)
          as Hsome.
        specialize (Hsome (or_intror eq_refl)).
        destruct (TaxCalculator.bestResult (TaxCalculator.last s)) as [best|] eqn:Hbest;
          [|congruence].
        assert (Hev : evaluated this o best).
        { refine (search_loop_bestEvaluated this targetNet o fuel _ _ _ _ Hs best Hbest).
          intros b Hb. discriminate Hb. }
        destruct (TaxCalculator.finalAdjustment this o (Some best)) as [r|e3] eqn:Hfin;
          cbn [try_rethrow]; [discriminate|].
        apply Hgoal.
        destruct (finalAdjustment_throws_kind this o best e3 Hev Hfin); auto.
  - apply Hgoal. destruct (initialBracket_throws_kind this targetNet o e0 Hb0)
      as [H|[H|H]]; auto.
Qed.

Lemma goalSeekSubtotal_error_kinds_witness :
  exists cause,
    Rethrown "Error in Goal Seek" (I18n "goalSeekTimeout")
    = Rethrown "Error in Goal Seek" cause
    /\ (forall what, cause <> TypeError what).
Proof.
  destruct (goalSeekSubtotal_error_kinds defaultRates 1e300 {| roundPerLine := true |} 81
              (Rethrown "Error in Goal Seek" (I18n "goalSeekTimeout")))
    as (cause & H1 & _ & H3).
  - vm_compute. reflexivity.
  - exists cause. split; [exact H1|exact H3].
Defined.

(** The fuel of the loop runner does not matter once there is enough of
    it: every run with fuel for more than 80 rounds is the run with fuel for
    81, and that one ends. *)
Theorem goalSeekRun_fuel_irrelevant (this : RateSet) (targetNet : float)
    (o : CalculationOptions) (fuel : nat) :
  (80 < fuel)%nat ->
  TaxCalculator.goalSeekRun this targetNet o fuel
  = TaxCalculator.goalSeekRun this targetNet o 81
  /\ TaxCalculator.goalSeekSubtotal this targetNet o fuel
     = TaxCalculator.goalSeekSubtotal this targetNet o 81
  /\ TaxCalculator.goalSeekSubtotal this targetNet o fuel <> None.
Proof.
  intros Hfuel.
  destruct (goalSeekRun_enough_fuel this targetNet o 81 ltac:(lia)) as [run Hrun].
  pose proof (goalSeekRun_more_fuel this targetNet o 81 (fuel - 81) run Hrun) as Hmore.
  replace (81 + (fuel - 81))%nat with fuel in Hmore by lia.
  unfold TaxCalculator.goalSeekSubtotal. rewrite Hmore, Hrun.
  repeat split. discriminate.
Qed.

Lemma goalSeekRun_fuel_irrelevant_witness :
  (80 < 200)%nat
  /\ TaxCalculator.goalSeekRun defaultRates 9280 {| roundPerLine := true |} 200
     = TaxCalculator.goalSeekRun defaultRates 9280 {| roundPerLine := true |} 81.
Proof.
  split; [lia|].
  exact (proj1 (goalSeekRun_fuel_irrelevant defaultRates 9280 {| roundPerLine := true |} 200
                  ltac:(lia))).
Defined.

Section GoalSeekBracket.

Variable this : RateSet.
Variable targetNet : float.
Variable o : CalculationOptions.

(** The nets of an evaluated bracket are numbers, and its ends are above
    zero. *)
Lemma bracketEvaluated_facts b :
  bracketEvaluated this o b ->
  (0 <? TaxCalculator.low b) = true
  /\ (0 <? TaxCalculator.high b) = true
  /\ TaxCalculator.nLow b = netAmount (breakdownOf this (TaxCalculator.low b) o)
  /\ TaxCalculator.nHigh b = netAmount (breakdownOf this (TaxCalculator.high b) o)
  /\ is_nan (TaxCalculator.nLow b) = false
  /\ is_nan (TaxCalculator.nHigh b) = false.
Proof.
  intros [Hl Hh].
  apply calculateNetForSubtotal_inv in Hl, Hh. destruct Hl as [Hl Hln], Hh as [Hh Hhn].
  destruct (calculateFromSubtotal_returns_conditions _ _ _ _ Hl) as (Pl & _ & _ & _ & _ & Nl).
  destruct (calculateFromSubtotal_returns_conditions _ _ _ _ Hh) as (Ph & _ & _ & _ & _ & Nh).
  repeat (split; [assumption|]).
  rewrite Hln, Hhn. cbn [breakdownOf netAmount].
  split; apply round2_value_not_nan; assumption.
Qed.

(** Two numbers that are not on the same side of a third have it between
    them. *)
Lemma not_sameSide_between b :
  is_nan targetNet = false ->
  is_nan (TaxCalculator.nLow b) = false ->
  is_nan (TaxCalculator.nHigh b) = false ->
  TaxCalculator.sameSide targetNet b = false ->
  ((TaxCalculator.nLow b <=? targetNet) && (targetNet <=? TaxCalculator.nHigh b))
  || ((TaxCalculator.nHigh b <=? targetNet) && (targetNet <=? TaxCalculator.nLow b))
  = true.
Proof.
  intros Ht Hl Hh. unfold TaxCalculator.sameSide.
  destruct (targetNet <? TaxCalculator.nLow b) eqn:E1;
    destruct (targetNet <? TaxCalculator.nHigh b) eqn:E2;
    destruct (TaxCalculator.nLow b <? targetNet) eqn:E3;
    destruct (TaxCalculator.nHigh b <? targetNet) eqn:E4;
    cbn [andb orb]; try discriminate; intros _;
    repeat match goal with
      | H : (?a <? ?c) = true |- _ => apply ltb_leb in H
      | H : (?a <? ?c) = false |- _ => apply not_ltb_leb in H; [|assumption|assumption]
      end;
    repeat match goal with H : (_ <=? _) = true |- _ => rewrite H; clear H end;
    cbn [andb orb]; try reflexivity; apply orb_true_r.
Qed.

End GoalSeekBracket.

(** X11.  When the bracket-widening loop ends without an error, both ends of
    its bracket are above zero, the two nets are the net amounts of the
    breakdowns of the two ends, and the target lies between them: one net is
    at most the target and the other at least. *)
Theorem widenLoop_exit_bracket (this : RateSet) (targetNet : float)
    (o : CalculationOptions) (fuel : nat) (b0 : TaxCalculator.Bracket)
    (w : TaxCalculator.LoopRun TaxCalculator.Bracket) :
  TaxCalculator.initialBracket this targetNet o = Return b0 ->
  TaxCalculator.widenLoop this targetNet o fuel b0 = Some w ->
  TaxCalculator.thrown w = None ->
  (0 <? TaxCalculator.low (TaxCalculator.last w)) = true
  /\ (0 <? TaxCalculator.high (TaxCalculator.last w)) = true
  /\ TaxCalculator.calculateFromSubtotal this (TaxCalculator.low (TaxCalculator.last w)) o
     = Return (breakdownOf this (TaxCalculator.low (TaxCalculator.last w)) o)
  /\ TaxCalculator.calculateFromSubtotal this (TaxCalculator.high (TaxCalculator.last w)) o
     = Return (breakdownOf this (TaxCalculator.high (TaxCalculator.last w)) o)
  /\ TaxCalculator.nLow (TaxCalculator.last w)
     = netAmount (breakdownOf this (TaxCalculator.low (TaxCalculator.last w)) o)
  /\ TaxCalculator.nHigh (TaxCalculator.last w)
     = netAmount (breakdownOf this (TaxCalculator.high (TaxCalculator.last w)) o)
  /\ ((TaxCalculator.nLow (TaxCalculator.last w) <=? targetNet)
      && (targetNet <=? TaxCalculator.nHigh (TaxCalculator.last w)))
     || ((TaxCalculator.nHigh (TaxCalculator.last w) <=? targetNet)
         && (targetNet <=? TaxCalculator.nLow (TaxCalculator.last w))) = true.
Proof.
  intros Hb0 Hw Hnormal. unfold TaxCalculator.widenLoop in Hw.
  destruct (initialBracket_inv this targetNet o b0 Hb0) as [Ht Hev0].
  assert (Hev : bracketEvaluated this o (TaxCalculator.last w)).
  { refine (run_loop_invariant (bracketEvaluated this o) _ _ _ fuel b0 0%nat w Hev0 Hw).
    intros s s' _ _ Hstep. exact (widen_bracketEvaluated this o s s' Hstep). }
  destruct (bracketEvaluated_facts this o _ Hev) as (Pl & Ph & Nl & Nh & Il & Ih).
  destruct Hev as [El Eh]. apply calculateNetForSubtotal_inv in El, Eh.
  repeat (split; [tauto|]).
  apply not_sameSide_between; try assumption.
  - apply positive_facts in Ht. tauto.
  - exact (widen_loop_exit this targetNet o fuel _ _ _ Hw Hnormal).
Qed.

Lemma widenLoop_exit_bracket_witness :
  exists b0 w,
    TaxCalculator.initialBracket defaultRates 1e20 {| roundPerLine := true |} = Return b0
    /\ TaxCalculator.widenLoop defaultRates 1e20 {| roundPerLine := true |} 81 b0 = Some w
    /\ TaxCalculator.completed w = 6%nat
    /\ (0 <? TaxCalculator.low (TaxCalculator.last w)) = true.
Proof.
  eexists. eexists. split; [vm_compute; reflexivity|].
  split; [vm_compute; reflexivity|]. split; [reflexivity|].
  match goal with
  | |- (0 <? TaxCalculator.low (TaxCalculator.last ?w)) = true =>
      match eval vm_compute in
        (TaxCalculator.initialBracket defaultRates 1e20 {| roundPerLine := true |}) with
      | Return ?b =>
          refine (proj1 (widenLoop_exit_bracket defaultRates 1e20
                           {| roundPerLine := true |} 81 b w _ _ _))
      end
  end; vm_compute; reflexivity.
Defined.

(** X12.  A breakdown returned by Goal Seek is the breakdown of its own
    subtotal, with the method [goalSeek]: its subtotal and raw VAT are above
    zero, its net amount is a number, it carries the options of the call, and
    [calculateFromSubtotal] on its subtotal returns the same lines with the
    method [fromSubtotal]; and the target of the call was above zero. *)
Theorem goalSeekSubtotal_result_sound (this : RateSet) (targetNet : float)
    (o : CalculationOptions) (fuel : nat) (r : BreakdownResult) :
  TaxCalculator.goalSeekSubtotal this targetNet o fuel = Some (Return r) ->
  (0 <? targetNet) = true
  /\ (0 <? subtotal r) = true
  /\ (0 <? vatRaw r) = true
  /\ is_nan (netAmount r) = false
  /\ options r = o
  /\ calculationMethod r = goalSeek
  /\ TaxCalculator.calculateFromSubtotal this (subtotal r) (options r)
     = Return (set_calculationMethod fromSubtotal r)
  /\ netAmount r
     = round2_value (subtotal r + vat r - incomeTaxWithheld r - vatRetention r).
Proof.
  unfold TaxCalculator.goalSeekSubtotal, TaxCalculator.goalSeekRun.
  destruct (TaxCalculator.initialBracket this targetNet o) as [b0|e] eqn:Hb0;
    [|discriminate].
  destruct (initialBracket_inv this targetNet o b0 Hb0) as [Ht _].
  destruct (TaxCalculator.widenLoop this targetNet o fuel b0) as [w|]; [|discriminate].
  destruct (TaxCalculator.thrown w) as [e|]; [discriminate|].
  destruct (TaxCalculator.searchLoop this targetNet o fuel _ _) as [s|]; [|discriminate].
  destruct (TaxCalculator.thrown s) as [e|]; [discriminate|].
  cbn [option_map TaxCalculator.outcome TaxCalculator.rethrowGoalSeek].
  destruct (TaxCalculator.finalAdjustment this o _) as [r'|e] eqn:Hfin;
    cbn [try_rethrow]; [|discriminate].
  intros H. injection H as ->.
  destruct (finalAdjustment_inv this o _ _ Hfin)
    as (best & rounded & recomputed & _ & _ & Hcalc & ->).
  destruct (calculateFromSubtotal_returns_conditions _ _ _ _ Hcalc)
    as (Hs & _ & _ & _ & Hv & Hn).
  pose proof (calculateFromSubtotal_inv _ _ _ _ Hcalc) as Hrec. subst recomputed.
  cbn [set_calculationMethod breakdownOf subtotal vatRaw netAmount options
       calculationMethod vat incomeTaxWithheld vatRetention].
  split; [exact Ht|]. split; [exact Hs|]. split; [exact Hv|].
  split; [exact (round2_value_not_nan _ Hn)|].
  split; [reflexivity|]. split; [reflexivity|]. split; [exact Hcalc|reflexivity].
Qed.

Lemma goalSeekSubtotal_result_sound_witness :
  exists r,
    TaxCalculator.goalSeekSubtotal defaultRates 9280 {| roundPerLine := true |} 81
    = Some (Return r)
    /\ is_nan (netAmount r) = false.
Proof.
  eexists. split.
  - vm_compute. reflexivity.
  - match goal with
    | |- is_nan (netAmount ?r) = false =>
        destruct (goalSeekSubtotal_result_sound defaultRates 9280
                    {| roundPerLine := true |} 81 r) as (_ & _ & _ & H & _)
    end.
    + vm_compute. reflexivity.
    + exact H.
Defined.

Section GoalSeekTolerance.

Variable this : RateSet.
Variable targetNet : float.
Variable o : CalculationOptions.

Hypothesis finiteTarget : is_finite targetNet = true.

(** The deviation of an evaluated candidate from a finite target is a
    number. *)
Lemma deviation_not_nan b :
  evaluated this o b -> is_nan (TaxCalculator.deviation targetNet b) = false.
Proof.
  intros [mid Hmid]. unfold TaxCalculator.deviation, JS.Math_abs.
  apply abs_not_nan, sub_finite_not_nan; [|exact finiteTarget].
  destruct (calculateFromSubtotal_returns_conditions _ _ _ _ Hmid)
    as (_ & _ & _ & _ & _ & Hn).
  rewrite (calculateFromSubtotal_inv _ _ _ _ Hmid). cbn [breakdownOf netAmount].
  exact (round2_value_not_nan _ Hn).
Qed.

(** The round that leaves the binary search has found a candidate within
    the tolerance, and the best result is then within it too. *)
Lemma bisect_break s s' :
  bestEvaluated this o s ->
  TaxCalculator.bisect this targetNet o s = Return (TaxCalculator.Break s') ->
  exists best,
    TaxCalculator.bestResult s' = Some best
    /\ (TaxCalculator.deviation targetNet best <? TOLERANCE GOAL_SEEK_CONFIG) = true.
Proof.
  intros Hs. unfold TaxCalculator.bisect.
  destruct (TaxCalculator.calculateFromSubtotal this _ o) as [c|e] eqn:E; cbn [bind];
    [|discriminate].
  fold (TaxCalculator.deviation targetNet c).
  destruct (TaxCalculator.deviation targetNet c <? TOLERANCE GOAL_SEEK_CONFIG) eqn:Htol.
  - intros H. injection H as <-. cbn [TaxCalculator.bestResult].
    destruct (TaxCalculator.bestResult s) as [b|] eqn:Eb; [|eauto].
    destruct (TaxCalculator.deviation targetNet c <? TaxCalculator.deviation targetNet b)
      eqn:Hlt; [eauto|].
    exists b. split; [reflexivity|].
    apply (leb_ltb_trans _ (TaxCalculator.deviation targetNet c)); [|exact Htol].
    apply not_ltb_leb; [|apply deviation_not_nan, Hs, Eb|exact Hlt].
    apply ltb_not_nan in Htol. tauto.
  - destruct (targetNet <? netAmount c); discriminate.
Qed.

(** The binary search, when it ends without an error, has run all its
    rounds or has a best result within the tolerance. *)
Lemma search_loop_early_exit fuel : forall s n r,
  bestEvaluated this o s ->
  TaxCalculator.i s = Z.of_nat n ->
  TaxCalculator.run_loop fuel TaxCalculator.searching
    (TaxCalculator.bisect this targetNet o) s n = Some r ->
  TaxCalculator.thrown r = None ->
  (Z.to_nat (MAX_ITERATIONS GOAL_SEEK_CONFIG) <= TaxCalculator.completed r)%nat
  \/ exists best,
       TaxCalculator.bestResult (TaxCalculator.last r) = Some best
       /\ (TaxCalculator.deviation targetNet best <? TOLERANCE GOAL_SEEK_CONFIG) = true.
Proof.
  induction fuel as [|fuel IH]; intros s n r Hs Hi; cbn [TaxCalculator.run_loop];
    [discriminate|].
  destruct (TaxCalculator.searching s) eqn:Hgo.
  - destruct (TaxCalculator.bisect this targetNet o s) as [[s'|s']|e] eqn:Hb.
    + apply IH.
      * exact (bisect_bestEvaluated this targetNet o s _ Hs Hb).
      * destruct (bisect_inv this targetNet o _ _ Hb) as [(s'' & Hc)|(s'' & Hc & Hi')];
          [discriminate Hc|].
        injection Hc as ->. rewrite Hi', Hi. lia.
    + intros H _. injection H as <-. right. exact (bisect_break s s' Hs Hb).
    + intros H. injection H as <-. discriminate.
  - intros H _. injection H as <-. left. cbn [TaxCalculator.completed].
    unfold TaxCalculator.searching in Hgo. apply Z.ltb_ge in Hgo. lia.
Qed.

End GoalSeekTolerance.

(** X13.  When Goal Seek, called with a finite target, returns after fewer
    than [MAX_ITERATIONS = 80] rounds of the binary search, the search was
    left because a candidate came within the tolerance: the best candidate,
    whose rounded subtotal the result is computed from, has a net amount
    within [TOLERANCE = 0.0005] of the target. *)
Theorem goalSeekRun_early_exit_within_tolerance (this : RateSet) (targetNet : float)
    (o : CalculationOptions) (fuel : nat) (run : TaxCalculator.GoalSeekRun)
    (r : BreakdownResult) :
  is_finite targetNet = true ->
  TaxCalculator.goalSeekRun this targetNet o fuel = Some run ->
  TaxCalculator.outcome run = Return r ->
  (TaxCalculator.iterations run < 80)%nat ->
  exists best mid,
    TaxCalculator.calculateFromSubtotal this mid o = Return best
    /\ (JS.Math_abs (netAmount best - targetNet) <? TOLERANCE GOAL_SEEK_CONFIG) = true
    /\ TaxCalculator.calculateFromSubtotal this (round2_value (subtotal best)) o
       = Return (set_calculationMethod fromSubtotal r)
    /\ subtotal r = round2_value mid.
Proof.
  intros Hfin. unfold TaxCalculator.goalSeekRun.
  destruct (TaxCalculator.initialBracket this targetNet o) as [b0|e] eqn:Hb0;
    [|intros H; injection H as <-; discriminate].
  destruct (TaxCalculator.widenLoop this targetNet o fuel b0) as [w|]; [|discriminate].
  destruct (TaxCalculator.thrown w) as [e|];
    [intros H; injection H as <-; discriminate|].
  destruct (TaxCalculator.searchLoop this targetNet o fuel _ _) as [s|] eqn:Hs;
    [|discriminate].
  unfold TaxCalculator.searchLoop in Hs.
  destruct (TaxCalculator.thrown s) as [e|] eqn:Hthrown;
    [intros H; injection H as <-; discriminate|].
  intros H. injection H as <-.
  cbn [TaxCalculator.outcome TaxCalculator.iterations TaxCalculator.rethrowGoalSeek].
  unfold TaxCalculator.started. rewrite Hthrown.
  destruct (TaxCalculator.finalAdjustment this o _) as [r'|e] eqn:Hfinal;
    cbn [try_rethrow]; [|discriminate].
  intros H Hiter. injection H as ->.
  assert (Hev0 : bestEvaluated this o
                   {| TaxCalculator.i := 0;
                      TaxCalculator.lo := TaxCalculator.low (TaxCalculator.last w);
                      TaxCalculator.hi := TaxCalculator.high (TaxCalculator.last w);
                      TaxCalculator.bestResult := None |})
    by (intros b Hb; discriminate Hb).
  destruct (search_loop_early_exit this targetNet o Hfin fuel _ 0%nat _ Hev0 eq_refl Hs Hthrown)
    as [Hall|(best & Hbest & Htol)].
  { cbn in Hall. lia. }
  destruct (finalAdjustment_inv this o _ _ Hfinal)
    as (best' & rounded & recomputed & Hbest' & Hround & Hcalc & ->).
  rewrite Hbest in Hbest'. injection Hbest' as <-.
  pose proof (search_loop_bestEvaluated this targetNet o fuel _ _ _ Hev0 Hs best Hbest)
    as [mid Hmid].
  exists best, mid. split; [exact Hmid|]. split; [exact Htol|].
  unfold round2 in Hround. destruct (JS.isNaN _); [discriminate|].
  injection Hround as <-.
  pose proof (calculateFromSubtotal_inv _ _ _ _ Hcalc) as Hrec. subst recomputed.
  split; [exact Hcalc|].
  rewrite (calculateFromSubtotal_inv _ _ _ _ Hmid). reflexivity.
Qed.

Lemma goalSeekRun_early_exit_within_tolerance_witness :
  exists best mid,
    TaxCalculator.calculateFromSubtotal defaultRates mid {| roundPerLine := true |}
    = Return best
    /\ (JS.Math_abs (netAmount best - 9280) <? TOLERANCE GOAL_SEEK_CONFIG) = true.
Proof.
  match eval vm_compute in
    (TaxCalculator.goalSeekRun defaultRates 9280 {| roundPerLine := true |} 81) with
  | Some ?run =>
      match eval vm_compute in (TaxCalculator.outcome run) with
      | Return ?r =>
          destruct (goalSeekRun_early_exit_within_tolerance defaultRates 9280
                      {| roundPerLine := true |} 81 run r)
            as (best & mid & H1 & H2 & _)
      end
  end.
  - reflexivity.
  - vm_compute. reflexivity.
  - vm_compute. reflexivity.
  - vm_compute. lia.
  - exists best, mid. split; [exact H1|exact H2].
Defined.

(** * The language of the internationalization service *)

Lemma detectLanguage_supported toLowerCase browser :
  I18nService.includes I18nService.SUPPORTED_LANGUAGES
    (I18nService._detectLanguage toLowerCase browser) = true.
Proof.
  unfold I18nService._detectLanguage.
  assert (Hb : I18nService.includes I18nService.SUPPORTED_LANGUAGES
                 match (if I18nService.truthyText (I18nService.navigatorLanguage browser)
                        then I18nService.navigatorLanguage browser
                        else I18nService.navigatorUserLanguage browser) with
                 | Some (String c rest) =>
                     if I18nService.includes I18nService.SUPPORTED_LANGUAGES
                          (toLowerCase (I18nService.firstSegment (String c rest)))
                     then toLowerCase (I18nService.firstSegment (String c rest))
                     else I18nService.DEFAULT_LANGUAGE
                 | _ => I18nService.DEFAULT_LANGUAGE
                 end = true).
  { destruct (if I18nService.truthyText _ then _ else _) as [[|c rest]|];
      try reflexivity.
    destruct (I18nService.includes _ (toLowerCase _)) eqn:E; [exact E|reflexivity]. }
  destruct (I18nService.storedLanguage browser) as [saved|]; [|exact Hb].
  destruct (I18nService.truthyText (Some saved)); cbn [andb]; [|exact Hb].
  destruct (I18nService.includes I18nService.SUPPORTED_LANGUAGES saved) eqn:E;
    [exact E|exact Hb].
Qed.

(** A stored preference for a supported language is the language
    detected. *)
Lemma detectLanguage_stored toLowerCase browser language :
  I18nService.storedLanguage browser = Some language ->
  I18nService.includes I18nService.SUPPORTED_LANGUAGES language = true ->
  I18nService._detectLanguage toLowerCase browser = language.
Proof.
  intros Hs Hl. unfold I18nService._detectLanguage. rewrite Hs, Hl.
  destruct language as [|c rest]; [discriminate Hl|reflexivity].
Qed.

Lemma constructor_languageKept toLowerCase browser :
  languageKept (I18nService.constructor toLowerCase browser).
Proof.
  split; [apply detectLanguage_supported|reflexivity].
Qed.

Lemma setLanguage_languageKept service language :
  languageKept service -> languageKept (I18nService.setLanguage service language).
Proof.
  intros Hk. unfold I18nService.setLanguage.
  destruct (I18nService.includes I18nService.SUPPORTED_LANGUAGES language) eqn:E;
    cbn [negb]; [|exact Hk].
  split; [exact E|reflexivity].
Qed.

Lemma setLanguages_languageKept languages : forall service,
  languageKept service ->
  languageKept (fold_left I18nService.setLanguage languages service).
Proof.
  induction languages as [|language languages IH]; intros service Hk; cbn [fold_left];
    [exact Hk|].
  apply IH, setLanguage_languageKept, Hk.
Qed.

(** X14.  The language of the service is always a supported one, whatever
    the browser reports and whatever [toLowerCase] does: [_detectLanguage]
    returns ["en"] or ["es"], and after the constructor and any number of
    [setLanguage] calls, with supported or unsupported arguments, the
    current language is supported and is the preference stored in
    [localStorage]. *)
Theorem language_always_supported (toLowerCase : string -> string)
    (browser : I18nService.Browser) (languages : list string) :
  (I18nService._detectLanguage toLowerCase browser = "en"
   \/ I18nService._detectLanguage toLowerCase browser = "es")
  /\ I18nService.includes I18nService.SUPPORTED_LANGUAGES
       (I18nService.getCurrentLanguage
          (fold_left I18nService.setLanguage languages
             (I18nService.constructor toLowerCase browser))) = true
  /\ I18nService.storedLanguage
       (snd (fold_left I18nService.setLanguage languages
               (I18nService.constructor toLowerCase browser)))
     = Some (I18nService.getCurrentLanguage
               (fold_left I18nService.setLanguage languages
                  (I18nService.constructor toLowerCase browser))).
Proof.
  split.
  - pose proof (detectLanguage_supported toLowerCase browser) as H.
    unfold I18nService.includes, I18nService.SUPPORTED_LANGUAGES in H.
    cbn [existsb] in H.
    destruct (String.eqb_spec (I18nService._detectLanguage toLowerCase browser) "en");
      [auto|].
    destruct (String.eqb_spec (I18nService._detectLanguage toLowerCase browser) "es");
      [auto|discriminate H].
  - exact (setLanguages_languageKept languages _
             (constructor_languageKept toLowerCase browser)).
Qed.

(** X15.  The language survives a reload: a service constructed in a
    browser whose [localStorage] holds what an earlier service left there
    starts in the language that service was in, whatever
    [navigator.language] has become; and [setLanguage] with an unsupported
    language changes nothing. *)
Theorem language_survives_reload (toLowerCase toLowerCase' : string -> string)
    (browser browser' : I18nService.Browser) (languages : list string) :
  I18nService.storedLanguage browser'
  = I18nService.storedLanguage
      (snd (fold_left I18nService.setLanguage languages
              (I18nService.constructor toLowerCase browser))) ->
  I18nService.getCurrentLanguage (I18nService.constructor toLowerCase' browser')
  = I18nService.getCurrentLanguage
      (fold_left I18nService.setLanguage languages
         (I18nService.constructor toLowerCase browser))
  /\ (forall service language,
        I18nService.includes I18nService.SUPPORTED_LANGUAGES language = false ->
        I18nService.setLanguage service language = service).
Proof.
  intros Hstored. split.
  - destruct (setLanguages_languageKept languages _
                (constructor_languageKept toLowerCase browser)) as [Hin Hkept].
    rewrite Hkept in Hstored.
    exact (detectLanguage_stored toLowerCase' browser' _ Hstored Hin).
  - intros service language H. unfold I18nService.setLanguage. rewrite H. reflexivity.
Qed.

Lemma language_survives_reload_witness :
  I18nService.getCurrentLanguage
    (I18nService.constructor (fun s => s)
       {| I18nService.storedLanguage := Some "es";
          I18nService.navigatorLanguage := Some "en-US";
          I18nService.navigatorUserLanguage := None |}) = "es".
Proof.
  exact (proj1 (language_survives_reload (fun s => s) (fun s => s)
                  {| I18nService.storedLanguage := None;
                     I18nService.navigatorLanguage := Some "fr-FR";
                     I18nService.navigatorUserLanguage := None |}
                  {| I18nService.storedLanguage := Some "es";
                     I18nService.navigatorLanguage := Some "en-US";
                     I18nService.navigatorUserLanguage := None |}
                  ["de"; "es"; "pt"] eq_refl)).
Defined.

(** * The calculation handlers of the controller *)

Section ControllerHandlers.

Variable parseFloatText : string -> float.

Lemma getCurrentOptions_true elements :
  CalculatorController._getCurrentOptions elements
  = {| CalculatorController.options_roundPerLine := true;
       CalculatorController.options_highPrecision := true |}.
Proof.
  unfold CalculatorController._getCurrentOptions, CalculatorController.orTrue.
  destruct (CalculatorController.roundPerLine elements) as [[|]|],
    (CalculatorController.useHighPrecision elements) as [[|]|]; reflexivity.
Qed.

(** The test of the handlers, [isNaN(value) || value <= 0], fails exactly for
    the Numbers above zero. *)
Lemma handler_test value : JS.isNaN value || (value <=? 0) = negb (0 <? value).
Proof.
  unfold JS.isNaN.
  destruct (validatePositiveNumber_cases value "")
    as [[Hp _]|[(Hn & Hl & Hp & _)|(Hl & Hn & Hp & _)]]; rewrite Hp.
  - apply positive_facts in Hp. destruct Hp as (-> & -> & _). reflexivity.
  - rewrite Hn. reflexivity.
  - rewrite Hl. apply orb_true_r.
Qed.

(** A handler that finds no amount above zero alerts and changes nothing. *)
Lemma readNumber_missing value :
  value = None \/ value = Some EmptyString ->
  (0 <? CalculatorController.readNumber parseFloatText value 0) = false.
Proof. intros [->| ->]; vm_compute; reflexivity. Qed.

(** The rates of the calculator after [_updateCalculatorRates] are the three
    inputs, whatever they were before. *)
Lemma updateCalculatorRates_calculator this elements :
  CalculatorController.calculator
    (CalculatorController._updateCalculatorRates parseFloatText this elements)
  = {| vatRate :=
         CalculatorController.readNumber parseFloatText
           (CalculatorController.vatRate elements) 0.16;
       incomeTaxRate :=
         CalculatorController.readNumber parseFloatText
           (CalculatorController.incomeTaxRate elements) 0.10;
       vatRetentionFraction :=
         CalculatorController.readNumber parseFloatText
           (CalculatorController.vatRetentionFraction elements) 0.6666666667 |}.
Proof. reflexivity. Qed.

Lemma updateCalculatorRates_currentResult this elements :
  CalculatorController.currentResult
    (CalculatorController._updateCalculatorRates parseFloatText this elements)
  = CalculatorController.currentResult this.
Proof. reflexivity. Qed.

(** What [displayOrAlert] leaves, by the outcome of the calculation. *)
Lemma displayOrAlert_cases this outcome :
  (exists r,
     outcome = Return r
     /\ CalculatorController.displayOrAlert this outcome
        = ({| CalculatorController.calculator := CalculatorController.calculator this;
              CalculatorController.currentResult := Some r |}, None))
  \/ (exists e,
        outcome = Throw e
        /\ CalculatorController.displayOrAlert this outcome
           = (this, Some (CalculatorController.AlertError e))).
Proof.
  destruct outcome as [r|e]; [left|right]; eexists; split; reflexivity.
Qed.

End ControllerHandlers.

Lemma goalSeekSubtotal_returned this targetNet o fuel r :
  TaxCalculator.goalSeekSubtotal this targetNet o fuel = Some (Return r) ->
  calculationMethod r = goalSeek
  /\ TaxCalculator.calculateFromSubtotal this (subtotal r) o
     = Return (set_calculationMethod fromSubtotal r).
Proof.
  unfold TaxCalculator.goalSeekSubtotal, TaxCalculator.goalSeekRun.
  destruct (TaxCalculator.initialBracket this targetNet o) as [b0|e]; [|discriminate].
  destruct (TaxCalculator.widenLoop this targetNet o fuel b0) as [w|]; [|discriminate].
  destruct (TaxCalculator.thrown w) as [e|]; [discriminate|].
  destruct (TaxCalculator.searchLoop this targetNet o fuel _ _) as [s|]; [|discriminate].
  destruct (TaxCalculator.thrown s) as [e|]; [discriminate|].
  cbn [option_map TaxCalculator.outcome TaxCalculator.rethrowGoalSeek].
  destruct (TaxCalculator.finalAdjustment this o _) as [r'|e] eqn:Hfin;
    cbn [try_rethrow]; [|discriminate].
  intros H. injection H as ->.
  destruct (finalAdjustment_inv this o _ _ Hfin)
    as (best & rounded & recomputed & _ & _ & Hcalc & ->).
  pose proof (calculateFromSubtotal_inv _ _ _ _ Hcalc) as Hrec. subst recomputed.
  split; [reflexivity|exact Hcalc].
Qed.

(** X16.  The two checkboxes have no effect on a calculation:
    [_getCurrentOptions] returns [roundPerLine: true] and
    [highPrecision: true] whether the boxes are checked, unchecked or
    missing, and each of the three handlers leaves the same controller and
    the same alert for every state of the boxes. *)
Theorem handlers_ignore_checkboxes (parseFloatText : string -> float) (fuel : nat)
    (this : CalculatorController.Controller) (elements : CalculatorController.Elements)
    (highPrecision perLine : option bool) :
  let elements' :=
    {| CalculatorController.netAmount := CalculatorController.netAmount elements;
       CalculatorController.subtotal := CalculatorController.subtotal elements;
       CalculatorController.vatRate := CalculatorController.vatRate elements;
       CalculatorController.incomeTaxRate := CalculatorController.incomeTaxRate elements;
       CalculatorController.vatRetentionFraction :=
         CalculatorController.vatRetentionFraction elements;
       CalculatorController.useHighPrecision := highPrecision;
       CalculatorController.roundPerLine := perLine |} in
  CalculatorController._getCurrentOptions elements
  = {| CalculatorController.options_roundPerLine := true;
       CalculatorController.options_highPrecision := true |}
  /\ CalculatorController._handleCalculateFromSubtotal parseFloatText this elements'
     = CalculatorController._handleCalculateFromSubtotal parseFloatText this elements
  /\ CalculatorController._handleAlgebraicFromNet parseFloatText this elements'
     = CalculatorController._handleAlgebraicFromNet parseFloatText this elements
  /\ CalculatorController._handleGoalSeekFromNet parseFloatText fuel this elements'
     = CalculatorController._handleGoalSeekFromNet parseFloatText fuel this elements.
Proof.
  intros elements'.
  split; [apply getCurrentOptions_true|].
  unfold CalculatorController._handleCalculateFromSubtotal,
    CalculatorController._handleAlgebraicFromNet,
    CalculatorController._handleGoalSeekFromNet.
  rewrite (getCurrentOptions_true elements), (getCurrentOptions_true elements').
  repeat split; reflexivity.
Qed.

(** X17.  [_handleCalculateFromSubtotal] alerts [invalidSubtotal] and
    changes nothing exactly when the subtotal read from the page is not
    above zero, as when the input is missing or empty.  Otherwise the
    calculator's rates become the three rate inputs (0.16, 0.10 and
    0.6666666667 for a missing or empty one) whatever they were; with no
    alert the result on display is the breakdown of the subtotal at these
    rates with every line rounded, and an alert is the error of the
    calculation, an invalid input or number, with the result on display
    kept. *)
Theorem handleCalculateFromSubtotal_outcome (parseFloatText : string -> float)
    (this : CalculatorController.Controller) (elements : CalculatorController.Elements) :
  let value :=
    CalculatorController.readNumber parseFloatText
      (CalculatorController.subtotal elements) 0 in
  let rates :=
    {| vatRate :=
         CalculatorController.readNumber parseFloatText
           (CalculatorController.vatRate elements) 0.16;
       incomeTaxRate :=
         CalculatorController.readNumber parseFloatText
           (CalculatorController.incomeTaxRate elements) 0.10;
       vatRetentionFraction :=
         CalculatorController.readNumber parseFloatText
           (CalculatorController.vatRetentionFraction elements) 0.6666666667 |} in
  let after :=
    CalculatorController._handleCalculateFromSubtotal parseFloatText this elements in
  (after = (this, Some (CalculatorController.AlertText "invalidSubtotal"))
   <-> (0 <? value) = false)
  /\ (CalculatorController.subtotal elements = None
      \/ CalculatorController.subtotal elements = Some EmptyString ->
      after = (this, Some (CalculatorController.AlertText "invalidSubtotal")))
  /\ ((0 <? value) = true ->
      CalculatorController.calculator (fst after) = rates
      /\ (snd after = None ->
          CalculatorController.currentResult (fst after)
          = Some (breakdownOf rates value {| roundPerLine := true |}))
      /\ (forall alert, snd after = Some alert ->
          exists e,
            alert = CalculatorController.AlertError e
            /\ (kind e = InvalidInput \/ kind e = InvalidNumber)
            /\ CalculatorController.currentResult (fst after)
               = CalculatorController.currentResult this)).
Proof.
  intros value rates after.
  assert (Hinvalid : (0 <? value) = false ->
                     after = (this, Some (CalculatorController.AlertText "invalidSubtotal"))).
  { intros Hv. unfold after, CalculatorController._handleCalculateFromSubtotal.
    fold value. rewrite handler_test, Hv. reflexivity. }
  assert (Hvalid : (0 <? value) = true ->
            after
            = CalculatorController.displayOrAlert
                (CalculatorController._updateCalculatorRates parseFloatText this elements)
                (TaxCalculator.calculateFromSubtotal rates value {| roundPerLine := true |})).
  { intros Hv. unfold after, CalculatorController._handleCalculateFromSubtotal.
    fold value. rewrite handler_test, Hv, getCurrentOptions_true. reflexivity. }
  split; [split; [|exact Hinvalid]|split].
  - intros Hafter. destruct (0 <? value) eqn:Hv; [|reflexivity].
    rewrite (Hvalid eq_refl) in Hafter.
    destruct (displayOrAlert_cases
                (CalculatorController._updateCalculatorRates parseFloatText this elements)
                (TaxCalculator.calculateFromSubtotal rates value {| roundPerLine := true |}))
      as [(r & _ & E)|(e & _ & E)]; rewrite E in Hafter; discriminate Hafter.
  - intros Hmissing. apply Hinvalid.
    exact (readNumber_missing parseFloatText _ Hmissing).
  - intros Hv. rewrite (Hvalid Hv).
    destruct (displayOrAlert_cases
                (CalculatorController._updateCalculatorRates parseFloatText this elements)
                (TaxCalculator.calculateFromSubtotal rates value {| roundPerLine := true |}))
      as [(r & Hr & E)|(e & He & E)]; rewrite E; cbn [fst snd].
    + split; [reflexivity|]. split; [|discriminate].
      intros _. cbn [CalculatorController.currentResult].
      rewrite (calculateFromSubtotal_inv _ _ _ _ Hr). reflexivity.
    + split; [reflexivity|]. split; [discriminate|].
      intros alert Halert. injection Halert as <-. exists e.
      split; [reflexivity|].
      split; [exact (calculateFromSubtotal_throws_kind _ _ _ _ He)|reflexivity].
Qed.

Lemma handleCalculateFromSubtotal_outcome_witness :
  CalculatorController.currentResult
    (fst (CalculatorController._handleCalculateFromSubtotal (fun _ => 10000)
            {| CalculatorController.calculator := defaultRates;
               CalculatorController.currentResult := None |}
            {| CalculatorController.netAmount := None;
               CalculatorController.subtotal := Some "10000";
               CalculatorController.vatRate := None;
               CalculatorController.incomeTaxRate := None;
               CalculatorController.vatRetentionFraction := None;
               CalculatorController.useHighPrecision := Some false;
               CalculatorController.roundPerLine := Some false |}))
  = Some (breakdownOf defaultRates 10000 {| roundPerLine := true |}).
Proof.
  refine (proj1 (proj2 (proj2 (proj2 (handleCalculateFromSubtotal_outcome (fun _ => 10000)
            {| CalculatorController.calculator := defaultRates;
               CalculatorController.currentResult := None |}
            {| CalculatorController.netAmount := None;
               CalculatorController.subtotal := Some "10000";
               CalculatorController.vatRate := None;
               CalculatorController.incomeTaxRate := None;
               CalculatorController.vatRetentionFraction := None;
               CalculatorController.useHighPrecision := Some false;
               CalculatorController.roundPerLine := Some false |})) _)) _);
    vm_compute; reflexivity.
Defined.

(** The algebraic formula on an amount above zero throws only for a
    denominator too close to zero. *)
Lemma calculateSubtotalFromNetAlgebraic_cases this net :
  (0 <? net) = true ->
  ((JS.Math_abs (TaxCalculator.denominator this) <? 0.000001) = true
   /\ TaxCalculator.calculateSubtotalFromNetAlgebraic this net
      = Throw (Rethrown "Error in algebraic calculation" (I18n "denominatorTooSmall")))
  \/ ((JS.Math_abs (TaxCalculator.denominator this) <? 0.000001) = false
      /\ TaxCalculator.calculateSubtotalFromNetAlgebraic this net
         = Return (net / TaxCalculator.denominator this)).
Proof.
  intros Hn. unfold TaxCalculator.calculateSubtotalFromNetAlgebraic.
  rewrite (validatePositiveNumber_positive _ _ Hn). cbn [bind].
  destruct (JS.Math_abs (TaxCalculator.denominator this) <? 0.000001);
    cbn [try_rethrow]; [left|right]; split; reflexivity.
Qed.

(** X18.  [_handleAlgebraicFromNet] alerts [invalidNetAmount] and changes
    nothing exactly when the net amount read from the page is not above
    zero, as when the input is missing or empty.  Otherwise the calculator's
    rates become the three rate inputs; rates whose denominator is within
    0.000001 of zero are alerted as such; with no alert the result on
    display is the breakdown, with every line rounded and the method
    [fromSubtotal], of the unrounded subtotal [net / denominator]; and an
    alert keeps the result on display. *)
Theorem handleAlgebraicFromNet_outcome (parseFloatText : string -> float)
    (this : CalculatorController.Controller) (elements : CalculatorController.Elements) :
  let value :=
    CalculatorController.readNumber parseFloatText
      (CalculatorController.netAmount elements) 0 in
  let rates :=
    {| vatRate :=
         CalculatorController.readNumber parseFloatText
           (CalculatorController.vatRate elements) 0.16;
       incomeTaxRate :=
         CalculatorController.readNumber parseFloatText
           (CalculatorController.incomeTaxRate elements) 0.10;
       vatRetentionFraction :=
         CalculatorController.readNumber parseFloatText
           (CalculatorController.vatRetentionFraction elements) 0.6666666667 |} in
  let after :=
    CalculatorController._handleAlgebraicFromNet parseFloatText this elements in
  (after = (this, Some (CalculatorController.AlertText "invalidNetAmount"))
   <-> (0 <? value) = false)
  /\ (CalculatorController.netAmount elements = None
      \/ CalculatorController.netAmount elements = Some EmptyString ->
      after = (this, Some (CalculatorController.AlertText "invalidNetAmount")))
  /\ ((0 <? value) = true ->
      CalculatorController.calculator (fst after) = rates
      /\ ((JS.Math_abs (TaxCalculator.denominator rates) <? 0.000001) = true ->
          snd after
          = Some (CalculatorController.AlertError
                    (Rethrown "Error in algebraic calculation"
                       (I18n "denominatorTooSmall"))))
      /\ (snd after = None ->
          CalculatorController.currentResult (fst after)
          = Some (breakdownOf rates (value / TaxCalculator.denominator rates)
                    {| roundPerLine := true |}))
      /\ (forall alert, snd after = Some alert ->
          exists e,
            alert = CalculatorController.AlertError e
            /\ (kind e = InvalidInput \/ kind e = InvalidNumber
                \/ kind e = DegenerateRates)
            /\ CalculatorController.currentResult (fst after)
               = CalculatorController.currentResult this)).
Proof.
  intros value rates after.
  assert (Hinvalid : (0 <? value) = false ->
            after = (this, Some (CalculatorController.AlertText "invalidNetAmount"))).
  { intros Hv. unfold after, CalculatorController._handleAlgebraicFromNet.
    fold value. rewrite handler_test, Hv. reflexivity. }
  assert (Hvalid : (0 <? value) = true ->
            after
            = CalculatorController.displayOrAlert
                (CalculatorController._updateCalculatorRates parseFloatText this elements)
                (s <- TaxCalculator.calculateSubtotalFromNetAlgebraic rates value ;;
                 TaxCalculator.calculateFromSubtotal rates s {| roundPerLine := true |})).
  { intros Hv. unfold after, CalculatorController._handleAlgebraicFromNet.
    fold value. rewrite handler_test, Hv, getCurrentOptions_true. reflexivity. }
  split; [split; [|exact Hinvalid]|split].
  - intros Hafter. destruct (0 <? value) eqn:Hv; [|reflexivity].
    rewrite (Hvalid eq_refl) in Hafter.
    match type of Hafter with
    | CalculatorController.displayOrAlert ?c ?o = _ =>
        destruct (displayOrAlert_cases c o) as [(r & _ & E)|(e & _ & E)]
    end; rewrite E in Hafter; discriminate Hafter.
  - intros Hmissing. apply Hinvalid.
    exact (readNumber_missing parseFloatText _ Hmissing).
  - intros Hv. rewrite (Hvalid Hv).
    destruct (calculateSubtotalFromNetAlgebraic_cases rates value Hv)
      as [[Hd ->]|[Hd ->]]; cbn [bind CalculatorController.displayOrAlert fst snd].
    + split; [reflexivity|]. split; [reflexivity|]. split; [discriminate|].
      intros alert Halert. injection Halert as <-. eexists.
      split; [reflexivity|]. split; [right; right; reflexivity|reflexivity].
    + match goal with
      | |- context [CalculatorController.displayOrAlert ?c ?o] =>
          destruct (displayOrAlert_cases c o) as [(r & Hr & E)|(e & He & E)]
      end; rewrite E; cbn [fst snd].
      * split; [reflexivity|]. split; [rewrite Hd; discriminate|].
        split; [|discriminate].
        intros _. cbn [CalculatorController.currentResult].
        rewrite (calculateFromSubtotal_inv _ _ _ _ Hr). reflexivity.
      * split; [reflexivity|]. split; [rewrite Hd; discriminate|].
        split; [discriminate|].
        intros alert Halert. injection Halert as <-. exists e.
        split; [reflexivity|].
        split; [|reflexivity].
        destruct (calculateFromSubtotal_throws_kind _ _ _ _ He) as [K|K]; auto.
Qed.

Lemma handleAlgebraicFromNet_outcome_witness :
  CalculatorController.currentResult
    (fst (CalculatorController._handleAlgebraicFromNet (fun _ => 9280)
            {| CalculatorController.calculator := defaultRates;
               CalculatorController.currentResult := None |}
            {| CalculatorController.netAmount := Some "9280";
               CalculatorController.subtotal := None;
               CalculatorController.vatRate := None;
               CalculatorController.incomeTaxRate := None;
               CalculatorController.vatRetentionFraction := None;
               CalculatorController.useHighPrecision := None;
               CalculatorController.roundPerLine := None |}))
  = Some (breakdownOf defaultRates (9280 / TaxCalculator.denominator defaultRates)
            {| roundPerLine := true |}).
Proof.
  refine (proj1 (proj2 (proj2 (proj2 (proj2 (handleAlgebraicFromNet_outcome (fun _ => 9280)
            {| CalculatorController.calculator := defaultRates;
               CalculatorController.currentResult := None |}
            {| CalculatorController.netAmount := Some "9280";
               CalculatorController.subtotal := None;
               CalculatorController.vatRate := None;
               CalculatorController.incomeTaxRate := None;
               CalculatorController.vatRetentionFraction := None;
               CalculatorController.useHighPrecision := None;
               CalculatorController.roundPerLine := None |})) _))) _);
    vm_compute; reflexivity.
Defined.

(** X19.  [_handleGoalSeekFromNet] always comes to an end.  It alerts
    [invalidNetAmount] and changes nothing exactly when the net amount read
    from the page is not above zero; otherwise the calculator's rates become
    the three rate inputs, and with no alert the result on display has the
    method [goalSeek] and is, but for the method, what
    [calculateFromSubtotal] returns for its subtotal at these rates with
    every line rounded; an alert is the error of Goal Seek and keeps the
    result on display. *)
Theorem handleGoalSeekFromNet_outcome (parseFloatText : string -> float) (fuel : nat)
    (this : CalculatorController.Controller) (elements : CalculatorController.Elements) :
  (80 < fuel)%nat ->
  let value :=
    CalculatorController.readNumber parseFloatText
      (CalculatorController.netAmount elements) 0 in
  let rates :=
    {| vatRate :=
         CalculatorController.readNumber parseFloatText
           (CalculatorController.vatRate elements) 0.16;
       incomeTaxRate :=
         CalculatorController.readNumber parseFloatText
           (CalculatorController.incomeTaxRate elements) 0.10;
       vatRetentionFraction :=
         CalculatorController.readNumber parseFloatText
           (CalculatorController.vatRetentionFraction elements) 0.6666666667 |} in
  exists after,
    CalculatorController._handleGoalSeekFromNet parseFloatText fuel this elements
    = Some after
    /\ (after = (this, Some (CalculatorController.AlertText "invalidNetAmount"))
        <-> (0 <? value) = false)
    /\ ((0 <? value) = true ->
        CalculatorController.calculator (fst after) = rates
        /\ (snd after = None ->
            exists r,
              CalculatorController.currentResult (fst after) = Some r
              /\ TaxCalculator.goalSeekSubtotal rates value {| roundPerLine := true |} fuel
                 = Some (Return r)
              /\ calculationMethod r = goalSeek
              /\ TaxCalculator.calculateFromSubtotal rates (subtotal r)
                   {| roundPerLine := true |}
                 = Return (set_calculationMethod fromSubtotal r))
        /\ (forall alert, snd after = Some alert ->
            exists e,
              alert = CalculatorController.AlertError e
              /\ TaxCalculator.goalSeekSubtotal rates value {| roundPerLine := true |} fuel
                 = Some (Throw e)
              /\ CalculatorController.currentResult (fst after)
                 = CalculatorController.currentResult this)).
Proof.
  intros Hfuel value rates.
  unfold CalculatorController._handleGoalSeekFromNet. fold value.
  rewrite handler_test, getCurrentOptions_true.
  destruct (0 <? value) eqn:Hv; cbn [negb].
  - change (CalculatorController.calculator
              (CalculatorController._updateCalculatorRates parseFloatText this elements))
      with rates.
    change (CalculatorController.engineOptions _) with {| roundPerLine := true |}.
    destruct (goalSeekRun_enough_fuel rates value {| roundPerLine := true |} fuel Hfuel)
      as [run Hrun].
    unfold TaxCalculator.goalSeekSubtotal. rewrite Hrun. cbn [option_map].
    eexists. split; [reflexivity|].
    destruct (displayOrAlert_cases
                (CalculatorController._updateCalculatorRates parseFloatText this elements)
                (TaxCalculator.outcome run)) as [(r & Hr & E)|(e & He & E)]; rewrite E.
    + split; [split; [discriminate|discriminate]|]. intros _. cbn [fst snd].
      split; [reflexivity|]. split; [|discriminate].
      intros _. exists r. split; [reflexivity|].
      assert (Hg : TaxCalculator.goalSeekSubtotal rates value {| roundPerLine := true |} fuel
                   = Some (Return r))
        by (unfold TaxCalculator.goalSeekSubtotal; rewrite Hrun, <- Hr; reflexivity).
      split; [rewrite <- Hr; reflexivity|].
      exact (goalSeekSubtotal_returned _ _ _ _ _ Hg).
    + split; [split; [discriminate|discriminate]|]. intros _. cbn [fst snd].
      split; [reflexivity|]. split; [discriminate|].
      intros alert Halert. injection Halert as <-. exists e.
      split; [reflexivity|]. split; [rewrite <- He; reflexivity|reflexivity].
  - eexists. split; [reflexivity|].
    split; [split; reflexivity|discriminate].
Qed.

Lemma handleGoalSeekFromNet_outcome_witness :
  exists after,
    CalculatorController._handleGoalSeekFromNet (fun _ => 9280) 81
      {| CalculatorController.calculator := defaultRates;
         CalculatorController.currentResult := None |}
      {| CalculatorController.netAmount := Some "9280";
         CalculatorController.subtotal := None;
         CalculatorController.vatRate := None;
         CalculatorController.incomeTaxRate := None;
         CalculatorController.vatRetentionFraction := None;
         CalculatorController.useHighPrecision := None;
         CalculatorController.roundPerLine := None |}
    = Some after.
Proof.
  destruct (handleGoalSeekFromNet_outcome (fun _ => 9280) 81
      {| CalculatorController.calculator := defaultRates;
         CalculatorController.currentResult := None |}
      {| CalculatorController.netAmount := Some "9280";
         CalculatorController.subtotal := None;
         CalculatorController.vatRate := None;
         CalculatorController.incomeTaxRate := None;
         CalculatorController.vatRetentionFraction := None;
         CalculatorController.useHighPrecision := None;
         CalculatorController.roundPerLine := None |}) as (after & H & _).
  - lia.
  - exists after. exact H.
Defined.

(** * The error of the binary64 operations

    Proved from the specification of the operations in [SpecFloat]; the
    bounds are not the sharpest, two units in the last place where one half
    would do, but they hold for every double. *)

Section Pow2.
Local Open Scope R_scope.

Lemma pow2_pos e : 0 < pow2 e.
Proof. apply powerRZ_lt. lra. Qed.

Lemma pow2_add a b : pow2 (a + b) = pow2 a * pow2 b.
Proof. apply powerRZ_add. lra. Qed.

Lemma pow2_0 : pow2 0 = 1.
Proof. reflexivity. Qed.

Lemma pow2_1 : pow2 1 = 2.
Proof. exact (powerRZ_1 2). Qed.

Lemma pow2_succ e : pow2 (e + 1) = 2 * pow2 e.
Proof. rewrite pow2_add, pow2_1. lra. Qed.

Lemma pow2_IZR n : (0 <= n)%Z -> pow2 n = IZR (2 ^ n).
Proof.
  intros Hn. destruct n as [|p|p]; [reflexivity| |lia].
  unfold pow2. change (2 ^ Zpos p)%Z with (Z.pow_pos 2 p).
  rewrite Zpower_pos_powerRZ. reflexivity.
Qed.

Lemma pow2_ge_1 n : (0 <= n)%Z -> 1 <= pow2 n.
Proof.
  intros Hn. rewrite (pow2_IZR n Hn). apply IZR_le.
  assert (0 < 2 ^ n)%Z by (apply Z.pow_pos_nonneg; lia). lia.
Qed.

Lemma pow2_le a b : (a <= b)%Z -> pow2 a <= pow2 b.
Proof.
  intros H. replace b with (a + (b - a))%Z by lia. rewrite pow2_add.
  pose proof (pow2_pos a). pose proof (pow2_ge_1 (b - a) ltac:(lia)). nra.
Qed.

Lemma pow2_lt a b : (a < b)%Z -> pow2 a < pow2 b.
Proof.
  intros H. pose proof (pow2_le (a + 1) b ltac:(lia)) as H1.
  rewrite pow2_succ in H1. pose proof (pow2_pos a). lra.
Qed.

Lemma pow2_neg e : pow2 (- e) = / pow2 e.
Proof. apply powerRZ_neg'. Qed.

End Pow2.

Section RoundCore.
Local Open Scope Z_scope.

Lemma shr_1_m mrs : 0 <= shr_m mrs -> shr_m (shr_1 mrs) = shr_m mrs / 2.
Proof.
  destruct mrs as [m r s]; destruct m as [|p|p]; cbn [shr_1 shr_m]; try lia.
  - reflexivity.
  - intros _. destruct p as [p|p|]; cbn [shr_m].
    + rewrite Pos2Z.inj_xI. apply (Z.div_unique _ 2 _ 1); lia.
    + rewrite Pos2Z.inj_xO. apply (Z.div_unique _ 2 _ 0); lia.
    + reflexivity.
Qed.

Lemma div_pow2_nonneg m n : 0 <= m -> 0 <= m / 2 ^ n.
Proof.
  intros Hm. destruct (Z.le_gt_cases 0 n) as [Hn|Hn].
  - apply Z.div_pos; [exact Hm|]. apply Z.pow_pos_nonneg; lia.
  - rewrite Z.pow_neg_r by lia. rewrite Z.div_0_r. lia.
Qed.

Lemma pow2_xO p : 2 ^ Zpos p~0 = 2 ^ Zpos p * 2 ^ Zpos p.
Proof. rewrite <- Z.pow_add_r by lia. f_equal. lia. Qed.

Lemma pow2_xI p : 2 ^ Zpos p~1 = 2 * (2 ^ Zpos p * 2 ^ Zpos p).
Proof.
  rewrite <- Z.pow_add_r by lia.
  replace (Zpos p~1) with (Z.succ (Zpos p + Zpos p)) by lia.
  rewrite Z.pow_succ_r by lia. reflexivity.
Qed.

Lemma iter_shr_1_m p : forall mrs,
  0 <= shr_m mrs -> shr_m (iter_pos shr_1 p mrs) = shr_m mrs / 2 ^ Zpos p.
Proof.
  assert (Hpow : forall q, 0 < 2 ^ Zpos q) by (intros q; apply Z.pow_pos_nonneg; lia).
  induction p as [p IH|p IH|]; intros mrs Hm; cbn [iter_pos].
  - pose proof (shr_1_nonneg mrs Hm) as H1.
    assert (H2 : 0 <= shr_m (iter_pos shr_1 p (shr_1 mrs)))
      by (rewrite IH by exact H1; apply div_pow2_nonneg; exact H1).
    rewrite (IH _ H2), (IH _ H1), (shr_1_m _ Hm).
    rewrite !Z.div_div by (pose proof (Hpow p); lia).
    rewrite pow2_xI. reflexivity.
  - assert (H2 : 0 <= shr_m (iter_pos shr_1 p mrs))
      by (rewrite IH by exact Hm; apply div_pow2_nonneg; exact Hm).
    rewrite (IH _ H2), (IH _ Hm).
    rewrite Z.div_div by (pose proof (Hpow p); lia).
    rewrite pow2_xO. reflexivity.
  - rewrite shr_1_m by exact Hm. reflexivity.
Qed.

Lemma shr_record_of_loc_m m l : shr_m (shr_record_of_loc m l) = m.
Proof. destruct l as [|[ | | ]]; reflexivity. Qed.

Lemma loc_of_shr_record_of_loc m l : loc_of_shr_record (shr_record_of_loc m l) = l.
Proof. destruct l as [|[ | | ]]; reflexivity. Qed.

(** What [shr_fexp] computes: the mantissa shifted right by the number of
    digits in excess, and the exponent raised as much. *)
Lemma shr_fexp_m m e l :
  0 <= m ->
  shr_m (fst (shr_fexp prec emax m e l))
  = m / 2 ^ Z.max 0 (fexp prec emax (Zdigits2 m + e) - e)
  /\ snd (shr_fexp prec emax m e l) = e + Z.max 0 (fexp prec emax (Zdigits2 m + e) - e).
Proof.
  intros Hm. unfold shr_fexp, shr.
  destruct (fexp prec emax (Zdigits2 m + e) - e) as [|p|p]; cbn [fst snd].
  - rewrite shr_record_of_loc_m. change (Z.max 0 0) with 0.
    rewrite Z.div_1_r. lia.
  - rewrite iter_shr_1_m by (rewrite shr_record_of_loc_m; exact Hm).
    rewrite shr_record_of_loc_m. rewrite Z.max_r by lia. lia.
  - rewrite shr_record_of_loc_m. rewrite Z.max_l by lia.
    rewrite Z.div_1_r. lia.
Qed.

Lemma round_nearest_even_range m l : m <= round_nearest_even m l <= m + 1.
Proof.
  destruct l as [|[ | | ]]; cbn; try lia. destruct (Z.even m); lia.
Qed.

Lemma Zdigits2_bounds m :
  1 <= m -> 1 <= Zdigits2 m /\ 2 ^ (Zdigits2 m - 1) <= m < 2 ^ Zdigits2 m.
Proof.
  destruct m as [|p|p]; try lia. intros _. cbn [Zdigits2].
  split; [lia|]. split; [apply digits2_pos_lower|apply digits2_pos_upper].
Qed.

End RoundCore.

Section RoundError.
Local Open Scope R_scope.

Lemma shift_interval m n e x :
  (0 <= m)%Z -> (0 <= n)%Z ->
  IZR m * pow2 e <= x < (IZR m + 1) * pow2 e ->
  IZR (m / 2 ^ n) * pow2 (e + n) <= x < (IZR (m / 2 ^ n) + 1) * pow2 (e + n).
Proof.
  intros Hm Hn [Hl Hu].
  assert (Hp : (0 < 2 ^ n)%Z) by (apply Z.pow_pos_nonneg; lia).
  pose proof (Z.mul_div_le m (2 ^ n) Hp) as H1.
  pose proof (Z.mul_succ_div_gt m (2 ^ n) Hp) as H2.
  assert (H1' : IZR (m / 2 ^ n) * IZR (2 ^ n) <= IZR m).
  { rewrite <- mult_IZR. apply IZR_le. lia. }
  assert (H2' : IZR m + 1 <= (IZR (m / 2 ^ n) + 1) * IZR (2 ^ n)).
  { rewrite <- !plus_IZR, <- mult_IZR. apply IZR_le. lia. }
  rewrite pow2_add, (pow2_IZR n Hn).
  pose proof (pow2_pos e) as He.
  split; nra.
Qed.

End RoundError.

Section RoundingError.
Local Open Scope R_scope.

Lemma fexp_cases d : (fexp prec emax d = d - 53 /\ emin <= d - 53
                      \/ fexp prec emax d = emin /\ d - 53 <= emin)%Z.
Proof. unfold fexp, SpecFloat.emin. change prec with 53%Z. lia. Qed.

(** The error of rounding: [binary_round_aux] applied to a mantissa [m] and
    an exponent [e] that locate the real [x] returns a number at most two
    units in its last place away from [x]; it returns a zero only for an [x]
    below the smallest positive numbers. *)
Lemma binary_round_aux_error sx m e l x :
  (0 <= m)%Z -> (1 <= m \/ e <= emin)%Z ->
  IZR m * pow2 e <= x < (IZR m + 1) * pow2 e ->
  match binary_round_aux prec emax sx m e l with
  | S754_zero s' => s' = sx /\ x < pow2 (emin + 1)
  | S754_finite s' mz ez =>
      s' = sx /\ Rabs (IZR (Zpos mz) * pow2 ez - x) <= 2 * pow2 ez
  | S754_infinity s' => s' = sx
  | S754_nan => False
  end.
Proof.
  intros Hm Hme Hx. unfold binary_round_aux.
  destruct (shr_fexp_m m e l Hm) as [E1 E2].
  destruct (shr_fexp prec emax m e l) as [mrs' e']. cbn [fst snd] in E1, E2.
  set (n := Z.max 0 (fexp prec emax (Zdigits2 m + e) - e)) in *.
  assert (Hn : (0 <= n)%Z) by (unfold n; lia).
  pose proof (shift_interval m n e x Hm Hn Hx) as Hx'.
  rewrite <- E1, <- E2 in Hx'.
  assert (Hm' : (0 <= shr_m mrs')%Z) by (rewrite E1; apply div_pow2_nonneg; exact Hm).
  pose proof (round_nearest_even_range (shr_m mrs') (loc_of_shr_record mrs')) as Hr.
  set (m2 := round_nearest_even (shr_m mrs') (loc_of_shr_record mrs')) in *.
  assert (Hm2 : (0 <= m2)%Z) by lia.
  destruct (shr_fexp_m m2 e' loc_Exact Hm2) as [E3 E4].
  destruct (shr_fexp prec emax m2 e' loc_Exact) as [mrs'' e'']. cbn [fst snd] in E3, E4.
  set (n2 := Z.max 0 (fexp prec emax (Zdigits2 m2 + e') - e')) in *.
  assert (Hn2 : (0 <= n2)%Z) by (unfold n2; lia).
  assert (Hx2 : IZR m2 * pow2 e' <= IZR m2 * pow2 e' < (IZR m2 + 1) * pow2 e').
  { pose proof (pow2_pos e'). split; nra. }
  pose proof (shift_interval m2 n2 e' _ Hm2 Hn2 Hx2) as Hx3.
  rewrite <- E3, <- E4 in Hx3.
  assert (Hm3 : (0 <= shr_m mrs'')%Z) by (rewrite E3; apply div_pow2_nonneg; exact Hm2).
  assert (Hee : pow2 e' <= pow2 e'') by (apply pow2_le; lia).
  assert (Hr1 : IZR (shr_m mrs') <= IZR m2 <= IZR (shr_m mrs') + 1).
  { split; [apply IZR_le; lia|]. rewrite <- plus_IZR. apply IZR_le. lia. }
  pose proof (pow2_pos e') as Pe'. pose proof (pow2_pos e'') as Pe''.
  destruct (shr_m mrs'') as [|mz|mz] eqn:E5; [| |lia].
  - (* a zero *)
    split; [reflexivity|].
    assert (Hlt : m2 = 0%Z \/ (1 <= m2 /\ m2 < 2 ^ n2)%Z).
    { destruct (Z.eq_dec m2 0) as [?|Hne]; [left; assumption|right].
      split; [lia|].
      assert (Hp : (0 < 2 ^ n2)%Z) by (apply Z.pow_pos_nonneg; lia).
      symmetry in E3. apply Z.div_small_iff in E3; lia. }
    destruct Hlt as [H0|[H1 H2]].
    + (* nothing is left of the mantissa after the first shift *)
      assert (H0' : shr_m mrs' = 0%Z) by lia.
      assert (He' : (e' <= emin)%Z).
      { rewrite E1 in H0'.
        assert (Hp : (0 < 2 ^ n)%Z) by (apply Z.pow_pos_nonneg; lia).
        apply Z.div_small_iff in H0'; [|lia].
        destruct H0' as [H0'|H0']; [|lia].
        destruct (Z.eq_dec m 0) as [->|Hne].
        - cbn [Zdigits2] in n. destruct Hme as [?|Hme]; [lia|].
          destruct (fexp_cases (0 + e)) as [[F ?]|[F ?]]; unfold n in E2; rewrite F in E2; lia.
        - pose proof (Zdigits2_bounds m ltac:(lia)) as (Hd1 & Hd & _).
          assert (Hdn : (Zdigits2 m - 1 < n)%Z).
          { apply (Z.pow_lt_mono_r_iff 2); lia. }
          destruct (fexp_cases (Zdigits2 m + e)) as [[F ?]|[F ?]];
            unfold n in Hdn, E2; rewrite F in Hdn, E2; lia. }
      rewrite H0' in Hx'.
      pose proof (pow2_le e' (emin + 1) ltac:(lia)). lra.
    + (* the mantissa is shifted out after rounding *)
      pose proof (Zdigits2_bounds m2 H1) as (Hd1 & Hd & _).
      assert (Hdn : (Zdigits2 m2 - 1 < n2)%Z).
      { apply (Z.pow_lt_mono_r_iff 2); lia. }
      assert (He'' : (e'' = emin)%Z).
      { destruct (fexp_cases (Zdigits2 m2 + e')) as [[F ?]|[F ?]];
          unfold n2 in Hdn, E4; rewrite F in Hdn, E4; lia. }
      assert (H3 : IZR m2 + 1 <= IZR (2 ^ n2)).
      { rewrite <- plus_IZR. apply IZR_le. lia. }
      assert (H4 : pow2 e'' = pow2 e' * IZR (2 ^ n2)).
      { rewrite E4, pow2_add, (pow2_IZR n2 Hn2). reflexivity. }
      pose proof (pow2_lt emin (emin + 1) ltac:(lia)) as H5. rewrite <- He'' in H5.
      rewrite <- He''. nra.
  - (* a number *)
    destruct (e'' <=? emax - prec)%Z; [|reflexivity].
    split; [reflexivity|].
    assert (Hd : Rabs (IZR (Zpos mz) * pow2 e'' - IZR m2 * pow2 e') <= pow2 e'').
    { apply Rabs_le. lra. }
    assert (Hd2 : Rabs (IZR m2 * pow2 e' - x) <= pow2 e').
    { apply Rabs_le. nra. }
    replace (IZR (Zpos mz) * pow2 e'' - x)
      with ((IZR (Zpos mz) * pow2 e'' - IZR m2 * pow2 e') + (IZR m2 * pow2 e' - x)) by ring.
    eapply Rle_trans; [apply Rabs_triang|]. lra.
Qed.

End RoundingError.

Section OpError.
Local Open Scope R_scope.

Lemma is_finite_SFfinite x : is_finite x = SFfinite (Prim2SF x).
Proof.
  unfold is_finite, is_infinity.
  rewrite is_nan_spec, FloatAxioms.eqb_spec, FloatAxioms.abs_spec.
  change (Prim2SF infinity) with (S754_infinity false).
  destruct (Prim2SF x) as [s|s| |s m e]; reflexivity.
Qed.

Lemma near_refl x : near x x.
Proof.
  unfold near. replace (x - x) with 0 by ring. rewrite Rabs_R0.
  pose proof (pow2_pos (-51)). pose proof (pow2_pos (-1073)).
  pose proof (Rabs_pos x). nra.
Qed.

(** Two units in the last place of a valid number, relative to it. *)
Lemma ulp_bound s m e :
  valid_binary (S754_finite s m e) = true ->
  2 * pow2 e <= pow2 (-51) * (IZR (Zpos m) * pow2 e) + pow2 (-1073).
Proof.
  cbn [valid_binary]. unfold bounded. intros V.
  apply andb_prop in V. destruct V as [C _].
  apply canonical_digits in C. destruct C as (Hd & He & Hn).
  pose proof (pow2_pos e) as Pe. pose proof (pow2_pos (-51)) as Pu.
  pose proof (pow2_pos (-1073)) as Pn.
  destruct (Z.eq_dec e emin) as [->|Hne].
  - change (emin) with (-1074)%Z in *.
    replace (-1073)%Z with (-1074 + 1)%Z by reflexivity. rewrite pow2_succ.
    assert (H0 : 0 <= IZR (Zpos m)) by (apply IZR_le; lia).
    assert (0 <= pow2 (-51) * (IZR (Zpos m) * pow2 (-1074)))
      by (apply Rmult_le_pos; [lra|apply Rmult_le_pos; lra]).
    lra.
  - assert (Hm : Zpos (digits2_pos m) = prec) by (apply Hn; lia).
    pose proof (digits2_pos_lower m) as Hl. rewrite Hm in Hl.
    change (2 ^ (prec - 1))%Z with (2 ^ 52)%Z in Hl.
    apply IZR_le in Hl. rewrite <- (pow2_IZR 52) in Hl by lia.
    assert (H2 : pow2 (-51) * pow2 52 = 2).
    { rewrite <- pow2_add. exact pow2_1. }
    rewrite <- H2.
    assert (pow2 (-51) * pow2 52 * pow2 e <= pow2 (-51) * (IZR (Zpos m) * pow2 e)).
    { rewrite Rmult_assoc. apply Rmult_le_compat_l; [lra|].
      apply Rmult_le_compat_r; lra. }
    lra.
Qed.

(** The value of a rounded number, with its sign. *)
Lemma binary_round_aux_near sx m e l x :
  (0 <= m)%Z -> (1 <= m \/ e <= emin)%Z ->
  IZR m * pow2 e <= x < (IZR m + 1) * pow2 e ->
  valid_binary (binary_round_aux prec emax sx m e l) = true ->
  SFfinite (binary_round_aux prec emax sx m e l) = true ->
  near (SF2R (binary_round_aux prec emax sx m e l)) (if sx then - x else x).
Proof.
  intros Hm Hme Hx V F.
  pose proof (binary_round_aux_error sx m e l x Hm Hme Hx) as H.
  assert (Hx0 : 0 <= x).
  { pose proof (pow2_pos e). assert (0 <= IZR m) by (apply IZR_le; lia). nra. }
  pose proof (pow2_pos (-51)) as Pu. pose proof (pow2_pos (-1073)) as Pn.
  destruct (binary_round_aux prec emax sx m e l) as [s'|s'| |s' mz ez];
    try discriminate F.
  - destruct H as [_ H]. unfold near. cbn [SF2R].
    replace (emin + 1)%Z with (-1073)%Z in H by reflexivity.
    rewrite Rabs_R0.
    replace (0 - (if sx then - x else x)) with (if sx then x else - x)
      by (destruct sx; ring).
    destruct sx; [rewrite Rabs_right by lra|rewrite Rabs_left1 by lra]; lra.
  - destruct H as [-> H]. pose proof (ulp_bound sx mz ez V) as Hu.
    assert (Hz : 0 < IZR (Zpos mz) * pow2 ez).
    { pose proof (pow2_pos ez). assert (0 < IZR (Zpos mz)) by (apply IZR_lt; lia). nra. }
    unfold near. cbn [SF2R].
    destruct sx; cbn [cond_Zopp].
    + rewrite Pos2Z.opp_pos. change (Zneg mz) with (- Zpos mz)%Z. rewrite opp_IZR.
      replace (- IZR (Zpos mz) * pow2 ez - - x) with (- (IZR (Zpos mz) * pow2 ez - x)) by ring.
      rewrite Rabs_Ropp.
      replace (- IZR (Zpos mz) * pow2 ez) with (- (IZR (Zpos mz) * pow2 ez)) by ring.
      rewrite Rabs_Ropp, (Rabs_right (IZR (Zpos mz) * pow2 ez)) by lra. lra.
    + rewrite (Rabs_right (IZR (Zpos mz) * pow2 ez)) by lra. lra.
Qed.

End OpError.

Section OpSpecs.
Local Open Scope R_scope.

Lemma SF2R_finite s m e :
  SF2R (S754_finite s m e) = (if s then - 1 else 1) * (IZR (Zpos m) * pow2 e).
Proof.
  cbn [SF2R].
  destruct s; cbn [cond_Zopp].
  - change (- Zpos m)%Z with (Zneg m). change (Zneg m) with (- Zpos m)%Z.
    rewrite opp_IZR. ring.
  - ring.
Qed.

Lemma shl_align_value m e e' :
  IZR (Zpos (fst (shl_align m e e'))) * pow2 (snd (shl_align m e e'))
  = IZR (Zpos m) * pow2 e.
Proof.
  unfold shl_align. destruct (e' - e)%Z as [|d|d] eqn:E; cbn [fst snd]; try reflexivity.
  rewrite iter_xO_pow, mult_IZR, <- (pow2_IZR (Zpos d)) by lia.
  rewrite Rmult_assoc, <- pow2_add. f_equal. f_equal. lia.
Qed.

Lemma shl_align_snd m e e' : (e' <= e)%Z -> snd (shl_align m e e') = e'.
Proof.
  intros H. unfold shl_align. destruct (e' - e)%Z as [|d|d] eqn:E; cbn [snd]; lia.
Qed.

(** The value of a normalized integer multiple of a power of two. *)
Lemma binary_normalize_near M e :
  valid_binary (binary_normalize prec emax M e false) = true ->
  SFfinite (binary_normalize prec emax M e false) = true ->
  near (SF2R (binary_normalize prec emax M e false)) (IZR M * pow2 e).
Proof.
  destruct M as [|p|p]; cbn [binary_normalize].
  - intros _ _. cbn [SF2R]. rewrite Rmult_0_l. apply near_refl.
  - unfold binary_round.
    pose proof (shl_align_value p e (fexp prec emax (Zpos (digits2_pos p) + e))) as Hv.
    destruct (shl_align p e _) as [mz ez]. cbn [fst snd] in Hv.
    intros V F. rewrite <- Hv.
    refine (binary_round_aux_near false (Zpos mz) ez loc_Exact _ _ _ _ V F); [lia|lia|].
    pose proof (pow2_pos ez). split; nra.
  - unfold binary_round.
    pose proof (shl_align_value p e (fexp prec emax (Zpos (digits2_pos p) + e))) as Hv.
    destruct (shl_align p e _) as [mz ez]. cbn [fst snd] in Hv.
    intros V F.
    replace (IZR (Zneg p) * pow2 e) with (- (IZR (Zpos mz) * pow2 ez)).
    + refine (binary_round_aux_near true (Zpos mz) ez loc_Exact _ _ _ _ V F); [lia|lia|].
      pose proof (pow2_pos ez). split; nra.
    + rewrite Hv. change (Zneg p) with (- Zpos p)%Z. rewrite opp_IZR. ring.
Qed.

(** Multiplication. *)
Lemma mul_near a b :
  is_finite (a * b) = true ->
  is_finite a = true /\ is_finite b = true /\ near (F2R (a * b)) (F2R a * F2R b).
Proof.
  rewrite !is_finite_SFfinite. unfold F2R.
  pose proof (Prim2SF_valid (a * b)) as V. revert V.
  rewrite FloatAxioms.mul_spec. unfold SF64mul, SFmul.
  destruct (Prim2SF a) as [sa|sa| |sa ma ea], (Prim2SF b) as [sb|sb| |sb mb eb];
    try discriminate; intros V F; (split; [reflexivity|]); (split; [reflexivity|]);
    try (cbn [SF2R]; rewrite ?Rmult_0_l, ?Rmult_0_r; apply near_refl).
  rewrite !SF2R_finite.
  replace ((if sa then - 1 else 1) * (IZR (Zpos ma) * pow2 ea)
           * ((if sb then - 1 else 1) * (IZR (Zpos mb) * pow2 eb)))
    with (if xorb sa sb then - (IZR (Zpos (ma * mb)) * pow2 (ea + eb))
          else IZR (Zpos (ma * mb)) * pow2 (ea + eb))
    by (rewrite Pos2Z.inj_mul, mult_IZR, pow2_add; destruct sa, sb; cbn [xorb]; ring).
  refine (binary_round_aux_near _ _ _ loc_Exact _ _ _ _ V F); [lia|lia|].
  pose proof (pow2_pos (ea + eb)). split; nra.
Qed.


Lemma aligned_sum sa ma ea sb mb eb (op : Z -> Z -> Z) (rop : R -> R -> R) :
  (forall x y, IZR (op x y) = rop (IZR x) (IZR y)) ->
  (forall x y z, rop x y * z = rop (x * z) (y * z)) ->
  IZR (op (cond_Zopp sa (Zpos (fst (shl_align ma ea (Z.min ea eb)))))
          (cond_Zopp sb (Zpos (fst (shl_align mb eb (Z.min ea eb))))))
  * pow2 (Z.min ea eb)
  = rop (SF2R (S754_finite sa ma ea)) (SF2R (S754_finite sb mb eb)).
Proof.
  intros Hop Hdist. rewrite Hop, Hdist. cbn [SF2R].
  pose proof (shl_align_value ma ea (Z.min ea eb)) as Ha.
  pose proof (shl_align_value mb eb (Z.min ea eb)) as Hb.
  rewrite shl_align_snd in Ha, Hb by lia.
  f_equal.
  - destruct sa; cbn [cond_Zopp]; [|exact Ha].
    rewrite !opp_IZR. lra.
  - destruct sb; cbn [cond_Zopp]; [|exact Hb].
    rewrite !opp_IZR. lra.
Qed.

(** Addition. *)
Lemma add_near a b :
  is_finite (a + b) = true ->
  is_finite a = true /\ is_finite b = true /\ near (F2R (a + b)) (F2R a + F2R b).
Proof.
  rewrite !is_finite_SFfinite. unfold F2R.
  pose proof (Prim2SF_valid (a + b)) as V. revert V.
  rewrite FloatAxioms.add_spec. unfold SF64add, SFadd.
  destruct (Prim2SF a) as [sa|sa| |sa ma ea], (Prim2SF b) as [sb|sb| |sb mb eb];
    try discriminate; try (destruct sa, sb; discriminate);
    intros V F; (split; [reflexivity|]); (split; [reflexivity|]).
  - destruct sa, sb; cbn [SF2R]; rewrite Rplus_0_l; apply near_refl.
  - cbn [SF2R]. rewrite Rplus_0_l. apply near_refl.
  - cbn [SF2R]. rewrite Rplus_0_r. apply near_refl.
  - rewrite <- (aligned_sum sa ma ea sb mb eb Z.add Rplus plus_IZR)
      by (intros; ring).
    exact (binary_normalize_near _ _ V F).
Qed.

(** Subtraction. *)
Lemma sub_near a b :
  is_finite (a - b) = true ->
  is_finite a = true /\ is_finite b = true /\ near (F2R (a - b)) (F2R a - F2R b).
Proof.
  rewrite !is_finite_SFfinite. unfold F2R.
  pose proof (Prim2SF_valid (a - b)) as V. revert V.
  rewrite FloatAxioms.sub_spec. unfold SF64sub, SFsub.
  destruct (Prim2SF a) as [sa|sa| |sa ma ea], (Prim2SF b) as [sb|sb| |sb mb eb];
    try discriminate; try (destruct sa, sb; discriminate);
    intros V F; (split; [reflexivity|]); (split; [reflexivity|]).
  - destruct sa, sb; cbn [SF2R]; rewrite Rminus_0_r; apply near_refl.
  - rewrite !SF2R_finite. cbn [SF2R]. rewrite Rminus_0_l.
    replace (- ((if sb then - 1 else 1) * (IZR (Zpos mb) * pow2 eb)))
      with ((if negb sb then - 1 else 1) * (IZR (Zpos mb) * pow2 eb))
      by (destruct sb; cbn [negb]; ring).
    apply near_refl.
  - cbn [SF2R]. rewrite Rminus_0_r. apply near_refl.
  - rewrite <- (aligned_sum sa ma ea sb mb eb Z.sub Rminus minus_IZR)
      by (intros; ring).
    exact (binary_normalize_near _ _ V F).
Qed.

(** The quotient and the exponent the division starts from locate the real
    quotient. *)
Lemma SFdiv_core_binary_spec ma ea mb eb :
  let '(q, e', l) := SFdiv_core_binary prec emax (Zpos ma) ea (Zpos mb) eb in
  (0 <= q)%Z /\ (1 <= q \/ e' <= emin)%Z
  /\ IZR q * pow2 e' <= (IZR (Zpos ma) * pow2 ea) / (IZR (Zpos mb) * pow2 eb)
     < (IZR q + 1) * pow2 e'.
Proof.
  unfold SFdiv_core_binary. cbn [Zdigits2].
  set (d1 := Zpos (digits2_pos ma)). set (d2 := Zpos (digits2_pos mb)).
  set (e' := Z.min (fexp prec emax (d1 + ea - (d2 + eb))) (ea - eb)).
  set (s := (ea - eb - e')%Z).
  assert (Hs : (0 <= s)%Z) by (unfold s, e'; lia).
  set (m' := match s with Zpos _ => Z.shiftl (Zpos ma) s | Z0 => Zpos ma | Zneg _ => 0%Z end).
  assert (Hm' : m' = (Zpos ma * 2 ^ s)%Z).
  { unfold m'. destruct s as [|p|p] eqn:Es; [lia| |lia].
    rewrite Z.shiftl_mul_pow2 by lia. reflexivity. }
  pose proof (Z_div_mod m' (Zpos mb) ltac:(lia)) as Hdiv.
  destruct (Z.div_eucl m' (Zpos mb)) as [q r].
  destruct Hdiv as [Hq Hr].
  assert (Hp : (0 < 2 ^ s)%Z) by (apply Z.pow_pos_nonneg; lia).
  assert (Hq0 : (0 <= q)%Z) by nia.
  split; [exact Hq0|]. split.
  - destruct (Z_le_gt_dec e' emin) as [He|He]; [right; exact He|left].
    assert (Hf : (fexp prec emax (d1 + ea - (d2 + eb)) = d1 + ea - (d2 + eb) - 53)%Z).
    { destruct (fexp_cases (d1 + ea - (d2 + eb))) as [[F _]|[F _]]; [exact F|].
      unfold e' in He. lia. }
    assert (Hs' : (53 - d1 + d2 <= s)%Z) by (unfold s, e'; lia).
    pose proof (digits2_pos_lower ma) as La. pose proof (digits2_pos_upper mb) as Ub.
    fold d1 in La. fold d2 in Ub.
    assert (H1 : (2 ^ d2 <= 2 ^ (d1 - 1) * 2 ^ s)%Z).
    { rewrite <- Z.pow_add_r by (unfold d1; lia). apply Z.pow_le_mono_r; unfold d1; lia. }
    assert (H2 : (Zpos mb <= m')%Z) by nia.
    destruct (Z.eq_dec q 0) as [->|]; [lia|lia].
  - assert (Hv : (IZR (Zpos ma) * pow2 ea) / (IZR (Zpos mb) * pow2 eb)
                 = IZR m' / IZR (Zpos mb) * pow2 e').
    { rewrite Hm', mult_IZR, <- (pow2_IZR s Hs).
      replace ea with (e' + s + eb)%Z at 1 by (unfold s; lia).
      rewrite !pow2_add.
      pose proof (pow2_pos eb). assert (0 < IZR (Zpos mb)) by (apply IZR_lt; lia).
      field. split; lra. }
    rewrite Hv.
    assert (Hb : 0 < IZR (Zpos mb)) by (apply IZR_lt; lia).
    assert (H1 : IZR q <= IZR m' / IZR (Zpos mb)).
    { apply (Rmult_le_reg_r (IZR (Zpos mb))); [exact Hb|].
      unfold Rdiv. rewrite Rmult_assoc, Rinv_l, Rmult_1_r by lra.
      rewrite <- mult_IZR. apply IZR_le. nia. }
    assert (H2 : IZR m' / IZR (Zpos mb) < IZR q + 1).
    { apply (Rmult_lt_reg_r (IZR (Zpos mb))); [exact Hb|].
      unfold Rdiv. rewrite Rmult_assoc, Rinv_l, Rmult_1_r by lra.
      rewrite <- plus_IZR, <- mult_IZR. apply IZR_lt. nia. }
    pose proof (pow2_pos e'). split; nra.
Qed.

(** Division by a number that is not a zero. *)
Lemma div_near a b :
  is_finite (a / b) = true -> is_finite b = true -> F2R b <> 0 ->
  is_finite a = true /\ near (F2R (a / b)) (F2R a / F2R b).
Proof.
  rewrite !is_finite_SFfinite. unfold F2R.
  pose proof (Prim2SF_valid (a / b)) as V. revert V.
  rewrite FloatAxioms.div_spec. unfold SF64div, SFdiv.
  destruct (Prim2SF a) as [sa|sa| |sa ma ea], (Prim2SF b) as [sb|sb| |sb mb eb];
    try discriminate; intros V F _ Hb; try (cbn [SF2R] in Hb; lra);
    (split; [reflexivity|]).
  - cbn [SF2R]. unfold Rdiv. rewrite Rmult_0_l. apply near_refl.
  - pose proof (SFdiv_core_binary_spec ma ea mb eb) as Hc.
    destruct (SFdiv_core_binary prec emax (Zpos ma) ea (Zpos mb) eb) as [[q e'] l].
    destruct Hc as (Hq & Hqe & Hx).
    rewrite !SF2R_finite.
    assert (Hnz : IZR (Zpos mb) * pow2 eb <> 0).
    { pose proof (pow2_pos eb). assert (0 < IZR (Zpos mb)) by (apply IZR_lt; lia). nra. }
    replace ((if sa then - 1 else 1) * (IZR (Zpos ma) * pow2 ea)
             / ((if sb then - 1 else 1) * (IZR (Zpos mb) * pow2 eb)))
      with (if xorb sa sb
            then - ((IZR (Zpos ma) * pow2 ea) / (IZR (Zpos mb) * pow2 eb))
            else (IZR (Zpos ma) * pow2 ea) / (IZR (Zpos mb) * pow2 eb))
      by (pose proof (pow2_pos eb);
          assert (0 < IZR (Zpos mb)) by (apply IZR_lt; lia);
          destruct sa, sb; cbn [xorb]; field; split; lra).
    exact (binary_round_aux_near _ q e' l _ Hq Hqe Hx V F).
Qed.

End OpSpecs.

Section Order.
Local Open Scope R_scope.

Lemma valid_mantissa s m e :
  valid_binary (S754_finite s m e) = true ->
  IZR (Zpos m) < pow2 53 /\ (emin <= e)%Z /\ ((emin < e)%Z -> pow2 52 <= IZR (Zpos m)).
Proof.
  cbn [valid_binary]. unfold bounded. intros V.
  apply andb_prop in V. destruct V as [C _].
  apply canonical_digits in C. destruct C as (Hd & He & Hn).
  split; [|split; [exact He|]].
  - rewrite (pow2_IZR 53) by lia. apply IZR_lt.
    pose proof (digits2_pos_upper m) as Hu.
    assert (2 ^ Zpos (digits2_pos m) <= 2 ^ 53)%Z by (apply Z.pow_le_mono_r; [lia|exact Hd]).
    lia.
  - intros H. rewrite (pow2_IZR 52) by lia. apply IZR_le.
    pose proof (digits2_pos_lower m) as Hl. rewrite (Hn H) in Hl. exact Hl.
Qed.

(** Among valid positive numbers, the smaller exponent is the smaller
    number. *)
Lemma exponent_order s1 m1 e1 s2 m2 e2 :
  valid_binary (S754_finite s1 m1 e1) = true ->
  valid_binary (S754_finite s2 m2 e2) = true ->
  (e1 < e2)%Z ->
  IZR (Zpos m1) * pow2 e1 < IZR (Zpos m2) * pow2 e2.
Proof.
  intros V1 V2 He.
  destruct (valid_mantissa _ _ _ V1) as (U1 & E1 & _).
  destruct (valid_mantissa _ _ _ V2) as (_ & _ & L2).
  specialize (L2 ltac:(lia)).
  pose proof (pow2_le (e1 + 1) e2 ltac:(lia)) as Hp. rewrite pow2_succ in Hp.
  pose proof (pow2_pos e1) as P1.
  assert (H53 : pow2 53 = 2 * pow2 52).
  { replace 53%Z with (52 + 1)%Z by reflexivity. apply pow2_succ. }
  pose proof (pow2_pos 52) as P52.
  apply Rlt_le_trans with (pow2 53 * pow2 e1).
  - apply Rmult_lt_compat_r; assumption.
  - rewrite H53. apply Rle_trans with (pow2 52 * pow2 e2).
    + replace (2 * pow2 52 * pow2 e1) with (pow2 52 * (2 * pow2 e1)) by ring.
      apply Rmult_le_compat_l; lra.
    + apply Rmult_le_compat_r; [|exact L2]. pose proof (pow2_pos e2). lra.
Qed.

Lemma magnitude_order m1 e1 m2 e2 :
  valid_binary (S754_finite false m1 e1) = true ->
  valid_binary (S754_finite false m2 e2) = true ->
  match (match Z.compare e1 e2 with
         | Lt => Lt | Gt => Gt | Eq => Pos.compare_cont Eq m1 m2 end) with
  | Lt => IZR (Zpos m1) * pow2 e1 < IZR (Zpos m2) * pow2 e2
  | Eq => IZR (Zpos m1) * pow2 e1 = IZR (Zpos m2) * pow2 e2
  | Gt => IZR (Zpos m2) * pow2 e2 < IZR (Zpos m1) * pow2 e1
  end.
Proof.
  intros V1 V2. destruct (Z.compare_spec e1 e2) as [E|L|G].
  - subst e2. change (Pos.compare_cont Eq m1 m2) with (Pos.compare m1 m2).
    pose proof (pow2_pos e1).
    destruct (Pos.compare_spec m1 m2) as [E|L|G].
    + subst. reflexivity.
    + apply Rmult_lt_compat_r; [assumption|]. apply IZR_lt. lia.
    + apply Rmult_lt_compat_r; [assumption|]. apply IZR_lt. lia.
  - exact (exponent_order _ _ _ _ _ _ V1 V2 L).
  - exact (exponent_order _ _ _ _ _ _ V2 V1 G).
Qed.

Lemma valid_sign s s' m e :
  valid_binary (S754_finite s m e) = valid_binary (S754_finite s' m e).
Proof. reflexivity. Qed.

(** [SFcompare] orders valid finite numbers as the reals they stand for. *)
Lemma SFcompare_real x y :
  valid_binary x = true -> valid_binary y = true ->
  SFfinite x = true -> SFfinite y = true ->
  match SFcompare x y with
  | Some Lt => SF2R x < SF2R y
  | Some Eq => SF2R x = SF2R y
  | Some Gt => SF2R y < SF2R x
  | None => False
  end.
Proof.
  intros Vx Vy Fx Fy.
  destruct x as [sx|sx| |sx mx ex], y as [sy|sy| |sy my ey]; try discriminate.
  - reflexivity.
  - cbn [SFcompare]. rewrite SF2R_finite. cbn [SF2R].
    pose proof (pow2_pos ey). assert (0 < IZR (Zpos my)) by (apply IZR_lt; lia).
    destruct sy; nra.
  - cbn [SFcompare]. rewrite SF2R_finite. cbn [SF2R].
    pose proof (pow2_pos ex). assert (0 < IZR (Zpos mx)) by (apply IZR_lt; lia).
    destruct sx; nra.
  - rewrite !SF2R_finite.
    pose proof (pow2_pos ex). assert (0 < IZR (Zpos mx)) by (apply IZR_lt; lia).
    pose proof (pow2_pos ey). assert (0 < IZR (Zpos my)) by (apply IZR_lt; lia).
    assert (0 < IZR (Zpos mx) * pow2 ex) by nra.
    assert (0 < IZR (Zpos my) * pow2 ey) by nra.
    rewrite (valid_sign sx false) in Vx. rewrite (valid_sign sy false) in Vy.
    pose proof (magnitude_order mx ex my ey Vx Vy) as Hm.
    destruct sx, sy; cbn [SFcompare]; try lra.
    + destruct (Z.compare ex ey); [destruct (Pos.compare_cont Eq mx my)| |];
        cbn [CompOpp] in *; lra.
    + destruct (Z.compare ex ey); [destruct (Pos.compare_cont Eq mx my)| |]; lra.
Qed.

Lemma ltb_F2R a b :
  is_finite a = true -> is_finite b = true -> (a <? b)%float = true -> F2R a < F2R b.
Proof.
  rewrite !is_finite_SFfinite, FloatAxioms.ltb_spec. unfold SFltb, F2R.
  intros Fa Fb.
  pose proof (SFcompare_real _ _ (Prim2SF_valid a) (Prim2SF_valid b) Fa Fb) as H.
  destruct (SFcompare (Prim2SF a) (Prim2SF b)) as [[ | | ]|]; try discriminate.
  intros _. exact H.
Qed.

Lemma leb_F2R a b :
  is_finite a = true -> is_finite b = true -> (a <=? b)%float = true -> F2R a <= F2R b.
Proof.
  rewrite !is_finite_SFfinite, FloatAxioms.leb_spec. unfold SFleb, F2R.
  intros Fa Fb.
  pose proof (SFcompare_real _ _ (Prim2SF_valid a) (Prim2SF_valid b) Fa Fb) as H.
  destruct (SFcompare (Prim2SF a) (Prim2SF b)) as [[ | | ]|]; try discriminate;
    intros _; lra.
Qed.

Lemma not_ltb_F2R a b :
  is_finite a = true -> is_finite b = true -> (a <? b)%float = false -> F2R b <= F2R a.
Proof.
  rewrite !is_finite_SFfinite, FloatAxioms.ltb_spec. unfold SFltb, F2R.
  intros Fa Fb.
  pose proof (SFcompare_real _ _ (Prim2SF_valid a) (Prim2SF_valid b) Fa Fb) as H.
  destruct (SFcompare (Prim2SF a) (Prim2SF b)) as [[ | | ]|]; try discriminate;
    intros _; lra.
Qed.

(** A number between two finite numbers is finite. *)
Lemma between_finite lo x hi :
  is_finite lo = true -> is_finite hi = true ->
  (lo <=? x)%float = true -> (x <=? hi)%float = true -> is_finite x = true.
Proof.
  rewrite !is_finite_SFfinite, !FloatAxioms.leb_spec. unfold SFleb.
  destruct (Prim2SF lo) as [sl|sl| |sl ml el], (Prim2SF hi) as [sh|sh| |sh mh eh];
    try discriminate; intros _ _;
    destruct (Prim2SF x) as [s|s| |s m e]; cbn; try reflexivity; try discriminate;
    destruct s; cbn; try discriminate; try (destruct sl; discriminate);
    try (destruct sh; discriminate).
Qed.

Lemma positive_finite_F2R x :
  (0 <? x)%float = true -> is_finite x = true -> 0 < F2R x.
Proof.
  intros Hp Hf.
  pose proof (ltb_F2R 0 x eq_refl Hf Hp) as H.
  replace (F2R 0) with 0 in H by (unfold F2R; reflexivity). exact H.
Qed.

Lemma F2R_abs x : F2R (abs x) = Rabs (F2R x).
Proof.
  unfold F2R. rewrite FloatAxioms.abs_spec.
  destruct (Prim2SF x) as [s|s| |s m e]; cbn [SFabs];
    try (cbn [SF2R]; rewrite Rabs_R0; reflexivity).
  rewrite !SF2R_finite.
  pose proof (pow2_pos e). assert (0 < IZR (Zpos m)) by (apply IZR_lt; lia).
  assert (0 < IZR (Zpos m) * pow2 e) by nra.
  destruct s.
  - rewrite Rabs_left by lra. lra.
  - rewrite Rabs_right by lra. lra.
Qed.

Lemma is_finite_abs x : is_finite (abs x) = is_finite x.
Proof.
  rewrite !is_finite_SFfinite, FloatAxioms.abs_spec.
  destruct (Prim2SF x); reflexivity.
Qed.

End Order.

Section Constants.
Local Open Scope R_scope.

Lemma SF2R_negative_exponent m e :
  (e < 0)%Z -> SF2R (S754_finite false m e) = IZR (Zpos m) / IZR (2 ^ (- e)).
Proof.
  intros He. cbn [SF2R cond_Zopp].
  replace e with (- - e)%Z at 1 by lia. rewrite pow2_neg, pow2_IZR by lia.
  reflexivity.
Qed.

Lemma F2R_zero : F2R 0 = 0.
Proof. reflexivity. Qed.

Lemma F2R_one : F2R 1 = 1.
Proof.
  unfold F2R. rewrite Prim2SF_one, SF2R_negative_exponent by lia.
  change (2 ^ (- -52))%Z with 4503599627370496%Z. field.
Qed.

Lemma F2R_hundred : F2R 100 = 100.
Proof.
  unfold F2R. rewrite Prim2SF_hundred, SF2R_negative_exponent by lia.
  change (2 ^ (- -46))%Z with 70368744177664%Z. lra.
Qed.

Lemma Prim2SF_epsilon :
  Prim2SF (EPSILON PRECISION_CONFIG) = S754_finite false 4503599627370496 (-104).
Proof. vm_compute. reflexivity. Qed.

Lemma F2R_epsilon : F2R (EPSILON PRECISION_CONFIG) = / 4503599627370496.
Proof.
  unfold F2R. rewrite Prim2SF_epsilon, SF2R_negative_exponent by lia.
  change (2 ^ (- -104))%Z with (4503599627370496 * 4503599627370496)%Z.
  rewrite mult_IZR. field.
Qed.

Lemma Prim2SF_millionth :
  Prim2SF 0.000001 = S754_finite false 4722366482869645 (-72).
Proof. vm_compute. reflexivity. Qed.

Lemma F2R_millionth : 999999 / 1000000000000 <= F2R 0.000001.
Proof.
  unfold F2R. rewrite Prim2SF_millionth, SF2R_negative_exponent by lia.
  change (2 ^ (- -72))%Z with 4722366482869645213696%Z. lra.
Qed.

Lemma u51_value : pow2 (-51) = / 2251799813685248.
Proof.
  replace (-51)%Z with (Z.opp 51) by reflexivity.
  rewrite pow2_neg, pow2_IZR by lia. reflexivity.
Qed.

(** The smallest positive doubles are far below anything that matters
    here. *)
Lemma eta_bounds :
  0 < pow2 (-1073) <= / 1000000000000000000000000000000000000000000000000000000000000.
Proof.
  split; [apply pow2_pos|].
  replace (-1073)%Z with (Z.opp 1073) by reflexivity.
  rewrite pow2_neg, pow2_IZR by lia.
  apply Rinv_le_contravar; [lra|].
  apply IZR_le. vm_compute. discriminate.
Qed.

End Constants.

Section MathRound.
Local Open Scope R_scope.

Lemma is_finite_Math_round z :
  is_finite (JS.Math_round z) = true -> is_finite z = true.
Proof.
  unfold JS.Math_round. rewrite (is_finite_SFfinite z).
  destruct (Prim2SF z) as [s|s| |s m e] eqn:E; try reflexivity;
    rewrite is_finite_SFfinite, E; discriminate.
Qed.

(** [Math.round] of a positive number: an integer at most one half away,
    up to the rounding of its conversion. *)
Lemma Math_round_near z :
  is_finite (JS.Math_round z) = true -> 0 < F2R z ->
  exists n, Rabs (n - F2R z) <= / 2 /\ near (F2R (JS.Math_round z)) n.
Proof.
  intros Fk Hz. unfold JS.Math_round in *. unfold F2R in Hz.
  pose proof (Prim2SF_valid z) as Vz.
  destruct (Prim2SF z) as [s|s| |s m e] eqn:E; cbn [SF2R] in Hz; try lra.
  assert (Hs : s = false).
  { destruct s; [|reflexivity]. cbn [cond_Zopp] in Hz.
    pose proof (pow2_pos e). assert (IZR (- Zpos m) < 0) by (apply IZR_lt; lia). nra. }
  subst s.
  destruct (0 <=? e)%Z eqn:He.
  - exists (F2R z). split; [|apply near_refl].
    replace (F2R z - F2R z) with 0 by ring. rewrite Rabs_R0. lra.
  - apply Z.leb_gt in He. cbn [cond_Zopp] in *.
    set (t := (2 ^ (- e))%Z).
    assert (Ht : (2 <= t)%Z).
    { unfold t. change 2%Z with (2 ^ 1)%Z at 1. apply Z.pow_le_mono_r; lia. }
    assert (Ht2 : (2 ^ (1 - e) = 2 * t)%Z).
    { unfold t. replace (1 - e)%Z with (Z.succ (- e)) by lia.
      rewrite Z.pow_succ_r by lia. reflexivity. }
    rewrite Ht2 in *.
    set (n := ((2 * Zpos m + t) / (2 * t))%Z) in *.
    change (is_finite (of_uint63 (Uint63.of_Z n)) = true) in Fk.
    pose proof (Z.mul_div_le (2 * Zpos m + t) (2 * t) ltac:(lia)) as H1.
    pose proof (Z.mul_succ_div_gt (2 * Zpos m + t) (2 * t) ltac:(lia)) as H2.
    fold n in H1, H2.
    destruct (valid_mantissa _ _ _ Vz) as (Um & _ & _).
    rewrite (pow2_IZR 53) in Um by lia. apply lt_IZR in Um.
    assert (Hn : (0 <= n < 2 ^ 63)%Z).
    { split; [apply Z.div_pos; lia|].
      assert (2 * t * n < 2 * t * 2 ^ 63)%Z; [|nia].
      change (2 ^ 53)%Z with 9007199254740992%Z in Um.
      change (2 ^ 63)%Z with 9223372036854775808%Z. nia. }
    exists (IZR n). split.
    + unfold F2R. rewrite E, SF2R_negative_exponent by lia. fold t.
      assert (Tpos : 0 < IZR t) by (apply IZR_lt; lia).
      assert (H3 : (2 * Zpos m + t + 1 <= 2 * t * n + 2 * t)%Z) by lia.
      apply IZR_le in H1, H3.
      rewrite ?plus_IZR in H1. rewrite ?mult_IZR in H1.
      rewrite ?plus_IZR in H3. rewrite ?mult_IZR in H3.
      apply Rabs_le.
      assert (Hq : IZR (Zpos m) / IZR t * IZR t = IZR (Zpos m)) by (field; lra).
      set (q := IZR (Zpos m) / IZR t) in *.
      assert (Hd : (IZR n - q) * (2 * IZR t) = 2 * IZR t * IZR n - 2 * IZR (Zpos m))
        by (rewrite <- Hq; ring).
      split; apply (Rmult_le_reg_r (2 * IZR t)); try lra; rewrite Hd; lra.
    + unfold F2R. pose proof (Prim2SF_valid (of_uint63 (Uint63.of_Z n))) as V.
      rewrite is_finite_SFfinite in Fk. revert V Fk.
      rewrite FloatAxioms.of_uint63_spec, Uint63.of_Z_spec.
      rewrite Z.mod_small by (change Uint63Axioms.wB with (2 ^ 63)%Z; exact Hn).
      intros V Fk.
      pose proof (binary_normalize_near n 0 V Fk) as H.
      rewrite pow2_0, Rmult_1_r in H. exact H.
Qed.

End MathRound.

Section Signs.
Local Open Scope R_scope.

(** A finite quotient above zero of a number above zero has a finite
    divisor above zero. *)
Lemma div_positive a b :
  (0 <? a / b)%float = true -> is_finite (a / b) = true -> (0 <? a)%float = true ->
  is_finite b = true /\ 0 < F2R b.
Proof.
  intros Hq Hf Ha. rewrite is_finite_SFfinite in *.
  rewrite FloatAxioms.ltb_spec in Hq, Ha. rewrite FloatAxioms.div_spec in Hq, Hf.
  change (Prim2SF 0) with (S754_zero false) in *. unfold F2R.
  unfold SF64div, SFdiv in *.
  destruct (Prim2SF a) as [sa|sa| |sa ma ea]; try discriminate Ha;
    destruct (Prim2SF b) as [sb|sb| |sb mb eb]; try discriminate Hf; try discriminate Hq.
  pose proof (SFdiv_core_binary_spec ma ea mb eb) as Hc.
  destruct (SFdiv_core_binary prec emax (Zpos ma) ea (Zpos mb) eb) as [[q e'] l].
  destruct Hc as (Hq0 & _).
  pose proof (binary_round_aux_sign (xorb sa sb) q e' l Hq0) as Hs.
  split; [reflexivity|].
  rewrite SF2R_finite.
  pose proof (pow2_pos eb). assert (0 < IZR (Zpos mb)) by (apply IZR_lt; lia).
  destruct sa; [discriminate Ha|]. cbn [xorb] in *.
  destruct (binary_round_aux prec emax sb q e' l) as [s|s| |s m e];
    cbn in Hs; try discriminate Hf; try contradiction; subst s.
  + destruct sb; discriminate Hq.
  + destruct sb; [discriminate Hq|]. nra.
Qed.

End Signs.

Section Propagation.
Local Open Scope R_scope.

Lemma Rabs_bound x y : Rabs x <= y <-> - y <= x <= y.
Proof.
  split; [|apply Rabs_le].
  unfold Rabs. destruct (Rcase_abs x); lra.
Qed.

(** What a rounded value is at most, and how far it is from what was
    rounded, when that is at most [B] in absolute value. *)
Lemma near_elim c x B :
  near c x -> - B <= x <= B ->
  (- ((1 + 2 * pow2 (-51)) * B + 2 * pow2 (-1073)) <= c
   <= (1 + 2 * pow2 (-51)) * B + 2 * pow2 (-1073))
  /\ (- (pow2 (-51) * ((1 + 2 * pow2 (-51)) * B) + 2 * pow2 (-1073)) <= c - x
      <= pow2 (-51) * ((1 + 2 * pow2 (-51)) * B) + 2 * pow2 (-1073)).
Proof.
  unfold near. intros H Hx.
  pose proof eta_bounds as [He _]. rewrite u51_value in *.
  unfold Rabs in H. destruct (Rcase_abs (c - x)), (Rcase_abs c); split; lra.
Qed.

(** The denominator computed in binary64 and the exact one. *)
Lemma denominator_error v i r t1 t2 t3 D :
  0 <= v <= 1 -> 0 <= i <= 1 -> 0 <= r <= 1 ->
  near t1 (1 + v) -> near t2 (t1 - i) -> near t3 (v * r) -> near D (t2 - t3) ->
  - (8 * pow2 (-51)) <= D - (1 + v - i - v * r) <= 8 * pow2 (-51)
  /\ - 3 <= D <= 3.
Proof.
  intros Hv Hi Hr N1 N2 N3 N4.
  assert (Hw : 0 <= v * r <= 1) by nra.
  set (w := v * r) in *. clearbody w.
  pose proof eta_bounds as He.
  apply (near_elim _ _ 2) in N1;
    [rewrite ?u51_value in N1|rewrite ?u51_value; lra].
  apply (near_elim _ _ (21 / 10)) in N2;
    [rewrite ?u51_value in N2|rewrite ?u51_value; lra].
  apply (near_elim _ _ 1) in N3;
    [rewrite ?u51_value in N3|rewrite ?u51_value; lra].
  apply (near_elim _ _ (22 / 10)) in N4;
    [rewrite ?u51_value in N4|rewrite ?u51_value; lra].
  rewrite u51_value. lra.
Qed.


Lemma scale_bound r d E : 0 <= r <= 1 -> - E <= d <= E -> - E <= r * d <= E.
Proof. intros Hr Hd. split; nra. Qed.

(** The net amount before the final rounding, computed in binary64 without
    rounding per line, and the exact one. *)
Lemma net_error s v i r p1 p2 p3 a1 a2 X :
  0 < s -> 0 <= v <= 1 -> 0 <= i <= 1 -> 0 <= r <= 1 ->
  near p1 (s * v) -> near p2 (s * i) -> near p3 (p1 * r) ->
  near a1 (s + p1) -> near a2 (a1 - p2) -> near X (a2 - p3) ->
  - (101 / 10 * pow2 (-51) * s + 40 * pow2 (-1073))
  <= X - s * (1 + v - i - v * r)
  <= 101 / 10 * pow2 (-51) * s + 40 * pow2 (-1073).
Proof.
  intros Hs Hv Hi Hr N1 N2 N3 N4 N5 N6.
  replace (s * (1 + v - i - v * r)) with (s + s * v - s * i - s * v * r) by ring.
  assert (Hsv : 0 <= s * v <= s) by nra.
  assert (Hsi : 0 <= s * i <= s) by nra.
  assert (Hsvr : 0 <= s * v * r <= s * v) by nra.
  pose proof eta_bounds as He.
  set (sv := s * v) in *. set (si := s * i) in *. set (svr := sv * r) in *.
  apply (near_elim _ _ s) in N1;
    [rewrite ?u51_value in N1|rewrite ?u51_value; lra].
  apply (near_elim _ _ s) in N2;
    [rewrite ?u51_value in N2|rewrite ?u51_value; lra].
  destruct N1 as [B1 E1].
  destruct N2 as [B2 E2].
  assert (Hp1r : - ((1 + 2 * / 2251799813685248) * s + 2 * pow2 (-1073)) <= p1 * r
                 <= (1 + 2 * / 2251799813685248) * s + 2 * pow2 (-1073)).
  { replace (p1 * r) with (r * p1) by ring. apply scale_bound; [exact Hr|exact B1]. }
  assert (Hd : p1 * r - svr = r * (p1 - sv)) by (unfold svr; ring).
  pose proof (scale_bound r (p1 - sv) _ Hr E1) as Hd'. rewrite <- Hd in Hd'.
  set (p1r := p1 * r) in *. clearbody p1r sv si svr.
  apply (near_elim _ _ ((1 + 2 * / 2251799813685248) * s + 2 * pow2 (-1073))) in N3;
    [rewrite ?u51_value in N3|rewrite ?u51_value; lra].
  apply (near_elim _ _ ((2 + 2 * / 2251799813685248) * s + 2 * pow2 (-1073))) in N4;
    [rewrite ?u51_value in N4|rewrite ?u51_value; lra].
  apply (near_elim _ _ ((2 + 1 / 1000000) * s + 10 * pow2 (-1073))) in N5;
    [rewrite ?u51_value in N5|rewrite ?u51_value; lra].
  apply (near_elim _ _ ((2 + 1 / 1000000) * s + 20 * pow2 (-1073))) in N6;
    [rewrite ?u51_value in N6|rewrite ?u51_value; lra].
  rewrite u51_value. lra.
Qed.

(** The net amount before rounding and the target. *)
Lemma round_trip_error N D Dx s X :
  0 < N -> 0 < s ->
  999999 / 1000000000000 <= D <= 21 / 10 ->
  - (8 * pow2 (-51)) <= D - Dx <= 8 * pow2 (-51) ->
  near s (N / D) ->
  - (101 / 10 * pow2 (-51) * s + 40 * pow2 (-1073)) <= X - s * Dx
  <= 101 / 10 * pow2 (-51) * s + 40 * pow2 (-1073) ->
  - (9 / 1000000000 * N + 50 * pow2 (-1073)) <= X - N
  <= 9 / 1000000000 * N + 50 * pow2 (-1073).
Proof.
  intros HN Hs HD HDx Ns HX.
  pose proof eta_bounds as He.
  assert (Hq : N / D * D = N) by (field; lra).
  assert (Hq0 : 0 < N / D) by (apply Rdiv_lt_0_compat; lra).
  set (q := N / D) in *.
  assert (Hqc : q * (999999 / 1000000000000) <= N) by nra.
  unfold near in Ns. rewrite (Rabs_right s) in Ns by lra.
  apply Rabs_bound in Ns. rewrite u51_value in *.
  assert (H1 : - (8 * / 2251799813685248 * s) <= s * (Dx - D)
               <= 8 * / 2251799813685248 * s) by (split; nra).
  assert (H2 : - (21 / 10 * (/ 2251799813685248 * s + pow2 (-1073))) <= D * (s - q)
               <= 21 / 10 * (/ 2251799813685248 * s + pow2 (-1073))) by (split; nra).
  assert (H3 : s * Dx - N = s * (Dx - D) + D * (s - q)) by (rewrite <- Hq; ring).
  set (a := s * (Dx - D)) in *. set (b := D * (s - q)) in *. set (c := s * Dx) in *.
  clearbody a b c q. lra.
Qed.

(** The final rounding to two decimals. *)
Lemma round2_error X y z n k net :
  - / 100000000000000000000 <= X ->
  near y (X + / 4503599627370496) -> near z (y * 100) ->
  - / 2 <= n - z <= / 2 -> near k n -> near net (k / 100) ->
  - (5 / 1000 + 3 / 10000000000000000 + 5 * pow2 (-51) * X) <= net - X
  <= 5 / 1000 + 3 / 10000000000000000 + 5 * pow2 (-51) * X.
Proof.
  intros HX Ny Nz Hn Nk Nn.
  pose proof eta_bounds as He.
  apply (near_elim _ _ (X + / 4503599627370496)) in Ny;
    [rewrite ?u51_value in Ny|rewrite ?u51_value; lra].
  destruct Ny as [By Ey].
  apply (near_elim _ _ (100 * ((1 + / 1000000000000) * (X + / 4000000000000000)))) in Nz;
    [rewrite ?u51_value in Nz|rewrite ?u51_value; lra].
  destruct Nz as [Bz Ez].
  apply (near_elim _ _ (100 * ((1 + / 1000000000000) * (X + / 3500000000000000)) + / 2)) in Nk;
    [rewrite ?u51_value in Nk|rewrite ?u51_value; lra].
  destruct Nk as [Bk Ek].
  apply (near_elim _ _ ((1 + / 1000000000000) * (X + / 3000000000000000) + 6 / 1000)) in Nn;
    [rewrite ?u51_value in Nn|rewrite ?u51_value; lra].
  destruct Nn as [Bn En].
  rewrite u51_value. lra.
Qed.

Lemma round2_positive X y z :
  - / 100000000000000000000 <= X ->
  near y (X + / 4503599627370496) -> near z (y * 100) -> 0 < y /\ 0 < z.
Proof.
  intros HX Ny Nz.
  pose proof eta_bounds as He.
  unfold near in *. rewrite u51_value in *.
  unfold Rabs in Ny, Nz.
  destruct (Rcase_abs (y - (X + / 4503599627370496))), (Rcase_abs y),
    (Rcase_abs (z - y * 100)), (Rcase_abs z); split; lra.
Qed.

End Propagation.

Lemma inUnitInterval_F2R p :
  inUnitInterval p = true -> is_finite p = true /\ (0 <= F2R p <= 1)%R.
Proof.
  unfold inUnitInterval. intros H. apply andb_prop in H. destruct H as [H0 H1].
  assert (Hf : is_finite p = true) by exact (between_finite 0 p 1 eq_refl eq_refl H0 H1).
  split; [exact Hf|].
  pose proof (leb_F2R 0 p eq_refl Hf H0) as L0.
  pose proof (leb_F2R p 1 Hf eq_refl H1) as L1.
  rewrite F2R_zero in L0. rewrite F2R_one in L1. split; assumption.
Qed.

(** The algebraic round trip on the reals: the net amount rebuilt from the
    algebraic subtotal, when it is finite, is the target up to the final
    rounding to two decimals and the error of the binary64 operations. *)
Lemma round_trip_bound (this : RateSet) (N : float) :
  (0 <? N) = true ->
  (JS.Math_abs (TaxCalculator.denominator this) <? 0.000001) = false ->
  validRates this = true ->
  (0 <? N / TaxCalculator.denominator this) = true ->
  is_finite (round2_value
               (netBeforeRounding this (N / TaxCalculator.denominator this)
                  {| roundPerLine := false |})) = true ->
  is_finite N = true
  /\ (Rabs (F2R (round2_value
                   (netBeforeRounding this (N / TaxCalculator.denominator this)
                      {| roundPerLine := false |})) - F2R N)
      <= 5 / 1000 + / 1000000000000000 + F2R N / 100000000)%R.
Proof.
  intros HN Hden Hrates Hs Hfin.
  unfold validRates in Hrates.
  apply andb_prop in Hrates. destruct Hrates as [Hrates Hr].
  apply andb_prop in Hrates. destruct Hrates as [Hv Hi].
  apply inUnitInterval_F2R in Hv, Hi, Hr.
  destruct Hv as [Fv Rv], Hi as [Fi Ri], Hr as [Fr Rr].
  unfold round2_value, netBeforeRounding, effectiveLine in *.
  cbn [roundPerLine] in *.
  set (D := TaxCalculator.denominator this) in *.
  set (s := N / D) in *.
  set (v := vatRate this) in *. set (i := incomeTaxRate this) in *.
  set (r := vatRetentionFraction this) in *.
  set (X := s + s * v - s * i - s * v * r) in *.
  set (y := X + EPSILON PRECISION_CONFIG) in *.
  set (z := y * 100) in *.
  set (k := JS.Math_round z) in *.
  (* every intermediate result is finite *)
  destruct (div_near k 100 Hfin eq_refl) as [Fk Nnet].
  { rewrite F2R_hundred. lra. }
  pose proof (is_finite_Math_round z Fk) as Fz.
  destruct (mul_near y 100 Fz) as (Fy & _ & Nz).
  destruct (add_near X _ Fy) as (FX & _ & Ny).
  destruct (sub_near _ _ FX) as (Fa2 & Fp3 & NX).
  destruct (sub_near _ _ Fa2) as (Fa1 & Fp2 & Na2).
  destruct (add_near _ _ Fa1) as (Fs & Fp1 & Na1).
  destruct (mul_near _ _ Fp1) as (_ & _ & Np1).
  destruct (mul_near _ _ Fp2) as (_ & _ & Np2).
  destruct (mul_near _ _ Fp3) as (_ & _ & Np3).
  destruct (div_positive N D Hs Fs HN) as [FD RD].
  destruct (div_near N D Fs FD) as [FN Ns]; [lra|].
  unfold D, TaxCalculator.denominator in FD. fold v i r in FD.
  destruct (sub_near _ _ FD) as (Ft2 & Ft3 & ND).
  destruct (sub_near _ _ Ft2) as (Ft1 & _ & Nt2).
  destruct (add_near _ _ Ft1) as (_ & _ & Nt1).
  destruct (mul_near _ _ Ft3) as (_ & _ & Nt3).
  fold v i r in ND, Nt2, Nt1, Nt3.
  change (1 + v - i - v * r) with D in ND.
  (* what the comparisons say on the reals *)
  pose proof (positive_finite_F2R N HN FN) as RN.
  pose proof (positive_finite_F2R s Hs Fs) as Rs.
  assert (RDlow : (999999 / 1000000000000 <= F2R D)%R).
  { unfold JS.Math_abs in Hden.
    pose proof (not_ltb_F2R (abs D) 0.000001) as H.
    rewrite is_finite_abs in H. specialize (H FD eq_refl Hden).
    rewrite F2R_abs, (Rabs_right (F2R D)) in H by lra.
    pose proof F2R_millionth. lra. }
  rewrite F2R_one in Nt1. rewrite F2R_hundred in Nz, Nnet.
  rewrite F2R_epsilon in Ny.
  (* the errors *)
  pose proof (denominator_error _ _ _ _ _ _ _ Rv Ri Rr Nt1 Nt2 Nt3 ND) as [ED BD].
  pose proof (net_error _ _ _ _ _ _ _ _ _ _ Rs Rv Ri Rr Np1 Np2 Np3 Na1 Na2 NX) as EX.
  fold X in EX.
  assert (RDhigh : (F2R D <= 21 / 10)%R).
  { rewrite u51_value in ED.
    assert (0 <= F2R v * F2R r)%R by (apply Rmult_le_pos; lra). lra. }
  pose proof (round_trip_error _ _ _ _ _ RN Rs (conj RDlow RDhigh) ED Ns EX) as EN.
  pose proof eta_bounds as He.
  assert (HX : (- / 100000000000000000000 <= F2R X)%R) by lra.
  destruct (round2_positive _ _ _ HX Ny Nz) as [Ry Rz].
  destruct (Math_round_near z Fk Rz) as (n & Hn & Nk). fold k in Nk.
  apply Rabs_bound in Hn.
  pose proof (round2_error _ _ _ _ _ _ HX Ny Nz Hn Nk Nnet) as Enet.
  rewrite u51_value in Enet.
  split; [exact FN|]. apply Rabs_bound. lra.
Qed.

(** * The algebraic round trip *)

(** C7 (as amended).  For a target net [N] above zero and rates within
    [[0, 1]] whose denominator is not degenerate, the algebraic subtotal
    [s = N / denominator] is returned; its breakdown without per-line
    rounding is returned whenever its VAT line is above zero and its net
    amount is not NaN; and whenever a breakdown is returned with a finite net
    amount, the target is finite too and that net amount is [N] up to the
    final rounding to two decimals and the error of the binary64 operations:
    [|netAmount - N| <= 0.005 + 1e-15 + 1e-8 * N], on the reals the two
    doubles stand for. *)
Theorem algebraic_round_trip (this : RateSet) (N : float) :
  (0 <? N) = true ->
  (JS.Math_abs (TaxCalculator.denominator this) <? 0.000001) = false ->
  validRates this = true ->
  exists s,
    TaxCalculator.calculateSubtotalFromNetAlgebraic this N = Return s
    /\ s = N / (1 + vatRate this - incomeTaxRate this
                - vatRate this * vatRetentionFraction this)
    /\ ((0 <? s * vatRate this) = true ->
        is_nan (netBeforeRounding this s {| roundPerLine := false |}) = false ->
        exists b,
          TaxCalculator.calculateFromSubtotal this s {| roundPerLine := false |}
          = Return b)
    /\ (forall b,
          TaxCalculator.calculateFromSubtotal this s {| roundPerLine := false |}
          = Return b ->
          is_finite (netAmount b) = true ->
          is_finite N = true
          /\ (Rabs (F2R (netAmount b) - F2R N)
              <= 5 / 1000 + / 1000000000000000 + F2R N / 100000000)%R).
Proof.
  intros HN Hden Hrates.
  exists (N / TaxCalculator.denominator this).
  split.
  { unfold TaxCalculator.calculateSubtotalFromNetAlgebraic.
    rewrite (validatePositiveNumber_positive _ _ HN). cbn [bind].
    rewrite Hden. reflexivity. }
  split; [reflexivity|]. split.
  - intros Hvat Hnet.
    destruct (algebraic_subtotal_breakdown this N HN Hden Hrates Hvat Hnet)
      as (s & b & Hs & _ & Hb & _).
    unfold TaxCalculator.calculateSubtotalFromNetAlgebraic in Hs.
    rewrite (validatePositiveNumber_positive _ _ HN) in Hs. cbn [bind] in Hs.
    rewrite Hden in Hs. cbn [try_rethrow] in Hs. injection Hs as <-.
    exists b. exact Hb.
  - intros b Hb Hfin.
    destruct (calculateFromSubtotal_returns_conditions _ _ _ _ Hb) as (Hs & _).
    rewrite (calculateFromSubtotal_inv _ _ _ _ Hb) in *.
    cbn [netAmount breakdownOf] in *.
    exact (round_trip_bound this N HN Hden Hrates Hs Hfin).
Qed.

Lemma algebraic_round_trip_witness :
  exists s b,
    TaxCalculator.calculateSubtotalFromNetAlgebraic defaultRates 9280 = Return s
    /\ TaxCalculator.calculateFromSubtotal defaultRates s {| roundPerLine := false |}
       = Return b
    /\ (Rabs (F2R (netAmount b) - F2R 9280)
        <= 5 / 1000 + / 1000000000000000 + F2R 9280 / 100000000)%R.
Proof.
  destruct (algebraic_round_trip defaultRates 9280 eq_refl eq_refl eq_refl)
    as (s & Hs & Heq & Hret & Hbound).
  destruct Hret as [b Hb]; [subst s; vm_compute; reflexivity..|].
  exists s, b. split; [exact Hs|]. split; [exact Hb|].
  apply (Hbound b Hb).
  rewrite (calculateFromSubtotal_inv _ _ _ _ Hb). subst s. vm_compute. reflexivity.
Defined.

(** C7 (counterexample).  The net amount of a breakdown is always passed
    through [round2], also without per-line rounding.  With the default
    rates, whose denominator is not degenerate, the round trip of 100.004
    gives 100, four thousandths away and not within the tolerance of
    floating-point arithmetic; and the round trip of 1e307 gives
    [Infinity], because the hundredfold taken inside [round2] overflows. *)
Lemma algebraic_round_trip_counterexample :
  validRates defaultRates = true
  /\ (JS.Math_abs (TaxCalculator.denominator defaultRates) <? 0.000001) = false
  /\ ((0 <? 100.004) = true
      /\ (s <- TaxCalculator.calculateSubtotalFromNetAlgebraic defaultRates 100.004 ;;
          b <- TaxCalculator.calculateFromSubtotal defaultRates s
                 {| roundPerLine := false |} ;;
          Return (netAmount b)) = Return 100
      /\ (0.003 <? 100.004 - 100) = true)
  /\ ((0 <? 1e307) = true
      /\ (s <- TaxCalculator.calculateSubtotalFromNetAlgebraic defaultRates 1e307 ;;
          b <- TaxCalculator.calculateFromSubtotal defaultRates s
                 {| roundPerLine := false |} ;;
          Return (netAmount b)) = Return infinity).
Proof. repeat split; vm_compute; reflexivity. Qed.
